(* ===== verification/_CoqProject ===== *)
-Q . S2P
Prelude.v
PyStr.v
PyDict.v
PyJson.v
Utf8.v
JsonLoads.v
FileSys.v
Cli.v
PassCli.v
BWCli.v
BWItem.v
Main.v
Scenarios.v
