(* ===== verification/Prelude.v ===== *)
(** * bitwarden-to-pass: a verification development

    [src/bitwarden-to-pass.py] copies every item of a Bitwarden vault
    into a [pass] password store.  [main] prints a banner, unlocks the
    vault with [bw unlock --raw] until a token is printed ([BWCli.unlock]),
    runs [bw sync] and [bw list items], lists the names already in the
    store ([PassCli.list_pass_names]), decodes the items with
    [json.loads], and for each item in order computes its entry name
    ([BWItem.passname]) and body ([BWItem.format]), deletes an existing
    entry file of that name ([PassCli.pass_exists],
    [PassCli.remove_force]) and runs [pass insert -m] with the body
    ([PassCli.insert]).  It ends by printing the store's names that no
    item produced.

    ** Files, in dependency order

    - [Prelude]: the result type [result] (a value or a Python
      exception), the state, exception and divergence monad [ST] with
      the notation [x <- m ;; k] of scope [btp_scope], loops whose body
      may raise ([fold_enum] for [enumerate], [map_res] for list
      comprehensions), the tactics ([case_res], [decide_by_eval], ...),
      the hint databases [btp] and [btp_rw], and string lemmas.
    - [PyStr]: the [str] operations the script calls: [str.lower], the
      two [re.sub] calls, [split], slicing, [endswith], [removesuffix],
      [join], [str(int)], [repr(str)], the UTF-8 length.
    - [PyDict]: a Python [dict] as an insertion-ordered association list
      with distinct keys ([dict_set] is [d[k] = v], [dict_update] is
      [d.update(e)]).
    - [PyJson]: the values [json.loads] returns, the exceptions [exn]
      ([UnicodeDecodeError] with CPython's byte range and reason among
      them), and subscription, [get], [len], iteration, [str()], [==].
    - [Utf8]: [Module Utf8], the bytes that cross the process boundary
      (a byte is a [Z] in [0, 256)): [encode] is [str.encode('utf8')]
      and [bytes(s, 'utf-8')] (lines 115 and 183), built with [Z.lor],
      [Z.shiftr] and [Z.land]; [decode] is CPython's strict
      [bytes.decode('utf-8')] (lines 121, 130 and 142), which raises
      [UnicodeDecodeError] with the range and reason CPython reports.
    - [JsonLoads]: [Module JsonLoads], CPython's [json.loads] (line
      172) as the script runs it: [JSONDecoder.decode] and [raw_decode]
      ([loads_with], [json_loads]) over the C scanner
      ([scan_once_unicode] is [value], [_parse_array_unicode] is
      [elements], [_parse_object_unicode] is [members],
      [scanstring_unicode] is [scan_string], [_match_number_unicode] is
      [number]), with Python 3.12's messages and error indices; and the
      text [bw] prints, Node's [JSON.stringify] ([json_dumps]).
    - [FileSys]: the file system [FS] (files by absolute path, and
      directories), lexical path resolution, [os.path.join],
      [os.path.exists], [os.remove], [os.scandir], and [fs_write], the
      [mkdir -p] and write of [pass].
    - [Cli]: the behaviour of [bw] ([BwServer]: the bytes the k-th
      unlock call prints and the bytes [bw list items] prints per
      session, which [main] decodes with [Utf8.decode] and then
      [JsonLoads.json_loads]), the world [World]
      (file system, printed lines, number of unlock calls), the monad
      [M], [print], and [Module Cli], the class [Cli] (lines 108-115):
      [run] and [run_pipe] print the command line when asked and hand
      the command, and for [run_pipe] the UTF-8 bytes of its input, to
      [subprocess.run], which is an [Exec] handler (command and stdin
      bytes to stdout bytes) given
      by the component that models the program run.  Also the lemmas
      that run binds, [total] (a computation that never runs out of
      fuel) and [stable R] (every world it leaves is related by [R] to
      the one it started from; [out_prefix]: the output only grows),
      each with its hint database and tactic.
    - [PassCli]: the environment [Env]; the interface [PassTool] of the
      [pass] program with its laws [PassToolSpec] and the instance
      [pass_1_7], written after [cmd_insert] of pass 1.7; the handler
      [pass_exec] of [pass insert -m], which decodes its stdin; and
      [Module PassCli], the class
      [PassCli] (lines 132-152), whose [insert] runs [pass] through
      [Cli.run_pipe].
    - [BWCli]: [Module BWCli], the class [BWCli] (lines 117-130), whose
      methods run [bw] through [Cli.run] and decode its output, and the
      handler [bw_exec].
    - [BWItem]: [Module BWItem], the class [BWItem] (lines 9-106), and
      a reference [entries]: the body's entries as a plain list.
    - [Main]: [Module Main], [main] (lines 154-192) as [main] and
      [main_session], in a section over the [pass] tool, the
      environment and [bw].
    - [Scenarios]: concrete stores and [bw] behaviours, evaluated by
      [vm_compute]: the witnesses of the theorems and the examples
      behind the findings.

    ** Theorems

    The claims are theorems about the script's own definitions; the
    library models ([JsonLoads], [Utf8], [PyStr]) carry lemmas the
    claims use but make no claim of their own.

    - The run ([Main]): a complete run writes each item's body into its
      entry and leaves every other file ([main_syncs_store]); with
      items of the same name the last one wins ([main_store_contents]);
      when [bw] lists the UTF-8 bytes of [JSON.stringify] of a list of
      items, the run writes exactly those items' bodies
      ([main_syncs_listing]); the report lists exactly the top-level
      entries no item produced ([main_reports_orphans]); a second run
      leaves the same files ([main_idempotent]); [main] terminates once
      a token arrives ([main_terminates]); a store that cannot be
      listed, or a listing that is not UTF-8, that [json.loads]
      rejects or that is cut short, raises before anything is written
      ([main_store_error_first], [main_rejects_non_json],
      [main_rejects_truncated]), and so does an empty
      [PASSWORD_STORE_DIR] ([empty_store_dir_raises]).  Every command
      line [Cli.run] runs is printed before it runs, so the output of a
      run starts with the [bw] command lines carrying the session token
      ([main_logs_session]).  An entry [PassCli.insert] writes is
      listed afterwards ([insert_then_listed]).
    - The loop ([Main.sync_item], [Main.sync_items]): it prints one
      [Inserted] line per item, in order ([sync_items_log]); an item
      that raises stops it without rollback
      ([sync_items_stops_at_error]), and so does an entry whose file is
      a directory ([directory_entry_aborts]); an absolute name deletes a
      file outside the store ([absolute_name_deletes_outside_store]); a
      name [pass] refuses is reported as inserted while nothing is
      written ([sneaky_name_reported_not_written]).  These theorems use
      only the laws [PassToolSpec] of [pass].
    - The unlock loop ([BWCli]): a returned token is the first
      non-empty output ([unlock_sound]); with no output the loop never
      returns ([unlock_diverges]); output that is not UTF-8 ends the
      loop with [UnicodeDecodeError] instead of another attempt
      ([unlock_rejects_undecodable]); [fuel] turns make at most [fuel]
      calls, one printed command line each ([unlock_calls_bounded]).
    - The formatter ([BWItem]): [format], which fills a [dict], renders
      exactly the reference list of entries ([format_entries]); the
      shape of entry names ([passname_shape]); the labels of a login
      ([format_login_urls]) and of a card, whose expiry is never
      dropped ([format_card_fields]); custom fields numbered from 1 and
      attachments from 0 ([enumerate_labels]); a null URI list raises
      [TypeError] ([login_null_uris_type_error]); the type codes [true]
      and [false] ([bool_type_codes]); every body ends with a newline
      ([format_trailing_newline]); unknown type codes raise
      ([unknown_type_fails]).
    - The store client ([PassCli]): the script's file of a flat entry is
      the one [pass] writes ([script_and_pass_agree]); a missing store
      directory raises ([list_pass_names_missing]).
    - Library lemmas: [json.loads] reads back what [JSON.stringify]
      prints ([json_loads_dumps]), reports ["Extra data"] and
      ["Expecting value"] where CPython does ([json_loads_extra_data],
      [json_loads_blank]), never runs out of fuel ([json_loads_fuel]),
      and rejects a strict prefix of an array's text
      ([json_loads_truncated]); [Utf8.decode] inverts [Utf8.encode]
      ([utf8_roundtrip]).
    - [Scenarios]: the witnesses of the claims, the specification's
      end-to-end example ([spec_end_to_end]), a whole run
      ([run0_output]), and runs showing an absolute name, a refused
      name and a listing written in Latin-1.

    ** Bounds and fuel

    The only unbounded loop of the script is [while True] in
    [BWCli.unlock]; [BWCli.unlock fuel] makes at most [fuel] attempts
    and ends in [Diverged] when they are used up.  Every theorem about a
    returning run takes the run's result as a hypothesis, and
    [main_terminates] shows that any fuel larger than the index of the
    first non-empty unlock output is enough; [unlock_diverges] shows
    that no fuel is enough when none comes.  All other loops run over
    finite lists and are structural.  The JSON scanner recurses on the
    nesting of the text; [json_loads] gives it [2 n + 1] units of fuel
    for a text of [n] characters, since each character read costs at
    most two units (an opening bracket one for [value] and one for the
    loop it starts).  [scan_progress] shows this is enough and
    [json_loads_fuel] that any larger fuel gives the same result, so the
    model is the unbounded recursion of the C scanner.  Integers are
    Python integers (unbounded), modelled as [Z] and [nat].

    ** Not modelled

    JSON floats, [NaN], [Infinity] and [\u] escapes beyond U+00FF:
    [json_loads] ends in the [Unmodelled] error on them, which is not a
    Python exception; the interpreter's recursion limit, which CPython's
    scanner hits on deeply nested text; characters beyond Latin-1
    (strings are Latin-1 texts, so [Utf8.decode] ends in [Unmodelled]
    on a well-formed sequence of a code point above U+00FF, and every
    [UnicodeDecodeError] it raises is CPython's); symbolic links (paths are
    resolved lexically); the encryption, git commits and confirmation
    prompt of [pass] (the stored content stands for the encrypted
    body), and its refusal to insert into a store without a [.gpg-id]
    file or when [gpg] fails: [pass_1_7] is [pass] in an initialised
    store, and every store [Scenarios] inserts into holds a [.gpg-id];
    exit statuses and the captured output of [pass], which the
    script never reads; the order of [os.scandir], which is the order
    of the model's set; concurrent runs. *)

From stdpp Require Export base list strings gmap.
From Stdlib Require Export Ascii ZArith DecimalString DecimalNat.
From Stdlib Require String.

Declare Scope btp_scope.
Delimit Scope btp_scope with btp.
Open Scope btp_scope.

(** ** Results: a computation that returns a value or raises *)

Inductive result (E A : Type) : Type :=
| Ok (a : A)
| Err (e : E).
Arguments Ok {E A} a.
Arguments Err {E A} e.

#[export] Instance result_ret E : MRet (result E) := λ A a, Ok a.
#[export] Instance result_bind E : MBind (result E) :=
  λ A B f m, match m with Ok a => f a | Err e => Err e end.

(** ** The state, exception and divergence monad of the orchestrator *)

Inductive outcome (E A : Type) : Type :=
| Done (a : A)
| Raised (e : E)
| Diverged.
Arguments Done {E A} a.
Arguments Raised {E A} e.
Arguments Diverged {E A}.

Definition ST (S E A : Type) : Type := S → outcome E A * S.

#[export] Instance st_ret S E : MRet (ST S E) := λ A a s, (Done a, s).
#[export] Instance st_bind S E : MBind (ST S E) :=
  λ A B f m s,
    match m s with
    | (Done a, s') => f a s'
    | (Raised e, s') => (Raised e, s')
    | (Diverged, s') => (Diverged, s')
    end.

Definition st_get {S E} : ST S E S := λ s, (Done s, s).
Definition st_put {S E} (s : S) : ST S E () := λ _, (Done (), s).
Definition st_modify {S E} (f : S → S) : ST S E () := λ s, (Done (), f s).
Definition st_raise {S E A} (e : E) : ST S E A := λ s, (Raised e, s).
Definition st_lift {S E A} (r : result E A) : ST S E A :=
  λ s, match r with Ok a => (Done a, s) | Err e => (Raised e, s) end.

Notation "x <- m ;; k" := (mbind (λ x, k) m)
  (at level 100, m at next level, right associativity) : btp_scope.

(** A loop over [enumerate(xs)] whose body may raise: the index starts
    at [i] and the accumulator is threaded through. *)
Fixpoint fold_enum {E A B} (f : nat → B → A → result E A)
    (i : nat) (xs : list B) (acc : A) : result E A :=
  match xs with
  | [] => Ok acc
  | x :: xs' => acc' <- f i x acc ;; fold_enum f (S i) xs' acc'
  end.

(** [mapM] in the result monad: a list comprehension whose body may raise. *)
Fixpoint map_res {E A B} (f : A → result E B) (xs : list A) : result E (list B) :=
  match xs with
  | [] => Ok []
  | x :: xs' => y <- f x ;; ys <- map_res f xs' ;; Ok (y :: ys)
  end.

(** The list comprehension [[g(i, x) for i, x in enumerate(xs, i)]]
    whose body may raise. *)
Fixpoint map_enum {E A B} (g : nat → A → result E B) (i : nat) (xs : list A) :
    result E (list B) :=
  match xs with
  | [] => Ok []
  | x :: xs' => y <- g i x ;; ys <- map_enum g (S i) xs' ;; Ok (y :: ys)
  end.

(** ** Tactics and hint databases *)

Create HintDb btp discriminated.
Create Rewrite HintDb btp_rw.

Ltac invc H := inversion H; subst; clear H.

(** Prove a closed decidable proposition by evaluating its decision. *)
Ltac decide_by_eval :=
  match goal with |- ?P => apply (bool_decide_unpack P); vm_compute; exact I end.

(** Clean up equations between results and outcomes. *)
Ltac res_inv :=
  repeat match goal with
  | H : Ok _ = Ok _ |- _ => injection H as H; subst
  | H : Err _ = Err _ |- _ => injection H as H; subst
  | H : Ok _ = Err _ |- _ => discriminate H
  | H : Err _ = Ok _ |- _ => discriminate H
  | H : (_, _) = (_, _) |- _ => injection H as; subst
  | H : Done _ = Done _ |- _ => injection H as H; subst
  | H : Done _ = Raised _ |- _ => discriminate H
  | H : Raised _ = Done _ |- _ => discriminate H
  end.

(** ** Generic lemmas on results *)

Section result_lemmas.
Context {E : Type}.

Lemma bind_Ok {A B} (a : A) (f : A → result E B) : (x <- Ok a ;; f x) = f a.
Proof. reflexivity. Qed.

Lemma bind_Err {A B} (e : E) (f : A → result E B) : (x <- Err e ;; f x) = Err e.
Proof. reflexivity. Qed.

Lemma bind_Ok_inv {A B} (m : result E A) (f : A → result E B) b :
  (x <- m ;; f x) = Ok b → ∃ a, m = Ok a ∧ f a = Ok b.
Proof. destruct m; simpl; [eauto | discriminate]. Qed.

Lemma fold_enum_app {A B} (f : nat → B → A → result E A) i xs ys acc :
  fold_enum f i (xs ++ ys) acc =
  (acc' <- fold_enum f i xs acc ;; fold_enum f (i + length xs) ys acc').
Proof.
  revert i acc. induction xs as [|x xs IH]; intros i acc; simpl.
  - by rewrite Nat.add_0_r.
  - destruct (f i x acc); simpl; [|done].
    rewrite IH. by replace (S i + length xs) with (i + S (length xs)) by lia.
Qed.

Lemma map_res_Ok_length {A B} (f : A → result E B) xs ys :
  map_res f xs = Ok ys → length ys = length xs.
Proof.
  revert ys. induction xs as [|x xs IH]; intros ys H; simpl in H.
  - by res_inv.
  - destruct (f x); simpl in H; [|done].
    destruct (map_res f xs) eqn:Hm; simpl in H; res_inv; simpl; auto.
Qed.

Lemma map_enum_cons {A B} (g : nat → A → result E B) i x xs :
  map_enum g i (x :: xs) = (y <- g i x ;; ys <- map_enum g (S i) xs ;; Ok (y :: ys)).
Proof. reflexivity. Qed.

(** A comprehension over [enumerate(xs, i)] whose every turn returns a
    value computed from the matching element of [ys]. *)
Lemma map_enum_Forall2 {A B C} (g : nat → A → result E B) (h : nat → C → B) i xs ys :
  Forall2 (λ x y, ∀ k, g k x = Ok (h k y)) xs ys →
  map_enum g i xs = Ok (imap (λ k y, h (i + k) y) ys).
Proof.
  intros Hxy. revert i. induction Hxy as [|x y xs ys Hx _ IH]; intros i; [done|].
  rewrite map_enum_cons, Hx, bind_Ok, IH, bind_Ok, imap_cons, Nat.add_0_r.
  do 2 f_equal. apply imap_ext. intros k z _. cbn. f_equal. lia.
Qed.

Lemma map_res_map {A B} (f : A → B) xs :
  map_res (λ x, Ok (f x) : result E B) xs = Ok (map f xs).
Proof. induction xs as [|x xs IH]; simpl; [done | by rewrite IH]. Qed.
End result_lemmas.

#[export] Hint Rewrite @bind_Ok @bind_Err @map_res_map : btp_rw.

(** The computation a chain of binds runs first. *)
Ltac spine_head t :=
  lazymatch t with
  | @mbind _ _ _ _ _ ?m => spine_head m
  | _ => t
  end.

Ltac case_scrut m :=
  lazymatch m with
  | Ok _ => fail
  | Err _ => fail
  | if _ then _ else _ => fail
  | _ => let E := fresh "Hr" in destruct m eqn:E
  end.

(** Split on the computation that either side of an equation between
    results runs first, and reduce the binds that become [Ok] or [Err]. *)
Ltac case_res :=
  match goal with
  | |- ?l = ?r =>
      first [ let m := spine_head l in case_scrut m
            | let m := spine_head r in case_scrut m ];
      rewrite ?bind_Ok, ?bind_Err; cbv beta iota
  end.

(** The same, on a hypothesis [H : (x <- m ;; k) = r]. *)
Ltac case_res_in H :=
  match type of H with
  | ?l = _ =>
      let m := spine_head l in case_scrut m;
      rewrite ?bind_Ok, ?bind_Err in H; cbv beta iota in H
  end.

(** ** Generic lemmas on strings

    stdpp declares [String.append] [simpl never]; its two defining
    equations are the lemmas below, used by rewriting. *)

Lemma str_app_nil_l (s : string) : "" +:+ s = s.
Proof. reflexivity. Qed.

Lemma str_app_cons (c : ascii) (s1 s2 : string) :
  String.String c s1 +:+ s2 = String.String c (s1 +:+ s2).
Proof. reflexivity. Qed.

Lemma str_app_assoc (s1 s2 s3 : string) :
  s1 +:+ s2 +:+ s3 = (s1 +:+ s2) +:+ s3.
Proof. induction s1 as [|c s1 IH]; [done | by rewrite !str_app_cons, IH]. Qed.

Lemma str_app_nil_r (s : string) : s +:+ "" = s.
Proof. induction s as [|c s IH]; [done | by rewrite str_app_cons, IH]. Qed.

Lemma str_length_app (s1 s2 : string) :
  String.length (s1 +:+ s2) = String.length s1 + String.length s2.
Proof. induction s1 as [|c s1 IH]; [done | rewrite str_app_cons; cbn; by f_equal]. Qed.

Lemma str_app_inv_l (s s1 s2 : string) : s +:+ s1 = s +:+ s2 → s1 = s2.
Proof.
  induction s as [|c s IH]; [done |].
  rewrite !str_app_cons. intros H. injection H. auto.
Qed.

#[export] Hint Rewrite str_app_nil_l str_app_cons str_app_nil_r str_length_app : btp_rw.
#[export] Hint Resolve str_app_inv_l : btp.

(** ** Facts about all 256 characters, by evaluation *)

Definition ascii_all (p : ascii → bool) : bool :=
  forallb (λ n, p (ascii_of_nat n)) (seq 0 256).

Lemma ascii_all_spec p : ascii_all p = true → ∀ c, p c = true.
Proof.
  unfold ascii_all. intros H c. rewrite forallb_forall in H.
  rewrite <- (ascii_nat_embedding c). apply H.
  apply in_seq. pose proof (nat_ascii_bounded c). lia.
Qed.
