(* ===== verification/PyStr.v ===== *)
(** * Python string operations used by the script

    The script manipulates Python [str] values; here a [str] is a Rocq
    [string] whose characters are read as the code points U+0000 to
    U+00FF (Latin-1).  This file models the [str] methods and the two
    [re.sub] calls of [src/bitwarden-to-pass.py]: [str.lower],
    [re.sub('[-_|]', ' ', s)], [re.sub(' +', '-', s)], [str.split],
    slicing, [str.endswith], [str.removesuffix], [str.join], [str(int)],
    [repr(str)] and the length of the UTF-8 encoding. *)

From S2P Require Import Prelude.

(** ** Characters *)

Definition ch (n : nat) : ascii := ascii_of_nat n.

Definition is_upper_latin1 (n : nat) : bool :=
  ((65 <=? n) && (n <=? 90)) || ((192 <=? n) && (n <=? 222) && negb (n =? 215)).

(** [str.lower] on one Latin-1 code point: A-Z and the accented
    capitals U+00C0..U+00DE (except U+00D7, the multiplication sign)
    move down by 32; everything else is unchanged. *)
Definition lower_char (c : ascii) : ascii :=
  let n := nat_of_ascii c in
  if is_upper_latin1 n then ch (n + 32) else c.

Fixpoint py_lower (s : string) : string :=
  match s with
  | EmptyString => EmptyString
  | String.String c s' => String.String (lower_char c) (py_lower s')
  end.

(** The newline character, ['\n']. *)
Definition nl : string := String.String (ch 10) EmptyString.

(** The tab character, ['\t']. *)
Definition tab : string := String.String (ch 9) EmptyString.

(** [substr in s] *)
Definition str_contains (sub s : string) : bool :=
  match String.index 0 sub s with Some _ => true | None => false end.

(** ** The two regular-expression substitutions of [BWItem.passname] *)

(** The character class [[-_|]]. *)
Definition is_sep_char (c : ascii) : bool :=
  bool_decide (c = "-"%char) || bool_decide (c = "_"%char) || bool_decide (c = "|"%char).

(** [re.sub('[-_|]', ' ', s)]: every character of the class becomes a space. *)
Fixpoint re_sub_sep (s : string) : string :=
  match s with
  | EmptyString => EmptyString
  | String.String c s' =>
      String.String (if is_sep_char c then " "%char else c) (re_sub_sep s')
  end.

(** [re.sub(' +', '-', s)]: the leftmost-longest match of [' +'] is a
    maximal run of spaces; each run becomes a single hyphen.  The flag
    [in_run] records that the previous character was a replaced space. *)
Fixpoint sub_spaces_from (in_run : bool) (s : string) : string :=
  match s with
  | EmptyString => EmptyString
  | String.String c s' =>
      if bool_decide (c = " "%char) then
        if in_run then sub_spaces_from true s'
        else String.String "-" (sub_spaces_from true s')
      else String.String c (sub_spaces_from false s')
  end.

Definition re_sub_spaces (s : string) : string := sub_spaces_from false s.

(** ** [str.split(sep)] with a one-character separator *)

Fixpoint py_split (sep : ascii) (s : string) : list string :=
  match s with
  | EmptyString => [EmptyString]
  | String.String c s' =>
      let r := py_split sep s' in
      if bool_decide (c = sep) then EmptyString :: r
      else match r with
           | w :: ws => String.String c w :: ws
           | [] => [String.String c EmptyString]
           end
  end.

(** [s[a:b]] for [0 <= a <= b]: at most [b - a] characters from [a]. *)
Definition py_slice (a b : nat) (s : string) : string := String.substring a (b - a) s.

(** ** Suffixes *)

Definition py_endswith (s suf : string) : bool :=
  let n := String.length s in
  let m := String.length suf in
  (m <=? n) && String.eqb (String.substring (n - m) m s) suf.

(** [str.removesuffix(suf)] (Python 3.9): [s[:-len(suf)]] when [suf] is
    non-empty and [s] ends with it, [s] otherwise. *)
Definition py_removesuffix (s suf : string) : string :=
  if negb (String.eqb suf EmptyString) && py_endswith s suf
  then String.substring 0 (String.length s - String.length suf) s
  else s.

(** [sep.join(xs)]. *)
Definition py_join (sep : string) (xs : list string) : string := String.concat sep xs.

(** ** Numbers as text: [str(n)] *)

Definition str_of_nat (n : nat) : string := NilEmpty.string_of_uint (Nat.to_uint n).

Definition str_of_Z (z : Z) : string :=
  match z with
  | Z0 => "0"
  | Zpos p => str_of_nat (Pos.to_nat p)
  | Zneg p => "-" +:+ str_of_nat (Pos.to_nat p)
  end.

(** ** [repr(s)] of a [str] *)

Definition hex_digit (n : nat) : ascii :=
  if n <? 10 then ch (48 + n) else ch (87 + n).

(** Code points that [str.isprintable] rejects in the Latin-1 range:
    the C0 controls, DEL, the C1 controls, U+00A0 and U+00AD. *)
Definition latin1_unprintable (n : nat) : bool :=
  (n <? 32) || (n =? 127) || ((128 <=? n) && (n <=? 160)) || (n =? 173).

Definition dquote : ascii := ch 34.
Definition squote : ascii := ch 39.
Definition bslash : ascii := ch 92.

Fixpoint str_has (c : ascii) (s : string) : bool :=
  match s with
  | EmptyString => false
  | String.String d s' => bool_decide (d = c) || str_has c s'
  end.

(** The escape of one character inside a repr quoted by [q]. *)
Definition repr_char (q c : ascii) : string :=
  let n := nat_of_ascii c in
  if bool_decide (c = q) || bool_decide (c = bslash) then String.String bslash (String.String c EmptyString)
  else if n =? 9 then String.String bslash "t"
  else if n =? 10 then String.String bslash "n"
  else if n =? 13 then String.String bslash "r"
  else if latin1_unprintable n then
    String.String bslash (String.String "x" (String.String (hex_digit (n / 16))
      (String.String (hex_digit (n mod 16)) EmptyString)))
  else String.String c EmptyString.

Fixpoint repr_body (q : ascii) (s : string) : string :=
  match s with
  | EmptyString => EmptyString
  | String.String c s' => repr_char q c +:+ repr_body q s'
  end.

(** CPython's [unicode_repr]: single quotes, unless the text holds a
    single quote and no double quote. *)
Definition repr_str (s : string) : string :=
  let q := if str_has squote s && negb (str_has dquote s) then dquote else squote in
  String.String q (repr_body q s +:+ String.String q EmptyString).

(** ** Length of the UTF-8 encoding: [len(s.encode('utf8'))] *)

Fixpoint utf8_len (s : string) : nat :=
  match s with
  | EmptyString => 0
  | String.String c s' => (if nat_of_ascii c <? 128 then 1 else 2) + utf8_len s'
  end.

(** ** Lemmas *)

(** A character predicate holding of every character of a string. *)
Fixpoint str_forall (p : ascii → bool) (s : string) : bool :=
  match s with
  | EmptyString => true
  | String.String c s' => p c && str_forall p s'
  end.

Definition is_digit (c : ascii) : bool :=
  let n := nat_of_ascii c in (48 <=? n) && (n <=? 57).

Lemma str_forall_app p s1 s2 :
  str_forall p (s1 +:+ s2) = str_forall p s1 && str_forall p s2.
Proof.
  induction s1 as [|c s1 IH]; [done|].
  rewrite str_app_cons; cbn. rewrite IH. by destruct (p c).
Qed.

Lemma str_forall_digits_of_uint d : str_forall is_digit (NilEmpty.string_of_uint d) = true.
Proof. induction d; cbn; auto. Qed.

Lemma str_of_nat_digits n : str_forall is_digit (str_of_nat n) = true.
Proof. apply str_forall_digits_of_uint. Qed.

Lemma str_of_nat_inj n m : str_of_nat n = str_of_nat m → n = m.
Proof.
  unfold str_of_nat. intros H.
  apply (f_equal NilEmpty.uint_of_string) in H. rewrite !NilEmpty.usu in H.
  injection H as H. by apply Unsigned.to_uint_inj.
Qed.

Lemma nzhead_not_D0 d x : Decimal.nzhead d ≠ Decimal.D0 x.
Proof. induction d; cbn; done. Qed.

(** [str(n)] starts with a digit, which is ['0'] only for [n = 0]: no
    leading zeros. *)
Lemma str_of_nat_head n :
  ∃ d s, str_of_nat n = String.String d s ∧ is_digit d = true ∧ (n ≠ 0 → d ≠ "0"%char).
Proof.
  unfold str_of_nat.
  assert (Hn : Nat.to_uint n = Decimal.unorm (Nat.to_uint n))
    by (by rewrite <- Unsigned.to_of, Unsigned.of_to).
  unfold Decimal.unorm in Hn.
  destruct (Decimal.nzhead (Nat.to_uint n)) as [|u|u|u|u|u|u|u|u|u|u] eqn:E;
    try by (apply nzhead_not_D0 in E).
  all: rewrite Hn; cbn; eexists _, _; split; [reflexivity|]; split; [reflexivity|].
  all: try (intros _; discriminate).
  intros Hn0. exfalso. apply Hn0. by rewrite <- (Unsigned.of_to n), Hn.
Qed.

(** Two digit strings followed by a non-digit split at the same place. *)
Lemma digits_app_split s1 s2 c d a b :
  str_forall is_digit s1 = true → str_forall is_digit s2 = true →
  is_digit c = false → is_digit d = false →
  s1 +:+ String.String c a = s2 +:+ String.String d b →
  s1 = s2 ∧ c = d ∧ a = b.
Proof.
  revert s2. induction s1 as [|x s1 IH]; intros [|y s2] H1 H2 Hc Hd H;
    rewrite ?str_app_nil_l, ?str_app_cons in H; injection H as -> H; cbn in *.
  - by subst.
  - by rewrite Hc in H2.
  - by rewrite Hd in H1.
  - apply andb_true_iff in H1 as [_ H1]. apply andb_true_iff in H2 as [_ H2].
    destruct (IH s2 H1 H2 Hc Hd H) as (-> & -> & ->). done.
Qed.

(** [str(n)] followed by a non-digit determines [n]: the decimal
    printing is prefix-free. *)
Lemma str_of_nat_app_inj n m c d a b :
  is_digit c = false → is_digit d = false →
  str_of_nat n +:+ String.String c a = str_of_nat m +:+ String.String d b →
  n = m ∧ c = d ∧ a = b.
Proof.
  intros Hc Hd H.
  destruct (digits_app_split _ _ _ _ _ _ (str_of_nat_digits n) (str_of_nat_digits m) Hc Hd H)
    as (Hs & -> & ->).
  split; [by apply str_of_nat_inj | done].
Qed.

(** After [re.sub(' +', '-', s)] no space is left. *)
Lemma sub_spaces_from_no_space b s :
  str_forall (λ c, negb (bool_decide (c = " "%char))) (sub_spaces_from b s) = true.
Proof.
  revert b. induction s as [|c s IH]; intros b; [done|]. cbn.
  case_bool_decide; [destruct b|]; cbn; rewrite ?IH; try done.
  by case_bool_decide.
Qed.

(** After [re.sub('[-_|]', ' ', s)] no character of the class is left. *)
Lemma re_sub_sep_no_sep s : str_forall (λ c, negb (is_sep_char c)) (re_sub_sep s) = true.
Proof.
  induction s as [|c s IH]; [done|]. cbn. rewrite IH, andb_true_r.
  destruct (is_sep_char c) eqn:E; [done|]. by rewrite E.
Qed.

(** [re.sub(' +', '-', s)] introduces no separator other than hyphens. *)
Lemma sub_spaces_from_keeps b s :
  str_forall (λ c, negb (bool_decide (c = "_"%char)) && negb (bool_decide (c = "|"%char))) s = true →
  str_forall (λ c, negb (bool_decide (c = "_"%char)) && negb (bool_decide (c = "|"%char)))
    (sub_spaces_from b s) = true.
Proof.
  revert b. induction s as [|c s IH]; intros b H; [done|]. cbn in H |- *.
  apply andb_true_iff in H as [Hc H].
  destruct (bool_decide (c = " "%char)); [destruct b|]; cbn; rewrite ?IH, ?Hc; auto.
Qed.

(** [str.lower] maps a character to a space, an underscore or a bar
    only if it was that character already. *)
Definition lower_char_keeps_sep (c : ascii) : bool :=
  forallb (λ d, negb (Ascii.eqb (lower_char c) d) || Ascii.eqb c d) [" "%char; "_"%char; "|"%char].

Lemma lower_char_sep c d :
  d ∈ [" "%char; "_"%char; "|"%char] → lower_char c = d → c = d.
Proof.
  intros Hd Hl.
  pose proof (ascii_all_spec lower_char_keeps_sep ltac:(vm_compute; reflexivity) c) as H.
  unfold lower_char_keeps_sep in H. rewrite forallb_forall in H.
  apply list_elem_of_In, H in Hd. subst d.
  apply orb_true_iff in Hd as [Hd | Hd].
  - by rewrite (proj2 (Ascii.eqb_eq _ _) eq_refl) in Hd.
  - by apply Ascii.eqb_eq in Hd.
Qed.

(** ** Substrings, suffixes and [removesuffix] *)

Lemma substring_app_l s t : String.substring 0 (String.length s) (s +:+ t) = s.
Proof. induction s as [|c s IH]; [by destruct t | by rewrite str_app_cons; cbn; rewrite IH]. Qed.

Lemma str_app_inv_r s1 s2 t : s1 +:+ t = s2 +:+ t → s1 = s2.
Proof.
  intros H. assert (Hl : String.length s1 = String.length s2).
  { apply (f_equal String.length) in H. rewrite !str_length_app in H. lia. }
  by rewrite <- (substring_app_l s1 t), <- (substring_app_l s2 t), Hl, H.
Qed.

Lemma substring_app_r s t m :
  String.substring (String.length s) m (s +:+ t) = String.substring 0 m t.
Proof. induction s as [|c s IH]; [done | by rewrite str_app_cons]. Qed.

Lemma substring_full s : String.substring 0 (String.length s) s = s.
Proof. pose proof (substring_app_l s EmptyString) as H. by rewrite str_app_nil_r in H. Qed.

Lemma substring_split k s :
  k ≤ String.length s →
  String.substring 0 k s +:+ String.substring k (String.length s - k) s = s.
Proof.
  revert k. induction s as [|c s IH]; intros [|k] Hk; cbn in Hk |- *; try lia.
  all: try done.
  - by rewrite substring_full.
  - rewrite str_app_cons. f_equal. apply IH. lia.
Qed.

Lemma py_endswith_app s suf : py_endswith (s +:+ suf) suf = true.
Proof.
  unfold py_endswith. rewrite str_length_app, Nat.add_sub.
  apply andb_true_iff. split; [apply Nat.leb_le; lia|].
  rewrite substring_app_r, substring_full. apply String.eqb_refl.
Qed.

(** [removesuffix] undoes appending a non-empty suffix. *)
Lemma py_removesuffix_app s suf :
  suf ≠ EmptyString → py_removesuffix (s +:+ suf) suf = s.
Proof.
  intros Hne. unfold py_removesuffix. rewrite py_endswith_app, andb_true_r.
  destruct (String.eqb_spec suf EmptyString) as [->|_]; [done|]. cbn.
  rewrite str_length_app, Nat.add_sub. apply substring_app_l.
Qed.

(** A string that ends with a non-empty suffix is what [removesuffix]
    leaves, followed by the suffix. *)
Lemma py_endswith_removesuffix s suf :
  suf ≠ EmptyString → py_endswith s suf = true → py_removesuffix s suf +:+ suf = s.
Proof.
  intros Hne He. unfold py_removesuffix. rewrite He, andb_true_r.
  destruct (String.eqb_spec suf EmptyString) as [->|_]; [done|]. cbn.
  unfold py_endswith in He. apply andb_true_iff in He as [Hle Heq].
  apply Nat.leb_le in Hle. apply String.eqb_eq in Heq.
  pose proof (substring_split (String.length s - String.length suf) s ltac:(lia)) as H.
  replace (String.length s - (String.length s - String.length suf)) with (String.length suf) in H by lia.
  by rewrite Heq in H.
Qed.

(** ** [str.split(sep)[0]] is the longest prefix without [sep] *)

Fixpoint take_until (sep : ascii) (s : string) : string :=
  match s with
  | EmptyString => EmptyString
  | String.String c s' => if bool_decide (c = sep) then EmptyString else String.String c (take_until sep s')
  end.

Lemma py_split_head sep s : ∃ ws, py_split sep s = take_until sep s :: ws.
Proof.
  induction s as [|c s [ws IH]]; cbn; [by eexists|].
  rewrite IH. case_bool_decide; eauto.
Qed.

Lemma take_until_no_sep sep s : str_has sep (take_until sep s) = false.
Proof.
  induction s as [|c s IH]; cbn; [done|].
  case_bool_decide; cbn; [done|]. rewrite IH. by case_bool_decide.
Qed.

Lemma substring_length_le n m s : String.length (String.substring n m s) ≤ m.
Proof.
  revert n m. induction s as [|c s IH]; intros [|n] [|m]; cbn; try lia; auto.
  specialize (IH 0 m). lia.
Qed.

#[export] Hint Resolve py_endswith_app py_removesuffix_app str_of_nat_inj : btp.

(** ** Character classes of derived strings *)

Lemma str_forall_impl (p q : ascii → bool) s :
  (∀ c, p c = true → q c = true) → str_forall p s = true → str_forall q s = true.
Proof.
  intros Hpq. induction s as [|c s IH]; cbn; [done|].
  rewrite !andb_true_iff. intros [Hc Hs]. auto.
Qed.

Lemma str_forall_and (p q : ascii → bool) s :
  str_forall (λ c, p c && q c) s = str_forall p s && str_forall q s.
Proof.
  induction s as [|c s IH]; cbn; [done|]. rewrite IH.
  destruct (p c), (q c), (str_forall p s), (str_forall q s); reflexivity.
Qed.

Lemma str_forall_lower p s : str_forall p (py_lower s) = str_forall (λ c, p (lower_char c)) s.
Proof. induction s as [|c s IH]; cbn; [done | by rewrite IH]. Qed.

Lemma str_has_forall c s : str_has c s = negb (str_forall (λ d, negb (bool_decide (d = c))) s).
Proof.
  induction s as [|d s IH]; cbn; [done|]. rewrite IH.
  by destruct (bool_decide (d = c)), (str_forall _ s).
Qed.

Lemma str_has_substring c n m s : str_has c (String.substring n m s) = true → str_has c s = true.
Proof.
  revert n m. induction s as [|d s IH]; intros n m H; [by destruct n, m|].
  cbn. destruct n as [|n]; [destruct m as [|m]|]; cbn in H; [done| |].
  - apply orb_true_iff in H as [H|H]; [by rewrite H|]. by rewrite (IH 0 m H), orb_true_r.
  - by rewrite (IH n m H), orb_true_r.
Qed.

(** The characters a pass entry name is built without. *)
Definition not_name_sep (c : ascii) : bool :=
  negb (Ascii.eqb c " ") && negb (Ascii.eqb c "_") && negb (Ascii.eqb c "|").

(** [name.lower()] after the two substitutions holds no space, no
    underscore and no bar. *)
Lemma normalized_name_no_sep n :
  str_forall not_name_sep (py_lower (re_sub_spaces (re_sub_sep n))) = true.
Proof.
  rewrite str_forall_lower.
  assert (Hk : str_forall (λ c, negb (bool_decide (c = "_"%char)) && negb (bool_decide (c = "|"%char)))
                 (re_sub_spaces (re_sub_sep n)) = true).
  { apply sub_spaces_from_keeps. eapply str_forall_impl; [|apply re_sub_sep_no_sep].
    intros c. unfold is_sep_char. repeat case_bool_decide; done. }
  pose proof (sub_spaces_from_no_space false (re_sub_sep n)) as Hs.
  pose proof (conj Hk Hs) as H. apply andb_true_iff in H. rewrite <- str_forall_and in H.
  eapply str_forall_impl; [|exact H]. cbv beta. intros c Hc.
  unfold not_name_sep.
  destruct (Ascii.eqb_spec (lower_char c) " ") as [E|];
    [apply lower_char_sep in E; [|set_solver]; subst; discriminate Hc|].
  destruct (Ascii.eqb_spec (lower_char c) "_") as [E|];
    [apply lower_char_sep in E; [|set_solver]; subst; discriminate Hc|].
  destruct (Ascii.eqb_spec (lower_char c) "|") as [E|];
    [apply lower_char_sep in E; [|set_solver]; subst; discriminate Hc|].
  done.
Qed.

(** ** Splitting concatenations *)

Lemma py_split_app_sep sep s1 s2 :
  py_split sep (s1 +:+ String.String sep s2) = py_split sep s1 ++ py_split sep s2.
Proof.
  induction s1 as [|c s1 IH].
  - rewrite str_app_nil_l. cbn. by rewrite bool_decide_eq_true_2.
  - rewrite str_app_cons. cbn. rewrite IH.
    case_bool_decide; [done|].
    destruct (py_split_head sep s1) as [ws ->]. done.
Qed.

(** A string without the separator is one piece. *)
Lemma py_split_no_sep sep s : str_has sep s = false → py_split sep s = [s].
Proof.
  induction s as [|c s IH]; cbn; [done|].
  intros H. apply orb_false_iff in H as [Hc Hs]. rewrite IH by done.
  by rewrite bool_decide_eq_false_2 by (intros ->; by rewrite bool_decide_eq_true_2 in Hc).
Qed.

Lemma str_has_app c s1 s2 : str_has c (s1 +:+ s2) = str_has c s1 || str_has c s2.
Proof.
  induction s1 as [|d s1 IH]; [done|]. rewrite str_app_cons. cbn. rewrite IH.
  by rewrite orb_assoc.
Qed.

Lemma prefix_nil s : String.prefix EmptyString s = true.
Proof. by destruct s. Qed.

Lemma prefix_cons a b p s :
  String.prefix (String.String a p) (String.String b s) =
  if ascii_dec a b then String.prefix p s else false.
Proof. reflexivity. Qed.

Lemma prefix_app_l p s t : String.prefix p s = true → String.prefix p (s +:+ t) = true.
Proof.
  revert s. induction p as [|c p IH]; intros s H; [apply prefix_nil|].
  destruct s as [|d s]; [discriminate H|]. rewrite str_app_cons. cbn in H |- *.
  destruct (ascii_dec c d); [by apply IH | done].
Qed.

(** The byte count [main] prints, [len(content.encode('utf8'))],
    lies between the number of characters and twice that number, and
    equals the number of characters exactly when every character is
    ASCII: a Latin-1 character above U+007F takes two bytes. *)
Theorem utf8_len_bounds s :
  String.length s ≤ utf8_len s ≤ 2 * String.length s ∧
  (utf8_len s = String.length s ↔ str_forall (λ c, nat_of_ascii c <? 128) s = true).
Proof.
  induction s as [|c s IH]; cbn [utf8_len String.length str_forall]; [done|].
  destruct IH as [[Hlo Hhi] Hiff].
  destruct (nat_of_ascii c <? 128); cbn [andb]; (split; [lia|]).
  - rewrite <- Hiff. split; lia.
  - split; [lia | discriminate].
Qed.
