(* ===== verification/PyDict.v ===== *)
(** * Python [dict]: insertion-ordered maps

    The script builds each entry body in a [dict] ([d = {}],
    [d[k] = v], [d.update(e)], [d.items()]) and reads the parsed JSON
    objects as [dict]s.  A Python [dict] iterates in insertion order,
    and assigning to an existing key keeps the key's position and
    replaces its value; so it is modelled as an association list whose
    keys are pairwise distinct ([dict_wf]), not as a [gmap], which has
    no order. *)

From S2P Require Import Prelude.
#[local] Set Warnings "-clear-no-such-hyp".

Abbreviation dict K V := (list (K * V)).

Section dict.
Context {K V : Type} `{EqDecision K}.
Implicit Types (d e : dict K V) (k : K) (v : V).

(** [d.get(k)] / [k in d] *)
Fixpoint dict_get k d : option V :=
  match d with
  | [] => None
  | (k', v') :: d' => if decide (k = k') then Some v' else dict_get k d'
  end.

(** [d[k] = v] *)
Fixpoint dict_set k v d : dict K V :=
  match d with
  | [] => [(k, v)]
  | (k', v') :: d' => if decide (k = k') then (k', v) :: d' else (k', v') :: dict_set k v d'
  end.

(** [d.update(e)]: the pairs of [e] assigned in [e]'s order. *)
Definition dict_update d e : dict K V :=
  fold_left (λ acc kv, dict_set kv.1 kv.2 acc) e d.

(** The invariant of every [dict]: no key twice. *)
Definition dict_wf d : Prop := NoDup d.*1.

Lemma dict_set_keys k v d :
  (dict_set k v d).*1 = if decide (k ∈ d.*1) then d.*1 else d.*1 ++ [k].
Proof.
  induction d as [|[k' v'] d IH]; cbn; [done|].
  destruct (decide (k = k')) as [->|Hne].
  - rewrite decide_True; [done | set_solver].
  - cbn. rewrite IH. destruct (decide (k ∈ d.*1)).
    + rewrite decide_True; [done | set_solver].
    + rewrite decide_False; [done | set_solver].
Qed.

Lemma dict_set_wf k v d : dict_wf d → dict_wf (dict_set k v d).
Proof.
  unfold dict_wf. rewrite dict_set_keys. case_decide; [done|].
  intros Hnd. apply NoDup_app. split_and!; [done | | by apply NoDup_singleton].
  set_solver.
Qed.

Lemma dict_get_set_eq k v d : dict_get k (dict_set k v d) = Some v.
Proof.
  induction d as [|[k' v'] d IH]; cbn; [by rewrite decide_True|].
  destruct (decide (k = k')) as [->|Hne]; cbn; [by rewrite decide_True|].
  by rewrite decide_False.
Qed.

Lemma dict_get_set_ne k k2 v d : k ≠ k2 → dict_get k2 (dict_set k v d) = dict_get k2 d.
Proof.
  intros Hne. induction d as [|[k' v'] d IH]; cbn; [by rewrite decide_False|].
  destruct (decide (k = k')) as [->|Hne']; cbn;
    destruct (decide (k2 = k')); subst; congruence.
Qed.

(** Assigning a fresh key appends the pair at the end. *)
Lemma dict_set_fresh k v d : k ∉ d.*1 → dict_set k v d = d ++ [(k, v)].
Proof.
  induction d as [|[k' v'] d IH]; intros Hk; cbn; [done|].
  rewrite decide_False by set_solver. f_equal. apply IH. set_solver.
Qed.

(** [d.update(e)] with keys all new appends [e]. *)
Lemma dict_update_fresh d e : NoDup (d.*1 ++ e.*1) → dict_update d e = d ++ e.
Proof.
  unfold dict_update. revert d.
  induction e as [|[k v] e IH]; intros d Hnd; cbn; [by rewrite app_nil_r|].
  rewrite dict_set_fresh.
  - rewrite IH, <- app_assoc; [done|]. by rewrite fmap_app, <- app_assoc.
  - intros Hin. apply NoDup_app in Hnd as (_ & Hdis & _). apply (Hdis k); set_solver.
Qed.

Lemma dict_update_wf d e : dict_wf d → dict_wf (dict_update d e).
Proof.
  unfold dict_update. revert d. induction e as [|[k v] e IH]; intros d Hwf; cbn; [done|].
  apply IH, dict_set_wf, Hwf.
Qed.
End dict.

Arguments dict_update {K V _} d e : simpl never.

#[export] Hint Resolve dict_set_wf dict_update_wf : btp.
#[export] Hint Rewrite @dict_get_set_eq : btp_rw.

(** ** Building a [dict] by assignments is appending to a list of entries

    The script builds [dict]s by a sequence of assignments, possibly
    inside loops.  The lemmas below show that such a construction is
    [dict_update] of a list of entries, and that the [dict] is that list
    when its keys are pairwise distinct. *)

Section entries.
Context {K V : Type} `{EqDecision K}.

Lemma dict_update_app (d e1 e2 : dict K V) :
  dict_update d (e1 ++ e2) = dict_update (dict_update d e1) e2.
Proof. unfold dict_update. apply fold_left_app. Qed.

Lemma dict_update_nil (d : dict K V) : dict_update d [] = d.
Proof. reflexivity. Qed.

Lemma dict_update_cons (d : dict K V) k v e :
  dict_update d ((k, v) :: e) = dict_update (dict_set k v d) e.
Proof. reflexivity. Qed.

(** A loop whose every turn assigns a list of entries. *)
Lemma fold_enum_update {E B} (f : nat → B → dict K V → result E (dict K V))
    (g : nat → B → result E (dict K V)) :
  (∀ i x d, f i x d = (e <- g i x ;; Ok (dict_update d e))) →
  ∀ i xs d, fold_enum f i xs d = (es <- map_enum g i xs ;; Ok (dict_update d (concat es))).
Proof.
  intros Hf i xs. revert i. induction xs as [|x xs IH]; intros i d; [done|]. cbn.
  rewrite Hf. destruct (g i x) as [e|err]; cbn; [|done].
  rewrite IH. destruct (map_enum g (S i) xs); cbn; [|done].
  by rewrite dict_update_app.
Qed.

(** Entries produced turn by turn, each turn's keys owned by its index,
    have pairwise distinct keys. *)
Lemma map_enum_concat_NoDup {E A} (g : nat → A → result E (dict K V))
    (owner : K → nat → Prop) i xs ess :
  (∀ k j j', owner k j → owner k j' → j = j') →
  (∀ j x es, g j x = Ok es → NoDup es.*1 ∧ Forall (λ k, owner k j) es.*1) →
  map_enum g i xs = Ok ess →
  NoDup (concat ess).*1 ∧ Forall (λ k, ∃ j, i ≤ j ∧ owner k j) (concat ess).*1.
Proof.
  intros Huniq Hg. revert i ess. induction xs as [|x xs IH]; intros i ess H; cbn in H.
  - res_inv. cbn. split; constructor.
  - destruct (g i x) as [es|] eqn:Hx; cbn in H; [|done].
    destruct (map_enum g (S i) xs) as [rest|] eqn:Hr; cbn in H; res_inv.
    destruct (Hg _ _ _ Hx) as [Hnd Hown].
    destruct (IH _ _ Hr) as [Hnd' Hown'].
    cbn. rewrite fmap_app. split.
    + apply NoDup_app. split_and!; [done| |done].
      intros k Hk Hk'. rewrite Forall_forall in Hown, Hown'.
      destruct (Hown' k Hk') as (j & Hj & Hkj).
      specialize (Huniq _ _ _ (Hown k Hk) Hkj). lia.
    + apply Forall_app. split.
      * eapply Forall_impl; [exact Hown|]. intros k Hk. exists i. split; [lia|done].
      * eapply Forall_impl; [exact Hown'|]. intros k (j & Hj & Hkj). exists j. split; [lia|done].
Qed.

(** Two groups of keys told apart by a classifying function. *)
Lemma NoDup_app_class {C} (cls : K → C) (a : C) (l1 l2 : list K) :
  NoDup l1 → NoDup l2 →
  Forall (λ k, cls k = a) l1 → Forall (λ k, cls k ≠ a) l2 →
  NoDup (l1 ++ l2).
Proof.
  intros H1 H2 F1 F2. apply NoDup_app. split_and!; [done| |done].
  intros k Hk Hk'. rewrite Forall_forall in F1, F2.
  by apply (F2 k Hk'), F1.
Qed.
End entries.
