(* ===== verification/PyJson.v ===== *)
(** * Python values decoded from JSON, and the exceptions the script can raise

    [json.loads] turns the item list printed by [bw list items] into
    Python objects: [None], [bool], [int], [str], [list] and [dict].
    [json] below is that value space (JSON numbers are modelled as
    integers: the fields the script reads hold integers or strings).
    The operations are the Python built-ins the script applies to them:
    subscription [v[k]], [dict.get], [len], iteration, [str()] and the
    [==] test against an integer; each returns [Err] with the exception
    CPython raises where it raises one. *)

From S2P Require Import Prelude PyStr PyDict.
#[local] Set Warnings "-register-all".

Inductive json : Type :=
| JNull
| JBool (b : bool)
| JInt (z : Z)
| JStr (s : string)
| JArr (xs : list json)
| JObj (kvs : dict string json).

(** Induction over [json] with hypotheses on the elements of arrays and
    on the values of objects. *)
Fixpoint json_nested_ind (P : json → Prop)
    (Hnull : P JNull) (Hbool : ∀ b, P (JBool b)) (Hint : ∀ z, P (JInt z))
    (Hstr : ∀ s, P (JStr s))
    (Harr : ∀ xs, Forall P xs → P (JArr xs))
    (Hobj : ∀ kvs : list (string * json), Forall (λ kv, P kv.2) kvs → P (JObj kvs))
    (v : json) {struct v} : P v :=
  let IH := json_nested_ind P Hnull Hbool Hint Hstr Harr Hobj in
  match v with
  | JNull => Hnull
  | JBool b => Hbool b
  | JInt z => Hint z
  | JStr s => Hstr s
  | JArr xs =>
      Harr xs ((fix F (l : list json) : Forall P l :=
                  match l with [] => Forall_nil_2 _ | x :: l' => Forall_cons_2 _ _ _ (IH x) (F l') end) xs)
  | JObj kvs =>
      Hobj kvs ((fix F (l : list (string * json)) : Forall (λ kv, P kv.2) l :=
                   match l with
                   | [] => Forall_nil_2 _
                   | kv :: l' => Forall_cons_2 _ _ _ (IH kv.2) (F l')
                   end) kvs)
  end.

(** A subscript: [v['name']] or [v[0]]. *)
Inductive pykey : Type :=
| KStr (s : string)
| KInt (z : Z).

(** The exceptions of the model.  [OSError] carries the subclass name
    ([FileNotFoundError], [IsADirectoryError], [NotADirectoryError]) and
    the path; [JSONDecodeError] its message and the index of the
    character it points at; [UnicodeDecodeError] the byte range
    [start, stop) it reports and its reason.  [Unmodelled] is not a Python exception: it
    marks an input for which Python computes a value outside the model
    (a float, or a character beyond U+00FF). *)
Inductive exn : Type :=
| KeyError (k : pykey)
| IndexError (msg : string)
| TypeError (msg : string)
| AttributeError (msg : string)
| Exception (msg : string)
| OSError (kind : string) (path : string)
| JSONDecodeError (msg : string) (pos : nat)
| UnicodeDecodeError (start stop : nat) (reason : string)
| Unmodelled (what : string).

Abbreviation res := (result exn).

Definition py_type_name (v : json) : string :=
  match v with
  | JNull => "NoneType"
  | JBool _ => "bool"
  | JInt _ => "int"
  | JStr _ => "str"
  | JArr _ => "list"
  | JObj _ => "dict"
  end.

Definition quoted (s : string) : string := "'" +:+ s +:+ "'".

(** Sequence indexing with Python's negative indices. *)
Definition py_index {A} (xs : list A) (i : Z) : option A :=
  let n := Z.of_nat (length xs) in
  if (0 <=? i)%Z && (i <? n)%Z then xs !! Z.to_nat i
  else if (- n <=? i)%Z && (i <? 0)%Z then xs !! Z.to_nat (n + i)
  else None.

Definition str_chars (s : string) : list ascii := String.list_ascii_of_string s.

Definition char_str (c : ascii) : string := String.String c EmptyString.

(** [v[k]] *)
Definition py_getitem (v : json) (k : pykey) : res json :=
  match v, k with
  | JObj d, KStr s =>
      match dict_get s d with Some x => Ok x | None => Err (KeyError k) end
  | JObj _, KInt _ => Err (KeyError k)
  | JArr xs, KInt i =>
      match py_index xs i with
      | Some x => Ok x
      | None => Err (IndexError "list index out of range")
      end
  | JArr _, KStr _ => Err (TypeError "list indices must be integers or slices, not str")
  | JStr s, KInt i =>
      match py_index (str_chars s) i with
      | Some c => Ok (JStr (char_str c))
      | None => Err (IndexError "string index out of range")
      end
  | JStr _, KStr _ => Err (TypeError "string indices must be integers, not 'str'")
  | _, _ => Err (TypeError (quoted (py_type_name v) +:+ " object is not subscriptable"))
  end.

Definition no_attribute (v : json) (attr : string) : exn :=
  AttributeError (quoted (py_type_name v) +:+ " object has no attribute " +:+ quoted attr).

(** [v.get(k, default)] *)
Definition py_get (v : json) (k : string) (default : json) : res json :=
  match v with
  | JObj d => Ok (match dict_get k d with Some x => x | None => default end)
  | _ => Err (no_attribute v "get")
  end.

(** [len(v)] *)
Definition py_len (v : json) : res nat :=
  match v with
  | JArr xs => Ok (length xs)
  | JStr s => Ok (String.length s)
  | JObj d => Ok (length d)
  | _ => Err (TypeError ("object of type " +:+ quoted (py_type_name v) +:+ " has no len()"))
  end.

(** [for x in v]: the elements a [for] loop visits. *)
Definition py_iter (v : json) : res (list json) :=
  match v with
  | JArr xs => Ok xs
  | JObj d => Ok (map (λ kv, JStr kv.1) d)
  | JStr s => Ok (map (λ c, JStr (char_str c)) (str_chars s))
  | _ => Err (TypeError (quoted (py_type_name v) +:+ " object is not iterable"))
  end.

(** [repr(v)] *)
Fixpoint py_repr (v : json) : string :=
  match v with
  | JNull => "None"
  | JBool true => "True"
  | JBool false => "False"
  | JInt z => str_of_Z z
  | JStr s => repr_str s
  | JArr xs => "[" +:+ py_join ", " (map py_repr xs) +:+ "]"
  | JObj d => "{" +:+ py_join ", " (map (λ '(k, x), repr_str k +:+ ": " +:+ py_repr x) d) +:+ "}"
  end.

(** [str(v)], and so ['{}'.format(v)]: a [str] is itself, every other
    value prints as its [repr]. *)
Definition py_str (v : json) : string :=
  match v with
  | JStr s => s
  | _ => py_repr v
  end.

(** [v == n] for an integer literal [n]: [bool] is a subclass of [int],
    so [True == 1] holds. *)
Definition py_eq_int (v : json) (n : Z) : bool :=
  match v with
  | JInt z => Z.eqb z n
  | JBool b => Z.eqb (if b then 1 else 0) n
  | _ => false
  end.

(** An argument that must be a [str] (the subject of [re.sub]). *)
Definition expect_str (v : json) : res string :=
  match v with
  | JStr s => Ok s
  | _ => Err (TypeError ("expected string or bytes-like object, got " +:+ quoted (py_type_name v)))
  end.

(** [v is None] *)
Definition is_none (v : json) : bool := match v with JNull => true | _ => false end.

(** [v.split(sep)] with a one-character separator. *)
Definition py_split_method (v : json) (sep : ascii) : res (list string) :=
  match v with
  | JStr s => Ok (py_split sep s)
  | _ => Err (no_attribute v "split")
  end.

(** [xs[0]] on a Python list. *)
Definition list_first {A} (xs : list A) : res A :=
  match xs with
  | x :: _ => Ok x
  | [] => Err (IndexError "list index out of range")
  end.
