(* ===== verification/Utf8.v ===== *)
(** * UTF-8: [str.encode('utf8')], [bytes(s, 'utf-8')] and [bytes.decode('utf-8')]

    The script turns text into bytes when it hands a body to [pass]
    ([bytes(input, 'utf-8')], line 115) and when it counts what it
    inserted ([content.encode('utf8')], line 183), and turns the bytes
    [bw] and [pass] print back into text
    ([process.stdout.decode('utf-8')], lines 121, 130 and 142).  A byte is a [Z] in [0, 256), built with [Z.lor],
    [Z.shiftr] and [Z.land] as CPython's codec builds it.

    Strings of the model are Latin-1: a character is a code point below
    U+0100, so it encodes to one byte (below U+0080) or two.  [decode]
    is CPython's strict UTF-8 decoder ([unicode_decode_utf8]): it raises
    [UnicodeDecodeError] with the byte range and the reason CPython
    reports ("invalid start byte", "invalid continuation byte",
    "unexpected end of data"); a well-formed sequence of a code point
    above U+00FF has no character in the model and ends in
    [Unmodelled]. *)

From S2P Require Import Prelude PyStr PyDict PyJson.

Module Utf8.
Local Open Scope Z_scope.

Abbreviation bytes := (list Z).

(** A byte of a [bytes] object. *)
Definition byte_ok (x : Z) : Prop := 0 ≤ x < 256.

#[export] Instance byte_ok_dec x : Decision (byte_ok x).
Proof. unfold byte_ok. apply _. Defined.

(** ** Encoding *)

(** The bytes of one character: [0xxxxxxx], or [110xxxxx 10xxxxxx]. *)
Definition encode_char (c : ascii) : bytes :=
  let n := Z.of_nat (nat_of_ascii c) in
  if n <? 128 then [n]
  else [Z.lor 192 (Z.shiftr n 6); Z.lor 128 (Z.land n 63)].

(** [s.encode('utf8')] *)
Fixpoint encode (s : string) : bytes :=
  match s with
  | EmptyString => []
  | String.String c s' => encode_char c ++ encode s'
  end.

(** ** Decoding *)

Definition in_range (lo hi x : Z) : bool := (lo <=? x) && (x <=? hi).

(** A continuation byte [10xxxxxx]. *)
Definition is_cont (y : Z) : bool := in_range 128 191 y.

Definition beyond_latin1 : string := "a character beyond U+00FF".

(** The decoder at byte index [pos] of the whole input. *)
Fixpoint decode_from (pos : nat) (b : bytes) : res string :=
  match b with
  | [] => Ok EmptyString
  | x :: r =>
      if x <? 128 then
        s <- decode_from (S pos) r ;; Ok (String.String (ascii_of_nat (Z.to_nat x)) s)
      else if in_range 194 223 x then
        match r with
        | [] => Err (UnicodeDecodeError pos (S pos) "unexpected end of data")
        | y :: r' =>
            if is_cont y then
              if x <=? 195 then
                s <- decode_from (S (S pos)) r' ;;
                Ok (String.String
                      (ascii_of_nat (Z.to_nat (Z.lor (Z.shiftl (Z.land x 31) 6) (Z.land y 63)))) s)
              else Err (Unmodelled beyond_latin1)
            else Err (UnicodeDecodeError pos (S pos) "invalid continuation byte")
        end
      else if in_range 224 239 x then
        let lo := if x =? 224 then 160 else 128 in
        let hi := if x =? 237 then 159 else 191 in
        match r with
        | [] => Err (UnicodeDecodeError pos (S pos) "unexpected end of data")
        | y :: r1 =>
            if negb (in_range lo hi y) then
              Err (UnicodeDecodeError pos (S pos) "invalid continuation byte")
            else
              match r1 with
              | [] => Err (UnicodeDecodeError pos (S (S pos)) "unexpected end of data")
              | z :: _ =>
                  if is_cont z then Err (Unmodelled beyond_latin1)
                  else Err (UnicodeDecodeError pos (S (S pos)) "invalid continuation byte")
              end
        end
      else if in_range 240 244 x then
        let lo := if x =? 240 then 144 else 128 in
        let hi := if x =? 244 then 143 else 191 in
        match r with
        | [] => Err (UnicodeDecodeError pos (S pos) "unexpected end of data")
        | y :: r1 =>
            if negb (in_range lo hi y) then
              Err (UnicodeDecodeError pos (S pos) "invalid continuation byte")
            else
              match r1 with
              | [] => Err (UnicodeDecodeError pos (S (S pos)) "unexpected end of data")
              | z :: r2 =>
                  if negb (is_cont z) then
                    Err (UnicodeDecodeError pos (S (S pos)) "invalid continuation byte")
                  else
                    match r2 with
                    | [] => Err (UnicodeDecodeError pos (S (S (S pos))) "unexpected end of data")
                    | u :: _ =>
                        if is_cont u then Err (Unmodelled beyond_latin1)
                        else Err (UnicodeDecodeError pos (S (S (S pos))) "invalid continuation byte")
                    end
              end
        end
      else Err (UnicodeDecodeError pos (S pos) "invalid start byte")
  end.

(** [b.decode('utf-8')] *)
Definition decode (b : bytes) : res string := decode_from 0 b.

(** ** Lemmas *)

Lemma encode_app s t : encode (s +:+ t) = encode s ++ encode t.
Proof. induction s as [|c s IH]; [done|]. rewrite str_app_cons. cbn. by rewrite IH, app_assoc. Qed.

Lemma encode_char_bytes c : Forall byte_ok (encode_char c).
Proof.
  assert (H : forallb (λ y, bool_decide (byte_ok y)) (encode_char c) = true).
  { revert c. apply (ascii_all_spec (λ c, forallb (λ y, bool_decide (byte_ok y)) (encode_char c))).
    vm_compute. reflexivity. }
  apply Forall_forall. intros x Hx. rewrite forallb_forall in H.
  apply list_elem_of_In in Hx. specialize (H x Hx). by apply bool_decide_eq_true in H.
Qed.

(** Decoding the bytes of [c] gives back [c]. *)
Lemma decode_encode_char c pos t :
  decode_from pos (encode_char c ++ t) =
  (s <- decode_from (length (encode_char c) + pos)%nat t ;; Ok (String.String c s)).
Proof. destruct c as [[] [] [] [] [] [] [] []]; reflexivity. Qed.

Lemma decode_from_encode pos s : decode_from pos (encode s) = Ok s.
Proof.
  revert pos. induction s as [|c s IH]; intros pos; [done|].
  cbn [encode]. by rewrite decode_encode_char, IH.
Qed.

Lemma decode_encode s : decode (encode s) = Ok s.
Proof. apply decode_from_encode. Qed.

Lemma encode_one_byte x : 0 ≤ x < 128 → encode_char (ascii_of_nat (Z.to_nat x)) = [x].
Proof.
  intros Hx. unfold encode_char. rewrite nat_ascii_embedding by lia.
  rewrite Z2Nat.id by lia. by rewrite (proj2 (Z.ltb_lt x 128)) by lia.
Qed.

(** The two-byte sequences of U+0080 to U+00FF, checked one by one. *)
Definition two_byte_char (x y : Z) : ascii :=
  ascii_of_nat (Z.to_nat (Z.lor (Z.shiftl (Z.land x 31) 6) (Z.land y 63))).

Lemma encode_two_bytes x y :
  (x =? 194) || (x =? 195) = true → is_cont y = true → encode_char (two_byte_char x y) = [x; y].
Proof.
  intros Hx Hy.
  assert (Htab : forallb (λ i, let y := 128 + Z.of_nat i in
             bool_decide (encode_char (two_byte_char 194 y) = [194; y]) &&
             bool_decide (encode_char (two_byte_char 195 y) = [195; y])) (seq 0 64) = true)
    by (vm_compute; reflexivity).
  rewrite forallb_forall in Htab.
  unfold is_cont, in_range in Hy. apply andb_true_iff in Hy as [Hy1 Hy2].
  apply Z.leb_le in Hy1. apply Z.leb_le in Hy2.
  specialize (Htab (Z.to_nat (y - 128)) ltac:(apply in_seq; lia)). cbv zeta in Htab.
  rewrite Z2Nat.id, Z.add_comm, Z.sub_add in Htab by lia.
  apply andb_true_iff in Htab as [H194 H195].
  apply orb_true_iff in Hx as [Hx|Hx]; apply Z.eqb_eq in Hx as ->;
    [exact (bool_decide_eq_true_1 _ H194) | exact (bool_decide_eq_true_1 _ H195)].
Qed.

Lemma lead_latin1 x : in_range 194 223 x = true → x ≤ 195 → (x =? 194) || (x =? 195) = true.
Proof.
  unfold in_range. intros [H1 _]%andb_true_iff Hx. apply Z.leb_le in H1.
  apply orb_true_iff. destruct (Z.eqb_spec x 194); [by left | right; apply Z.eqb_eq; lia].
Qed.

(** A text the decoder returns is the text whose encoding the bytes are:
    UTF-8 is a canonical encoding. *)
Lemma encode_decode_from b : ∀ pos s, Forall byte_ok b → decode_from pos b = Ok s → encode s = b.
Proof.
  induction b as [b IH] using (induction_ltof1 _ (@length Z)). unfold ltof in IH.
  intros pos s Hb H. destruct b as [|x r]; [by injection H as <-|].
  apply Forall_cons in Hb as [Hx Hr]. unfold byte_ok in Hx. cbn [decode_from] in H.
  destruct (Z.ltb_spec x 128).
  - destruct (decode_from (S pos) r) as [s'|] eqn:E; [|done]. injection H as <-.
    cbn [encode]. rewrite encode_one_byte by lia. cbn. f_equal.
    by apply (IH r ltac:(cbn; lia) (S pos)).
  - destruct (in_range 194 223 x) eqn:H2.
    + destruct r as [|y r']; [done|]. destruct (is_cont y) eqn:Hy; [|done].
      destruct (Z.leb_spec x 195); [|done].
      destruct (decode_from (S (S pos)) r') as [s'|] eqn:E; [|done]. injection H as <-.
      apply Forall_cons in Hr as [_ Hr'].
      cbn [encode]. fold (two_byte_char x y). rewrite encode_two_bytes by (done || by apply lead_latin1).
      cbn. do 2 f_equal. by apply (IH r' ltac:(cbn; lia) (S (S pos))).
    + repeat (case_match; try discriminate H).
Qed.

Lemma encode_bytes s : Forall byte_ok (encode s).
Proof. induction s as [|c s IH]; cbn; [done|]. apply Forall_app. split; [apply encode_char_bytes | done]. Qed.

Lemma length_encode_char c : length (encode_char c) = if (nat_of_ascii c <? 128)%nat then 1%nat else 2%nat.
Proof.
  unfold encode_char. destruct (Nat.ltb_spec (nat_of_ascii c) 128) as [H|H].
  - by rewrite (proj2 (Z.ltb_lt _ _)) by lia.
  - by rewrite (proj2 (Z.ltb_ge _ _)) by lia.
Qed.

(** [str.encode('utf8')] and [bytes.decode('utf-8')] are inverse:
    decoding the encoding of a text gives the text back, and bytes that
    decode to a text are exactly that text's encoding (UTF-8 has one
    encoding per text, so the decoder accepts nothing else). *)
Theorem utf8_roundtrip s b :
  decode (encode s) = Ok s ∧ (Forall byte_ok b → decode b = Ok s → encode s = b).
Proof. split; [apply decode_encode | apply encode_decode_from]. Qed.

(** The byte count [main] prints, [len(content.encode('utf8'))],
    is the character count [utf8_len] (one byte below U+0080, two
    above), and every encoded value is a byte. *)
Theorem utf8_len_encode s : length (encode s) = utf8_len s ∧ Forall byte_ok (encode s).
Proof.
  split; [|apply encode_bytes].
  induction s as [|c s IH]; [done|]. cbn [encode utf8_len].
  by rewrite length_app, IH, length_encode_char.
Qed.

End Utf8.
