(* ===== verification/JsonLoads.v ===== *)
(** * [json.loads]: the decoder of the item list (line 172)

    [main] decodes the text [bw list items] prints with [json.loads].
    This file models CPython's decoder as the script runs it: the C
    scanner of [Modules/_json.c] ([scan_once_unicode],
    [scanstring_unicode], [_parse_object_unicode],
    [_parse_array_unicode], [_match_number_unicode]) under
    [json.decoder.JSONDecoder.decode] and [raw_decode], in the strict
    mode [json.loads] uses, with the messages of Python 3.12.

    The scanner works on the list of characters still to read; the
    index a [JSONDecodeError] reports is the length of the text minus
    the length of that list.  Objects are built with [dict_set], as
    [PyDict_SetItem] builds them: a repeated key keeps its first place
    and its last value.  Floats, [NaN], [Infinity] and [\u] escapes
    beyond U+00FF have no value in the model and end in [Unmodelled].
    The nesting of values is followed with fuel; [json_loads] gives the
    scanner two units per character, which is enough
    ([json_loads_fuel]).  The text [bw] prints is modelled by
    [json_dumps], Node's [JSON.stringify]; the decoder reads it back
    ([json_loads_dumps]), and rejects every strict prefix of the text of
    an array ([json_loads_truncated]). *)

From S2P Require Import Prelude PyStr PyDict PyJson.

Module JsonLoads.

(** Why the scanner stopped: a [JSONDecodeError] at the first character
    of [rest], a value outside the model, or no fuel left. *)
Inductive jerr : Type :=
| Decode (msg : string) (rest : list ascii)
| Unsupported (what : string)
| OutOfFuel.

Abbreviation scan A := (result jerr (A * list ascii)).

Definition chars (s : string) : list ascii := String.list_ascii_of_string s.

Definition is_ws (c : ascii) : bool :=
  Ascii.eqb c " " || Ascii.eqb c (ch 9) || Ascii.eqb c (ch 10) || Ascii.eqb c (ch 13).

(** [while (idx <= end_idx && IS_WHITESPACE(...)) idx++] *)
Fixpoint skip_ws (s : list ascii) : list ascii :=
  match s with
  | c :: s' => if is_ws c then skip_ws s' else s
  | [] => []
  end.

(** [s] with the prefix [p] removed, when [s] starts with [p]. *)
Fixpoint chop (p s : list ascii) : option (list ascii) :=
  match p, s with
  | [], _ => Some s
  | a :: p', b :: s' => if Ascii.eqb a b then chop p' s' else None
  | _ :: _, [] => None
  end.

(** ** Strings: [scanstring_unicode] *)

Definition hex_value (c : ascii) : option nat :=
  let n := nat_of_ascii c in
  if (48 <=? n) && (n <=? 57) then Some (n - 48)
  else if (97 <=? n) && (n <=? 102) then Some (n - 87)
  else if (65 <=? n) && (n <=? 70) then Some (n - 55)
  else None.

(** The character of a one-letter escape [\c]. *)
Definition simple_escape (c : ascii) : option ascii :=
  if Ascii.eqb c dquote then Some dquote
  else if Ascii.eqb c "\" then Some "\"%char
  else if Ascii.eqb c "/" then Some "/"%char
  else if Ascii.eqb c "b" then Some (ch 8)
  else if Ascii.eqb c "f" then Some (ch 12)
  else if Ascii.eqb c "n" then Some (ch 10)
  else if Ascii.eqb c "r" then Some (ch 13)
  else if Ascii.eqb c "t" then Some (ch 9)
  else None.

(** The body of a string literal after its opening quote; [begin] is the
    text from the quote on, where an unterminated string is reported. *)
Fixpoint scan_string (begin s : list ascii) : scan (list ascii) :=
  match s with
  | [] => Err (Decode "Unterminated string starting at" begin)
  | c :: s' =>
      if Ascii.eqb c dquote then Ok ([], s')
      else if Ascii.eqb c "\" then
        match s' with
        | [] => Err (Decode "Unterminated string starting at" begin)
        | e :: s'' =>
            if Ascii.eqb e "u" then
              match s'' with
              | h1 :: h2 :: h3 :: h4 :: r =>
                  match r with
                  | [] => Err (Decode "Invalid \uXXXX escape" s')
                  | _ :: _ =>
                      match hex_value h1, hex_value h2, hex_value h3, hex_value h4 with
                      | Some a, Some b, Some c', Some d =>
                          let code := ((a * 16 + b) * 16 + c') * 16 + d in
                          if code <? 256 then
                            p <- scan_string begin r ;; Ok (ascii_of_nat code :: p.1, p.2)
                          else Err (Unsupported "a \u escape beyond U+00FF")
                      | _, _, _, _ => Err (Decode "Invalid \uXXXX escape" s')
                      end
                  end
              | _ => Err (Decode "Invalid \uXXXX escape" s')
              end
            else
              match simple_escape e with
              | Some x => p <- scan_string begin s'' ;; Ok (x :: p.1, p.2)
              | None => Err (Decode "Invalid \escape" s)
              end
        end
      else if nat_of_ascii c <? 32 then Err (Decode "Invalid control character at" s)
      else p <- scan_string begin s' ;; Ok (c :: p.1, p.2)
  end.

(** ** Numbers: [_match_number_unicode] *)

Definition digit19 (c : ascii) : bool := is_digit c && negb (Ascii.eqb c "0").

Fixpoint span_digits (s : list ascii) : list ascii * list ascii :=
  match s with
  | c :: s' => if is_digit c then let '(ds, r) := span_digits s' in (c :: ds, r) else ([], s)
  | [] => ([], [])
  end.

(** A fraction [.d] or an exponent [e[+-]d] follows the integer part:
    the number is a float. *)
Definition float_follows (r : list ascii) : bool :=
  match r with
  | c :: r' =>
      if Ascii.eqb c "." then
        match r' with d :: _ => is_digit d | [] => false end
      else if Ascii.eqb c "e" || Ascii.eqb c "E" then
        match r' with
        | d :: r'' =>
            is_digit d ||
            ((Ascii.eqb d "+" || Ascii.eqb d "-") &&
             match r'' with d' :: _ => is_digit d' | [] => false end)
        | [] => false
        end
      else false
  | [] => false
  end.

(** [int(digits)], negated after a minus sign. *)
Definition int_value (neg : bool) (ds r : list ascii) : scan json :=
  if float_follows r then Err (Unsupported "a float")
  else match NilEmpty.uint_of_string (String.string_of_list_ascii ds) with
       | Some d => let n := Z.of_nat (Nat.of_uint d) in Ok (JInt (if neg then (- n)%Z else n), r)
       | None => Err (Unsupported "digits")
       end.

Definition number (s : list ascii) : scan json :=
  let '(neg, s1) := match s with
                    | c :: t => if Ascii.eqb c "-" then (true, t) else (false, s)
                    | [] => (false, s)
                    end in
  match s1 with
  | c :: t =>
      if Ascii.eqb c "0" then int_value neg [c] t
      else if digit19 c then let '(ds, r) := span_digits t in int_value neg (c :: ds) r
      else Err (Decode "Expecting value" s)
  | [] => Err (Decode "Expecting value" s)
  end.

(** The named constants, then a number: the tail of [scan_once_unicode]. *)
Definition constant_or_number (s : list ascii) : scan json :=
  match chop (chars "null") s with Some r => Ok (JNull, r) | None =>
  match chop (chars "true") s with Some r => Ok (JBool true, r) | None =>
  match chop (chars "false") s with Some r => Ok (JBool false, r) | None =>
  match chop (chars "NaN") s with Some _ => Err (Unsupported "NaN") | None =>
  match chop (chars "Infinity") s with Some _ => Err (Unsupported "Infinity") | None =>
  match chop (chars "-Infinity") s with Some _ => Err (Unsupported "-Infinity") | None =>
  number s
  end end end end end end.

(** ** Values, arrays and objects *)

(** [scan_once_unicode] *)
Fixpoint value (fuel : nat) (s : list ascii) : scan json :=
  match fuel with
  | 0 => Err OutOfFuel
  | S f =>
      match s with
      | [] => Err (Decode "Expecting value" s)
      | c :: s' =>
          if Ascii.eqb c dquote then p <- scan_string s s' ;; Ok (JStr (String.string_of_list_ascii p.1), p.2)
          else if Ascii.eqb c "{" then
            let s1 := skip_ws s' in
            match s1 with
            | c1 :: r => if Ascii.eqb c1 "}" then Ok (JObj [], r) else members f s1 []
            | [] => members f s1 []
            end
          else if Ascii.eqb c "[" then
            let s1 := skip_ws s' in
            match s1 with
            | c1 :: r => if Ascii.eqb c1 "]" then Ok (JArr [], r) else elements f s1 []
            | [] => elements f s1 []
            end
          else constant_or_number s
      end
  end

(** The loop of [_parse_array_unicode], [acc] the elements read so far. *)
with elements (fuel : nat) (s : list ascii) (acc : list json) : scan json :=
  match fuel with
  | 0 => Err OutOfFuel
  | S f =>
      p <- value f s ;;
      let v := p.1 in
      let r := skip_ws p.2 in
      match r with
      | c :: r' =>
          if Ascii.eqb c "]" then Ok (JArr (acc ++ [v]), r')
          else if Ascii.eqb c "," then elements f (skip_ws r') (acc ++ [v])
          else Err (Decode "Expecting ',' delimiter" r)
      | [] => Err (Decode "Expecting ',' delimiter" r)
      end
  end

(** The loop of [_parse_object_unicode], [acc] the dict built so far. *)
with members (fuel : nat) (s : list ascii) (acc : dict string json) : scan json :=
  match fuel with
  | 0 => Err OutOfFuel
  | S f =>
      match s with
      | q :: s' =>
          if Ascii.eqb q dquote then
            p <- scan_string s s' ;;
            let r := skip_ws p.2 in
            match r with
            | c :: r' =>
                if Ascii.eqb c ":" then
                  q <- value f (skip_ws r') ;;
                  let acc' := dict_set (String.string_of_list_ascii p.1) q.1 acc in
                  let r2 := skip_ws q.2 in
                  match r2 with
                  | d :: r3 =>
                      if Ascii.eqb d "}" then Ok (JObj acc', r3)
                      else if Ascii.eqb d "," then members f (skip_ws r3) acc'
                      else Err (Decode "Expecting ',' delimiter" r2)
                  | [] => Err (Decode "Expecting ',' delimiter" r2)
                  end
                else Err (Decode "Expecting ':' delimiter" r)
            | [] => Err (Decode "Expecting ':' delimiter" r)
            end
          else Err (Decode "Expecting property name enclosed in double quotes" s)
      | [] => Err (Decode "Expecting property name enclosed in double quotes" s)
      end
  end.

(** ** The text [bw] prints

    [bw] is a Node.js program and prints the items with
    [JSON.stringify]: no whitespace, a double quote, a backslash and
    the control characters escaped ([\b], [\f], [\n], [\r], [\t], or
    [\u00XX]), every other character as it is. *)

Definition escape_char (c : ascii) : list ascii :=
  let n := nat_of_ascii c in
  if Ascii.eqb c dquote then [bslash; dquote]
  else if Ascii.eqb c bslash then [bslash; bslash]
  else if n =? 8 then [bslash; "b"%char]
  else if n =? 12 then [bslash; "f"%char]
  else if n =? 10 then [bslash; "n"%char]
  else if n =? 13 then [bslash; "r"%char]
  else if n =? 9 then [bslash; "t"%char]
  else if n <? 32 then [bslash; "u"%char; "0"%char; "0"%char; hex_digit (n / 16); hex_digit (n mod 16)]
  else [c].

Definition dump_string (s : string) : list ascii :=
  dquote :: flat_map escape_char (chars s) ++ [dquote].

(** The elements [xs] separated by commas. *)
Fixpoint commas (xs : list (list ascii)) : list ascii :=
  match xs with
  | [] => []
  | [x] => x
  | x :: xs' => x ++ ","%char :: commas xs'
  end.

Fixpoint dump (v : json) : list ascii :=
  match v with
  | JNull => chars "null"
  | JBool true => chars "true"
  | JBool false => chars "false"
  | JInt z => chars (str_of_Z z)
  | JStr s => dump_string s
  | JArr xs => "["%char :: commas (map dump xs) ++ ["]"%char]
  | JObj kvs => "{"%char :: commas (map (λ kv, dump_string kv.1 ++ ":"%char :: dump kv.2) kvs) ++ ["}"%char]
  end.

Definition json_dumps (v : json) : string := String.string_of_list_ascii (dump v).

(** [json.loads(s)]: [JSONDecoder.decode] and [raw_decode], with the
    scanner given [fuel]. *)
Definition loads_with (fuel : nat) (s : string) : res json :=
  let cs := chars s in
  let pos (r : list ascii) : nat := length cs - length r in
  match value fuel (skip_ws cs) with
  | Ok (v, r) =>
      let r := skip_ws r in
      match r with
      | [] => Ok v
      | _ :: _ => Err (JSONDecodeError "Extra data" (pos r))
      end
  | Err (Decode msg rest) => Err (JSONDecodeError msg (pos rest))
  | Err (Unsupported what) => Err (Unmodelled what)
  | Err OutOfFuel => Err (Unmodelled "nesting")
  end.

(** Two units of fuel per character, and one more for the empty text. *)
Definition json_loads (s : string) : res json := loads_with (S (2 * String.length s)) s.

(** Every object of [v] has distinct keys: the values [JSON.stringify]
    prints from JavaScript objects. *)
Fixpoint json_wfb (v : json) : bool :=
  match v with
  | JArr xs => forallb json_wfb xs
  | JObj kvs => bool_decide (NoDup kvs.*1) && forallb (λ kv, json_wfb kv.2) kvs
  | _ => true
  end.

(** The fuel the scanner spends on [v]. *)
Fixpoint need (v : json) : nat :=
  match v with
  | JArr xs => S (sum_list (map (λ x, S (need x)) xs))
  | JObj kvs => S (sum_list (map (λ kv, S (need kv.2)) kvs))
  | _ => 1
  end.

(** ** Lemmas *)

Lemma scan_escape_char begin c t :
  t ≠ [] →
  scan_string begin (escape_char c ++ t) = (p <- scan_string begin t ;; Ok (c :: p.1, p.2)).
Proof.
  intros Ht. destruct t as [|x t]; [done|].
  destruct c as [[] [] [] [] [] [] [] []]; reflexivity.
Qed.

Lemma scan_string_escaped begin l rest :
  scan_string begin (flat_map escape_char l ++ dquote :: rest) = Ok (l, rest).
Proof.
  induction l as [|c l IH]; [reflexivity|]. cbn [flat_map].
  rewrite <- app_assoc, scan_escape_char, IH; [done|].
  intros E. apply app_eq_nil in E as [_ E]. discriminate E.
Qed.

Lemma chars_length s : length (chars s) = String.length s.
Proof. unfold chars. induction s as [|c s IH]; cbn; [done|]. by rewrite IH. Qed.

Lemma chars_app s1 s2 : chars (s1 +:+ s2) = chars s1 ++ chars s2.
Proof. unfold chars. induction s1 as [|c s1 IH]; [done|]. rewrite str_app_cons. cbn. by f_equal. Qed.

Lemma forallb_chars p s : forallb p (chars s) = str_forall p s.
Proof. unfold chars. induction s as [|c s IH]; [done|]. cbn. by rewrite IH. Qed.

(** ** Numbers *)

(** What may follow a number without changing it: nothing, or a
    character that neither continues the digits nor starts a fraction
    or an exponent. *)
Definition num_delim (r : list ascii) : bool :=
  match r with
  | [] => true
  | c :: _ => negb (is_digit c || Ascii.eqb c "." || Ascii.eqb c "e" || Ascii.eqb c "E")
  end.

Lemma float_follows_delim r : num_delim r = true → float_follows r = false.
Proof.
  destruct r as [|c r]; [done|]. cbn.
  destruct (is_digit c), (Ascii.eqb c "."), (Ascii.eqb c "e"), (Ascii.eqb c "E"); done.
Qed.

Lemma span_digits_app ds r :
  forallb is_digit ds = true → num_delim r = true → span_digits (ds ++ r) = (ds, r).
Proof.
  intros Hds Hr. induction ds as [|d ds IH].
  - destruct r as [|c r]; [done|]. cbn in Hr |- *.
    by destruct (is_digit c).
  - cbn in Hds |- *. apply andb_true_iff in Hds as [-> Hds]. by rewrite IH.
Qed.

Lemma int_value_nat (neg : bool) n r :
  num_delim r = true →
  int_value neg (chars (str_of_nat n)) r =
  Ok (JInt (if neg then (- Z.of_nat n)%Z else Z.of_nat n), r).
Proof.
  intros Hr. unfold int_value. rewrite float_follows_delim by done.
  unfold chars. rewrite String.string_of_list_ascii_of_string.
  unfold str_of_nat. by rewrite NilEmpty.usu, Unsigned.of_to.
Qed.

Lemma chop_mismatch a p b s : Ascii.eqb a b = false → chop (a :: p) (b :: s) = None.
Proof. cbn. by intros ->. Qed.

Lemma chop_same a p s : chop (a :: p) (a :: s) = chop p s.
Proof. cbn. by rewrite Ascii.eqb_refl. Qed.

Lemma digit_eqb_l x d : is_digit x = false → is_digit d = true → Ascii.eqb x d = false.
Proof. intros Hx Hd. apply Ascii.eqb_neq. intros ->. congruence. Qed.

Lemma digit_eqb_r x d : is_digit x = false → is_digit d = true → Ascii.eqb d x = false.
Proof. intros Hx Hd. apply Ascii.eqb_neq. intros ->. congruence. Qed.

Lemma constant_or_number_digit d t :
  is_digit d = true → constant_or_number (d :: t) = number (d :: t).
Proof.
  intros Hd. unfold constant_or_number, chars. cbn [String.list_ascii_of_string].
  by rewrite !chop_mismatch by (by apply digit_eqb_l).
Qed.

Lemma constant_or_number_minus d t :
  is_digit d = true → constant_or_number ("-"%char :: d :: t) = number ("-"%char :: d :: t).
Proof.
  intros Hd. unfold constant_or_number, chars. cbn [String.list_ascii_of_string].
  rewrite (chop_mismatch "n"), (chop_mismatch "t"), (chop_mismatch "f"), (chop_mismatch "N"),
    (chop_mismatch "I") by reflexivity.
  by rewrite chop_same, chop_mismatch by (by apply digit_eqb_l).
Qed.

(** The digits of [str(n)], [n > 0], read as a number. *)
Lemma number_nat (neg : bool) n r :
  n ≠ 0 → num_delim r = true →
  number ((if neg then ["-"%char] else []) ++ chars (str_of_nat n) ++ r) =
  Ok (JInt (if neg then (- Z.of_nat n)%Z else Z.of_nat n), r).
Proof.
  intros Hn Hr. destruct (str_of_nat_head n) as (d & s & Hs & Hd & H0).
  specialize (H0 Hn). rewrite <- (int_value_nat neg n r Hr), Hs.
  assert (Hs' : forallb is_digit (chars s) = true).
  { rewrite forallb_chars. pose proof (str_of_nat_digits n) as Hall.
    rewrite Hs in Hall. cbn in Hall. by apply andb_true_iff in Hall as [_ ?]. }
  unfold number. cbn [chars String.list_ascii_of_string app].
  assert (Hd0 : Ascii.eqb d "0" = false) by (by apply Ascii.eqb_neq).
  assert (Hd19 : digit19 d = true) by (unfold digit19; by rewrite Hd, Hd0).
  destruct neg; cbn [app];
    rewrite ?(digit_eqb_r "-" d) by done; cbn [Ascii.eqb Bool.eqb andb];
    rewrite Hd0, Hd19, span_digits_app by done; reflexivity.
Qed.

Lemma number_str_of_Z z r :
  num_delim r = true → constant_or_number (chars (str_of_Z z) ++ r) = Ok (JInt z, r).
Proof.
  intros Hr. destruct z as [|p|p]; cbn [str_of_Z].
  - cbn. unfold int_value. rewrite float_follows_delim by done. reflexivity.
  - destruct (str_of_nat_head (Pos.to_nat p)) as (d & s & Hs & Hd & _).
    pose proof (number_nat false (Pos.to_nat p) r ltac:(lia) Hr) as Hn.
    rewrite positive_nat_Z, Hs in Hn. rewrite Hs.
    cbn [chars String.list_ascii_of_string app] in Hn |- *.
    by rewrite constant_or_number_digit.
  - destruct (str_of_nat_head (Pos.to_nat p)) as (d & s & Hs & Hd & _).
    pose proof (number_nat true (Pos.to_nat p) r ltac:(lia) Hr) as Hn.
    rewrite positive_nat_Z, Hs in Hn. rewrite chars_app, Hs.
    cbn [chars String.list_ascii_of_string app] in Hn |- *.
    by rewrite constant_or_number_minus.
Qed.

(** ** The printed text read back *)

(** A character a printed value may start with: not blank, and not the
    end of an array or object. *)
Definition head_ok (d : ascii) : bool :=
  negb (is_ws d) && negb (Ascii.eqb d "]") && negb (Ascii.eqb d "}").

(** The first character of a string, object or array. *)
Definition opener (d : ascii) : bool :=
  Ascii.eqb d dquote || Ascii.eqb d "{" || Ascii.eqb d "[".

Lemma digit_head_ok d : is_digit d = true → head_ok d && negb (opener d) = true.
Proof.
  intros Hd. pose proof (ascii_all_spec (λ d, negb (is_digit d) || (head_ok d && negb (opener d)))
                           ltac:(vm_compute; reflexivity) d) as H.
  cbv beta in H. by rewrite Hd in H.
Qed.

Lemma str_of_Z_head z :
  ∃ c t, chars (str_of_Z z) = c :: t ∧ head_ok c && negb (opener c) = true ∧
         (is_digit c = true ∨ c = "-"%char).
Proof.
  destruct z as [|p|p]; cbn [str_of_Z].
  - exists "0"%char, []. split_and!; [reflexivity | reflexivity | by left].
  - destruct (str_of_nat_head (Pos.to_nat p)) as (d & t & -> & Hd & _).
    exists d, (chars t). split_and!; [done | by apply digit_head_ok | by left].
  - eexists "-"%char, _. split_and!; [reflexivity | reflexivity | by right].
Qed.

Lemma dump_head v : ∃ c t, dump v = c :: t ∧ head_ok c = true.
Proof.
  destruct v as [| [] |z|s|xs|kvs]; try (eexists _, _; split; reflexivity).
  destruct (str_of_Z_head z) as (c & t & E & Hc & _). exists c, t.
  apply andb_true_iff in Hc as [Hc _]. by split.
Qed.

Lemma skip_ws_dump v r : skip_ws (dump v ++ r) = dump v ++ r.
Proof.
  destruct (dump_head v) as (c & t & -> & Hc). cbn.
  unfold head_ok in Hc. destruct (is_ws c); [discriminate Hc | done].
Qed.

Lemma commas_cons x y ys : commas (x :: y :: ys) = x ++ ","%char :: commas (y :: ys).
Proof. reflexivity. Qed.

Lemma sum_list_le {A} (f g : A → nat) l :
  Forall (λ x, f x ≤ g x) l → sum_list (map f l) ≤ sum_list (map g l).
Proof. induction 1; cbn; lia. Qed.

Lemma commas_length ls : sum_list (map length ls) + length ls ≤ S (length (commas ls)).
Proof.
  induction ls as [|x [|y ls] IH]; [cbn; lia | cbn; unfold id; lia |].
  rewrite commas_cons, length_app. cbn [length map sum_list] in *. unfold id in *. lia.
Qed.

Lemma sum_list_S {A} (f : A → nat) l :
  sum_list (map (λ x, S (f x)) l) = sum_list (map f l) + length l.
Proof. induction l as [|x l IH]; cbn; [done|]. unfold id in *. lia. Qed.

Lemma need_le v : need v ≤ length (dump v).
Proof.
  revert v. apply json_nested_ind.
  - cbn. lia.
  - intros []; cbn; lia.
  - intros z. destruct (dump_head (JInt z)) as (c & t & E & _). rewrite E. cbn. lia.
  - intros s. cbn. lia.
  - intros xs IH. cbn [need dump].
    pose proof (commas_length (map dump xs)) as Hc.
    rewrite map_map, length_map in Hc. cbn [length]; rewrite length_app; cbn [length].
    pose proof (sum_list_le need (λ x, length (dump x)) xs IH) as Hs.
    rewrite sum_list_S. lia.
  - intros kvs IH. cbn [need dump].
    pose proof (commas_length (map (λ kv, dump_string kv.1 ++ ":"%char :: dump kv.2) kvs)) as Hc.
    rewrite map_map, length_map in Hc. cbn [length]; rewrite length_app; cbn [length].
    assert (Hs : sum_list (map (λ kv, S (need kv.2)) kvs) ≤
                 sum_list (map (λ kv : string * json,
                                  length (dump_string kv.1 ++ ":"%char :: dump kv.2)) kvs)).
    { apply sum_list_le. eapply Forall_impl; [exact IH|]. intros kv Hkv. cbv beta in *.
      rewrite length_app. unfold dump_string. cbn [length]. lia. }
    lia.
Qed.

(** [v] is read back from its printed text, whatever follows it. *)
Definition dump_reads (v : json) : Prop :=
  json_wfb v = true → ∀ fuel r, need v ≤ fuel → num_delim r = true →
  value fuel (dump v ++ r) = Ok (v, r).

Lemma skip_ws_punct c t : is_ws c = false → skip_ws (c :: t) = c :: t.
Proof. cbn. by intros ->. Qed.

Lemma value_other f c t : opener c = false → value (S f) (c :: t) = constant_or_number (c :: t).
Proof.
  unfold opener. intros H. cbn [value].
  destruct (Ascii.eqb c dquote), (Ascii.eqb c "{"), (Ascii.eqb c "["); done.
Qed.

Lemma commas_head a l : ∃ t, commas (a :: l) = a ++ t.
Proof. destruct l as [|b l]; [exists []; by rewrite app_nil_r | by eexists]. Qed.

Lemma skip_ws_commas x xs t : skip_ws (commas (map dump (x :: xs)) ++ t) = commas (map dump (x :: xs)) ++ t.
Proof.
  destruct (commas_head (dump x) (map dump xs)) as [u Hu]. cbn [map]. rewrite Hu.
  by rewrite <- app_assoc, skip_ws_dump.
Qed.

Lemma head_commas x xs t :
  ∃ c u, commas (map dump (x :: xs)) ++ t = c :: u ∧ head_ok c = true.
Proof.
  destruct (commas_head (dump x) (map dump xs)) as [u Hu].
  destruct (dump_head x) as (c & w & E & Hc). cbn [map]. rewrite Hu, E.
  by eexists c, _.
Qed.

Lemma elements_dump xs :
  Forall dump_reads xs → forallb json_wfb xs = true → xs ≠ [] →
  ∀ fuel acc r, sum_list (map (λ x, S (need x)) xs) ≤ fuel →
  elements fuel (commas (map dump xs) ++ "]"%char :: r) acc = Ok (JArr (acc ++ xs), r).
Proof.
  induction 1 as [|x xs Hx Hxs IH]; intros Hwf Hne fuel acc r Hf; [done|].
  cbn [forallb] in Hwf. apply andb_true_iff in Hwf as [Hwx Hwxs].
  cbn [map sum_list] in Hf. destruct fuel as [|f]; [cbn in Hf; lia|]. unfold id in Hf.
  destruct xs as [|y ys].
  - cbn [map commas elements]. rewrite (Hx Hwx f) by (cbn in Hf |- *; lia || done).
    rewrite bind_Ok. reflexivity.
  - cbn [map]. rewrite commas_cons, <- app_assoc. cbn [app elements].
    rewrite (Hx Hwx f) by (cbn in Hf |- *; lia || done). rewrite bind_Ok.
    cbn [fst snd]. rewrite skip_ws_punct by reflexivity. cbn [Ascii.eqb Bool.eqb andb].
    rewrite <- (map_cons dump y ys), skip_ws_commas.
    rewrite (IH Hwxs ltac:(done) f (acc ++ [x]) r) by (cbn in Hf |- *; unfold id in *; lia).
    by rewrite <- app_assoc.
Qed.

Definition dump_member (kv : string * json) : list ascii :=
  dump_string kv.1 ++ ":"%char :: dump kv.2.

Lemma skip_ws_members kv kvs t :
  skip_ws (commas (map dump_member (kv :: kvs)) ++ t) = commas (map dump_member (kv :: kvs)) ++ t.
Proof.
  destruct (commas_head (dump_member kv) (map dump_member kvs)) as [u Hu]. cbn [map].
  rewrite Hu. unfold dump_member, dump_string. reflexivity.
Qed.

(** One member [k:v] followed by [t]. *)
Lemma members_step f k v t acc :
  value f (dump v ++ t) = Ok (v, t) →
  members (S f) (dump_member (k, v) ++ t) acc =
  match skip_ws t with
  | d :: r3 =>
      if Ascii.eqb d "}" then Ok (JObj (dict_set k v acc), r3)
      else if Ascii.eqb d "," then members f (skip_ws r3) (dict_set k v acc)
      else Err (Decode "Expecting ',' delimiter" (skip_ws t))
  | [] => Err (Decode "Expecting ',' delimiter" (skip_ws t))
  end.
Proof.
  intros Hv. unfold dump_member, dump_string. cbn [fst snd].
  cbn [app members]. rewrite Ascii.eqb_refl, <- !app_assoc. cbn [app].
  rewrite scan_string_escaped, bind_Ok. cbn [fst snd].
  rewrite skip_ws_punct by reflexivity. cbn [Ascii.eqb Bool.eqb andb].
  rewrite skip_ws_dump, Hv, bind_Ok. cbn [fst snd].
  by rewrite String.string_of_list_ascii_of_string.
Qed.

Lemma members_dump kvs :
  Forall (λ kv, dump_reads kv.2) kvs → forallb (λ kv, json_wfb kv.2) kvs = true → kvs ≠ [] →
  ∀ fuel acc r, sum_list (map (λ kv, S (need kv.2)) kvs) ≤ fuel →
  members fuel (commas (map dump_member kvs) ++ "}"%char :: r) acc =
  Ok (JObj (dict_update acc kvs), r).
Proof.
  induction 1 as [|[k v] kvs Hv Hkvs IH]; intros Hwf Hne fuel acc r Hf; [done|].
  cbn [forallb fst snd] in Hwf, Hv. apply andb_true_iff in Hwf as [Hwv Hwkvs].
  cbn [map sum_list fst snd] in Hf. destruct fuel as [|f]; [cbn in Hf; lia|]. unfold id in Hf.
  rewrite dict_update_cons. destruct kvs as [|kv kvs].
  - cbn [map commas].
    rewrite (members_step f k v) by (apply Hv; [done | cbn in Hf; lia | done]).
    rewrite skip_ws_punct by reflexivity. reflexivity.
  - cbn [map]. rewrite commas_cons, <- !app_assoc. cbn [app].
    rewrite (members_step f k v) by (apply Hv; [done | cbn in Hf; lia | done]).
    rewrite skip_ws_punct by reflexivity. cbn [Ascii.eqb Bool.eqb andb].
    rewrite <- (map_cons dump_member kv kvs), skip_ws_members.
    apply IH; [done | done |]. cbn in Hf |- *. unfold id in *. lia.
Qed.

Lemma head_members kv kvs t : ∃ u, commas (map dump_member (kv :: kvs)) ++ t = dquote :: u.
Proof.
  destruct (commas_head (dump_member kv) (map dump_member kvs)) as [u Hu]. cbn [map].
  rewrite Hu. unfold dump_member, dump_string. by eexists.
Qed.

Lemma value_dump v : dump_reads v.
Proof.
  induction v as [| b | z | s | xs IH | kvs IH] using json_nested_ind;
    intros Hwf fuel r Hf Hr; (destruct fuel as [|f]; [cbn in Hf; lia|]).
  - reflexivity.
  - destruct b; reflexivity.
  - destruct (str_of_Z_head z) as (c & t & E & Hc & _). apply andb_true_iff in Hc as [_ Hc].
    cbn [dump]. pose proof (number_str_of_Z z r Hr) as Hn. rewrite E in Hn |- *.
    cbn [app] in Hn |- *. rewrite value_other by (by destruct (opener c)). exact Hn.
  - cbn [dump]. unfold dump_string. cbn [app value]. rewrite Ascii.eqb_refl, <- app_assoc.
    cbn [app]. rewrite scan_string_escaped, bind_Ok. cbn [fst snd].
    by rewrite String.string_of_list_ascii_of_string.
  - cbn [dump need] in Hf |- *. cbn [json_wfb] in Hwf. destruct xs as [|x xs].
    + reflexivity.
    + cbn [app]. rewrite <- app_assoc. cbn [app value Ascii.eqb Bool.eqb andb].
      rewrite skip_ws_commas.
      destruct (head_commas x xs ("]"%char :: r)) as (c & u & E & Hc). rewrite E.
      unfold head_ok in Hc. destruct (Ascii.eqb c "]"); [by rewrite andb_false_r in Hc|].
      rewrite <- E. apply (elements_dump (x :: xs) IH Hwf ltac:(done)). lia.
  - cbn [dump need] in Hf |- *. cbn [json_wfb] in Hwf.
    apply andb_true_iff in Hwf as [Hnd Hwf]. apply bool_decide_eq_true in Hnd.
    change (map (λ kv, dump_string kv.1 ++ ":"%char :: dump kv.2) kvs) with (map dump_member kvs).
    destruct kvs as [|kv kvs].
    + reflexivity.
    + cbn [app]. rewrite <- app_assoc. cbn [app value Ascii.eqb Bool.eqb andb].
      rewrite skip_ws_members.
      destruct (head_members kv kvs ("}"%char :: r)) as [u E]. rewrite E.
      cbn [Ascii.eqb Bool.eqb andb]. rewrite <- E.
      rewrite (members_dump (kv :: kvs) IH Hwf ltac:(done) f [] r) by lia.
      rewrite dict_update_fresh; [done|]. by rewrite app_nil_l.
Qed.

(** The fuel [json_loads] gives is enough for the text of [v]. *)
Lemma need_fuel v : need v ≤ 2 * length (dump v).
Proof. pose proof (need_le v). lia. Qed.

Lemma value_dump_fuel v r :
  json_wfb v = true → num_delim r = true →
  value (S (2 * length (dump v ++ r))) (dump v ++ r) = Ok (v, r).
Proof.
  intros Hwf Hr. apply value_dump; [done | | done].
  pose proof (need_le v). rewrite length_app. lia.
Qed.

Lemma ws_num_delim c t : is_ws c = true → num_delim (c :: t) = true.
Proof. destruct c as [[] [] [] [] [] [] [] []]; cbn; done. Qed.

Lemma skip_ws_blank s : forallb is_ws s = true → skip_ws s = [].
Proof. induction s as [|c s IH]; cbn; [done|]. destruct (is_ws c); cbn; [done|discriminate]. Qed.

(** With any fuel above twice its length, the text of [v] followed by
    blanks decodes to [v]. *)
Lemma loads_with_dumps v w f :
  json_wfb v = true → str_forall is_ws w = true → 2 * length (dump v) < f →
  loads_with f (json_dumps v +:+ w) = Ok v.
Proof.
  intros Hwf Hw Hf. rewrite <- forallb_chars in Hw. unfold loads_with, json_dumps.
  rewrite chars_app.
  replace (chars (String.string_of_list_ascii (dump v))) with (dump v)
    by (symmetry; apply String.list_ascii_of_string_of_list_ascii).
  rewrite skip_ws_dump.
  destruct f as [|f]; [lia|]. rewrite (value_dump v); [cbv zeta; by rewrite skip_ws_blank | done | |].
  - pose proof (need_le v). lia.
  - destruct (chars w) as [|c t]; [done|]. apply ws_num_delim. cbn in Hw. by destruct (is_ws c).
Qed.

(** The fuel [json_loads] gives the text of [v] and blanks is enough. *)
Lemma dumps_fuel v w : 2 * length (dump v) < S (2 * String.length (json_dumps v +:+ w)).
Proof.
  rewrite <- chars_length, chars_app. unfold json_dumps, chars at 1.
  rewrite String.list_ascii_of_string_of_list_ascii, length_app. lia.
Qed.

(** [json.loads] reads back the text [bw] prints: for a value whose
    objects have distinct keys, decoding [JSON.stringify]'s output,
    followed by any blanks (a final newline), gives the value. *)
Theorem json_loads_dumps v w :
  json_wfb v = true → str_forall is_ws w = true → json_loads (json_dumps v +:+ w) = Ok v.
Proof. intros Hwf Hw. apply loads_with_dumps; [done | done | apply dumps_fuel]. Qed.

(** A value followed by anything but blanks raises [JSONDecodeError]
    ["Extra data"] at the end of the value. *)
Theorem json_loads_extra_data v c t :
  json_wfb v = true → num_delim [c] = true → is_ws c = false →
  json_loads (json_dumps v +:+ String.String c t) =
  Err (JSONDecodeError "Extra data" (length (dump v))).
Proof.
  intros Hwf Hc Hws. unfold json_loads. rewrite <- chars_length. unfold loads_with, json_dumps.
  rewrite chars_app.
  replace (chars (String.string_of_list_ascii (dump v))) with (dump v)
    by (symmetry; apply String.list_ascii_of_string_of_list_ascii).
  cbn [chars String.list_ascii_of_string].
  rewrite skip_ws_dump, value_dump_fuel by (done || by destruct (String.list_ascii_of_string t)).
  rewrite skip_ws_punct by done. cbn [length]. rewrite length_app. cbn [length]. f_equal. f_equal. lia.
Qed.

(** ** The fuel is enough *)

(** The scan [m] of [s] does not run out of fuel, and what it leaves is
    shorter than [s]. *)
Definition progress {A} (m : scan A) (s : list ascii) : Prop :=
  m ≠ Err OutOfFuel ∧ ∀ p, m = Ok p → length p.2 < length s.

Lemma progress_decode {A} msg r s : progress (Err (Decode msg r) : scan A) s.
Proof. split; [discriminate | intros p [=]]. Qed.

Lemma progress_unsupported {A} w s : progress (Err (Unsupported w) : scan A) s.
Proof. split; [discriminate | intros p [=]]. Qed.

Ltac progress_err := cbv beta iota; first [apply progress_decode | apply progress_unsupported].

Lemma progress_bind {A B} (m : scan A) (k : A * list ascii → scan B) s :
  progress m s → (∀ p, m = Ok p → progress (k p) s) → progress (x <- m ;; k x) s.
Proof.
  intros [Hm Hlen] Hk. destruct m as [p|e]; cbn.
  - exact (Hk p eq_refl).
  - split; [by intros E; injection E as ->|done].
Qed.

Lemma progress_weaken {A} (m : scan A) t s : progress m t → length t ≤ length s → progress m s.
Proof. intros [H1 H2] Hle. split; [done|]. intros p Hp. specialize (H2 p Hp). lia. Qed.

Lemma progress_ok {A} (x : A) r s : length r < length s → progress (Ok (x, r)) s.
Proof. intros Hlt. split; [discriminate | by intros p [= <-]]. Qed.

Lemma progress_fmap {A B} (m : scan A) (g : A → B) s :
  progress m s → progress (p <- m ;; Ok (g p.1, p.2)) s.
Proof.
  intros Hm. apply progress_bind; [done|]. intros p Hp.
  apply progress_ok. by apply (proj2 Hm).
Qed.

Lemma skip_ws_length s : length (skip_ws s) ≤ length s.
Proof. induction s as [|c s IH]; cbn; [done|]. destruct (is_ws c); cbn; lia. Qed.

Lemma progress_cons b x t s :
  progress (scan_string b t) t → length t < length s →
  progress (p <- scan_string b t ;; Ok (x :: p.1, p.2)) s.
Proof.
  intros Ht Hlt. apply (progress_fmap _ (cons x)).
  eapply progress_weaken; [done | lia].
Qed.

Lemma scan_string_progress b s : progress (scan_string b s) s.
Proof.
  induction s as [s IH] using (induction_ltof1 _ (@length ascii)). unfold ltof in IH.
  destruct s as [|c s']; [progress_err|]. cbn [scan_string].
  destruct (Ascii.eqb c dquote); [split; [discriminate | intros p [= <-]; cbn; lia]|].
  destruct (Ascii.eqb c "\"%char).
  - destruct s' as [|e s'']; [progress_err|].
    destruct (Ascii.eqb e "u").
    + destruct s'' as [|h1 [|h2 [|h3 [|h4 r]]]]; try progress_err.
      destruct r as [|x r]; [progress_err|].
      destruct (hex_value h1), (hex_value h2), (hex_value h3), (hex_value h4); try progress_err.
      destruct (_ <? 256); [|progress_err].
      apply progress_cons; [apply IH|]; cbn; lia.
    + destruct (simple_escape e); [|progress_err].
      apply progress_cons; [apply IH|]; cbn; lia.
  - destruct (nat_of_ascii c <? 32); [progress_err|].
    apply progress_cons; [apply IH|]; cbn; lia.
Qed.

Lemma chop_length p s r : chop p s = Some r → length r + length p = length s.
Proof.
  revert s. induction p as [|a p IH]; intros s; [intros [= <-]; cbn; lia|].
  destruct s as [|b s]; cbn; [done|].
  destruct (Ascii.eqb a b); [|done]. intros H. specialize (IH s H). lia.
Qed.

Lemma span_digits_length t : length (span_digits t).2 ≤ length t.
Proof.
  induction t as [|c t IH]; cbn; [done|].
  destruct (is_digit c); [destruct (span_digits t); cbn in *; lia | cbn; lia].
Qed.

Lemma int_value_progress neg ds r s : length r < length s → progress (int_value neg ds r) s.
Proof.
  intros Hlt. unfold int_value. destruct (float_follows r); [progress_err|].
  destruct (NilEmpty.uint_of_string _); [|progress_err].
  split; [discriminate | by intros p [= <-]].
Qed.

Lemma number_progress s : progress (number s) s.
Proof.
  unfold number.
  assert (Hs1 : ∀ (neg : bool) s1, length s1 ≤ length s →
    progress (match s1 with
              | c :: t =>
                  if Ascii.eqb c "0" then int_value neg [c] t
                  else if digit19 c then let '(ds, r) := span_digits t in int_value neg (c :: ds) r
                  else Err (Decode "Expecting value" s)
              | [] => Err (Decode "Expecting value" s)
              end) s).
  { intros neg [|c t] Hle; [progress_err|]. cbn in Hle.
    destruct (Ascii.eqb c "0"); [apply int_value_progress; lia|].
    destruct (digit19 c); [|progress_err].
    pose proof (span_digits_length t). destruct (span_digits t).
    apply int_value_progress. cbn in *. lia. }
  destruct s as [|c t]; [progress_err|].
  destruct (Ascii.eqb c "-"); cbv beta iota; [apply (Hs1 true t) | apply (Hs1 false (c :: t))]; cbn; lia.
Qed.

Ltac chop_case :=
  match goal with
  | |- context [chop ?p ?s] =>
      let H := fresh in
      destruct (chop p s) eqn:H; cbv beta iota;
      [first [progress_err
             | split; [discriminate | intros ? [= <-]];
               apply chop_length in H; cbn in H |- *; lia]|]
  end.

Lemma constant_or_number_progress s : progress (constant_or_number s) s.
Proof. unfold constant_or_number. do 6 chop_case. apply number_progress. Qed.

(** An opened array or object whose first blank-skipped character is
    [close] is empty; otherwise its loop [k] takes over. *)
Lemma progress_open {A} (close : ascii) (x : A) (k : list ascii → scan A) s' s :
  length s' < length s →
  (∀ t, length t ≤ length s' → progress (k t) t) →
  progress (match skip_ws s' with
            | c1 :: r => if Ascii.eqb c1 close then Ok (x, r) else k (skip_ws s')
            | [] => k (skip_ws s')
            end) s.
Proof.
  intros Hlt Hk. pose proof (skip_ws_length s') as Hle.
  destruct (skip_ws s') as [|c1 r]; [eapply progress_weaken; [apply Hk|]; cbn in *; lia|].
  destruct (Ascii.eqb c1 close); [apply progress_ok; cbn in *; lia|].
  eapply progress_weaken; [apply Hk|]; cbn in *; lia.
Qed.

(** With fuel [f], [value] needs [2 |s| < f], the loops [2 |s| + 1 < f]:
    each character read costs at most two units. *)
Lemma scan_progress f : ∀ s,
  (2 * length s < f → progress (value f s) s) ∧
  (∀ acc, 2 * length s + 1 < f → progress (elements f s acc) s) ∧
  (∀ acc, 2 * length s + 1 < f → progress (members f s acc) s).
Proof.
  induction f as [|f IH]; intros s; [split_and!; intros; lia|].
  split_and!.
  - intros Hf. destruct s as [|c s']; cbn [value]; [progress_err|].
    destruct (Ascii.eqb c dquote).
    { apply (progress_fmap _ (λ l, JStr (String.string_of_list_ascii l))). eapply progress_weaken; [apply scan_string_progress|]; cbn; lia. }
    destruct (Ascii.eqb c "{").
    { apply (progress_open "}" (JObj []) (λ t, members f t [])); [cbn; lia|].
      intros t Ht. apply (proj2 (proj2 (IH t))). cbn in Hf. lia. }
    destruct (Ascii.eqb c "[").
    { apply (progress_open "]" (JArr []) (λ t, elements f t [])); [cbn; lia|].
      intros t Ht. apply (proj1 (proj2 (IH t))). cbn in Hf. lia. }
    apply constant_or_number_progress.
  - intros acc Hf. cbn [elements]. apply progress_bind; [apply (proj1 (IH s)); lia|].
    intros p Hp. pose proof (proj2 ((proj1 (IH s)) ltac:(lia)) p Hp) as Hlt. cbv zeta.
    pose proof (skip_ws_length p.2). destruct (skip_ws p.2) as [|c r']; [progress_err|].
    destruct (Ascii.eqb c "]"); [apply progress_ok; cbn in *; lia|].
    destruct (Ascii.eqb c ","); [|progress_err].
    pose proof (skip_ws_length r').
    eapply progress_weaken; [apply (proj1 (proj2 (IH _)))|]; cbn in *; lia.
  - intros acc Hf. cbn [members]. destruct s as [|q s']; [progress_err|].
    destruct (Ascii.eqb q dquote); [|progress_err].
    apply progress_bind.
    { eapply progress_weaken; [apply scan_string_progress|]; cbn; lia. }
    intros p Hp. pose proof (proj2 (scan_string_progress (q :: s') s') p Hp) as Hlt. cbv zeta.
    pose proof (skip_ws_length p.2). destruct (skip_ws p.2) as [|c r']; [progress_err|].
    destruct (Ascii.eqb c ":"); [|progress_err].
    pose proof (skip_ws_length r'). cbn in *.
    apply progress_bind; [eapply progress_weaken; [apply (proj1 (IH _))|]; cbn; lia|].
    intros p' Hp'. pose proof (proj2 ((proj1 (IH (skip_ws r'))) ltac:(lia)) p' Hp') as Hlt'.
    pose proof (skip_ws_length p'.2). destruct (skip_ws p'.2) as [|d r3]; [progress_err|].
    destruct (Ascii.eqb d "}"); [apply progress_ok; cbn in *; lia|].
    destruct (Ascii.eqb d ","); [|progress_err].
    pose proof (skip_ws_length r3).
    eapply progress_weaken; [apply (proj2 (proj2 (IH _)))|]; cbn in *; lia.
Qed.


(** ** More fuel gives the same result *)

Lemma bind_mono {A B} (m m' : scan A) (k k' : A * list ascii → scan B) :
  (m ≠ Err OutOfFuel → m' = m) →
  (∀ p, k p ≠ Err OutOfFuel → k' p = k p) →
  (x <- m ;; k x) ≠ Err OutOfFuel → (x <- m' ;; k' x) = (x <- m ;; k x).
Proof.
  intros Hm Hk Hb. destruct m as [p|e]; cbn in *.
  - rewrite Hm by done. cbn. by apply Hk.
  - rewrite Hm; [done|]. by intros [= ->].
Qed.

(** A scan that did not run out of fuel gives the same result with one
    unit more. *)
Lemma scan_mono f : ∀ s,
  (value f s ≠ Err OutOfFuel → value (S f) s = value f s) ∧
  (∀ acc, elements f s acc ≠ Err OutOfFuel → elements (S f) s acc = elements f s acc) ∧
  (∀ acc, members f s acc ≠ Err OutOfFuel → members (S f) s acc = members f s acc).
Proof.
  induction f as [|f IH]; intros s; [split_and!; done|].
  split_and!.
  - destruct s as [|c s']; [done|]. cbn [value].
    destruct (Ascii.eqb c dquote); [done|].
    destruct (Ascii.eqb c "{").
    { destruct (skip_ws s') as [|c1 r]; [apply IH|].
      destruct (Ascii.eqb c1 "}"); [done | apply IH]. }
    destruct (Ascii.eqb c "["); [|done].
    destruct (skip_ws s') as [|c1 r]; [apply IH|].
    destruct (Ascii.eqb c1 "]"); [done | apply IH].
  - intros acc. cbn [elements]. apply bind_mono; [apply IH|].
    intros p. cbv zeta. destruct (skip_ws p.2) as [|c r']; [done|].
    destruct (Ascii.eqb c "]"); [done|]. destruct (Ascii.eqb c ","); [apply IH | done].
  - intros acc. destruct s as [|q s']; [done|]. cbn [members].
    destruct (Ascii.eqb q dquote); [|done].
    apply bind_mono; [done|]. intros p. cbv zeta.
    destruct (skip_ws p.2) as [|c r']; [done|]. destruct (Ascii.eqb c ":"); [|done].
    apply bind_mono; [apply IH|]. intros p'.
    destruct (skip_ws p'.2) as [|d r3]; [done|].
    destruct (Ascii.eqb d "}"); [done|]. destruct (Ascii.eqb d ","); [apply IH | done].
Qed.

Lemma value_mono f f' s : value f s ≠ Err OutOfFuel → f ≤ f' → value f' s = value f s.
Proof.
  intros Hf Hle. induction Hle as [|f' Hle IH]; [done|].
  rewrite (proj1 (scan_mono f' s)); [done | by rewrite IH].
Qed.

(** [json.loads] terminates, and the fuel chosen for it is not a
    bound of the model: the scanner never runs out of the [2 |s| + 1]
    units [json_loads] gives it, and any larger fuel gives the same
    result, which is therefore the result of the unbounded recursion of
    [scan_once_unicode]. *)
Theorem json_loads_fuel s f :
  2 * String.length s < f →
  value (S (2 * String.length s)) (skip_ws (chars s)) ≠ Err OutOfFuel ∧
  loads_with f s = json_loads s.
Proof.
  intros Hf. rewrite <- chars_length in *.
  pose proof (skip_ws_length (chars s)) as Hle.
  pose proof (proj1 (proj1 (scan_progress (S (2 * length (chars s))) (skip_ws (chars s))) ltac:(lia)))
    as Hfuel.
  split; [done|]. unfold json_loads, loads_with. rewrite <- chars_length.
  by rewrite (value_mono (S (2 * length (chars s))) f) by (done || lia).
Qed.

(** When [bw] prints nothing but blanks, [json.loads] raises
    [JSONDecodeError("Expecting value")] at the end of the text, as
    CPython does. *)
Theorem json_loads_blank s :
  str_forall is_ws s = true →
  json_loads s = Err (JSONDecodeError "Expecting value" (String.length s)).
Proof.
  intros Hs. unfold json_loads, loads_with. cbv zeta.
  rewrite skip_ws_blank by by rewrite forallb_chars. cbn.
  by rewrite chars_length, Nat.sub_0_r.
Qed.

(** ** A text cut short

    A scan that returns a value has read up to a closing character:
    appending text after it changes only what is left.  Numbers are the
    exception, since more digits extend them; they are stable once a
    delimiter follows. *)

Lemma skip_ws_app p q : skip_ws p ≠ [] → skip_ws (p ++ q) = skip_ws p ++ q.
Proof.
  induction p as [|c p IH]; cbn; [done|].
  destruct (is_ws c); [exact IH | done].
Qed.

Lemma chop_some a p r : chop a p = Some r → p = a ++ r.
Proof.
  revert p. induction a as [|x a IH]; intros p; [by intros [= <-]|].
  destruct p as [|y p]; cbn; [done|].
  destruct (Ascii.eqb_spec x y) as [->|]; [intros H; by rewrite (IH p H) | done].
Qed.

Lemma scan_string_app b b' p q l r :
  scan_string b p = Ok (l, r) → scan_string b' (p ++ q) = Ok (l, r ++ q).
Proof.
  revert l r. induction p as [p IH] using (induction_ltof1 _ (@length ascii)). unfold ltof in IH.
  intros l r. destruct p as [|c p']; [done|]. cbn [scan_string app].
  destruct (Ascii.eqb c dquote); [by intros [= <- <-]|].
  destruct (Ascii.eqb c "\"%char).
  - destruct p' as [|e p'']; [done|]. cbn [app].
    destruct (Ascii.eqb e "u").
    + destruct p'' as [|h1 [|h2 [|h3 [|h4 t]]]]; try done.
      destruct t as [|x t]; [done|]. cbn [app].
      destruct (hex_value h1), (hex_value h2), (hex_value h3), (hex_value h4); try done.
      destruct (_ <? 256); [|done].
      destruct (scan_string b (x :: t)) as [[l0 r0]|] eqn:E; [|done]. intros [= <- <-].
      pose proof (IH (x :: t) ltac:(cbn; lia) _ _ E) as E'. cbn [app] in E'. by rewrite E'.
    + destruct (simple_escape e); [|done].
      destruct (scan_string b p'') as [[l0 r0]|] eqn:E; [|done]. intros [= <- <-].
      pose proof (IH p'' ltac:(cbn; lia) _ _ E) as E'. cbn [app] in E'. by rewrite E'.
  - destruct (nat_of_ascii c <? 32); [done|].
    destruct (scan_string b p') as [[l0 r0]|] eqn:E; [|done]. intros [= <- <-].
    pose proof (IH p' ltac:(cbn; lia) _ _ E) as E'. cbn [app] in E'. by rewrite E'.
Qed.

Lemma span_digits_extend p q ds c r :
  span_digits p = (ds, c :: r) → span_digits (p ++ q) = (ds, c :: r ++ q).
Proof.
  revert ds. induction p as [|d p IH]; intros ds; cbn; [done|].
  destruct (is_digit d); [|by intros [= <- <- <-]].
  destruct (span_digits p) as [ds' r'] eqn:E. intros [= <- ->]. by rewrite (IH ds').
Qed.

Lemma int_value_rest neg ds r x r' : int_value neg ds r = Ok (x, r') → r' = r.
Proof.
  unfold int_value. destruct (float_follows r); [done|].
  destruct (NilEmpty.uint_of_string _); [by intros [= _ <-] | done].
Qed.

Lemma int_value_app neg ds c r q x :
  num_delim (c :: r) = true → int_value neg ds (c :: r) = Ok (x, c :: r) →
  int_value neg ds (c :: r ++ q) = Ok (x, c :: r ++ q).
Proof.
  intros Hd. unfold int_value. rewrite !float_follows_delim by done.
  destruct (NilEmpty.uint_of_string _); [by intros [= <-] | done].
Qed.

Lemma number_app p q x r :
  number p = Ok (x, r) → r ≠ [] → num_delim r = true → number (p ++ q) = Ok (x, r ++ q).
Proof.
  intros H Hr Hd. destruct r as [|c r]; [done|]. unfold number in *.
  assert (Hs1 : ∀ (neg : bool) s1 e e',
    match s1 with
    | c :: t =>
        if Ascii.eqb c "0" then int_value neg [c] t
        else if digit19 c then let '(ds, r) := span_digits t in int_value neg (c :: ds) r
        else Err e
    | [] => Err e
    end = Ok (x, c :: r) →
    match s1 ++ q with
    | c :: t =>
        if Ascii.eqb c "0" then int_value neg [c] t
        else if digit19 c then let '(ds, r) := span_digits t in int_value neg (c :: ds) r
        else Err e'
    | [] => Err e'
    end = Ok (x, c :: r ++ q)).
  { intros neg [|d t] e e' H'; [done|]. cbn [app].
    destruct (Ascii.eqb d "0").
    - pose proof (int_value_rest _ _ _ _ _ H') as <-. by apply int_value_app.
    - destruct (digit19 d); [|done].
      destruct (span_digits t) as [ds r1] eqn:E.
      pose proof (int_value_rest _ _ _ _ _ H') as <-.
      rewrite (span_digits_extend _ _ _ _ _ E). by apply int_value_app. }
  destruct p as [|c0 t]; [done|]. cbn [app].
  destruct (Ascii.eqb c0 "-"); cbv beta iota in *;
    [exact (Hs1 true t _ _ H) | exact (Hs1 false (c0 :: t) _ _ H)].
Qed.

Lemma number_ok_head p x r :
  number p = Ok (x, r) → ∃ d t, is_digit d = true ∧ (p = d :: t ∨ p = "-"%char :: d :: t).
Proof.
  unfold number. destruct p as [|c t]; [done|].
  assert (Hd : ∀ d, Ascii.eqb d "0" = true ∨ digit19 d = true → is_digit d = true).
  { intros d [E|E]; [by apply Ascii.eqb_eq in E as -> | by apply andb_true_iff in E as [? _]]. }
  destruct (Ascii.eqb_spec c "-") as [->|Hc]; cbv beta iota.
  - destruct t as [|d t]; [done|].
    destruct (Ascii.eqb d "0") eqn:E0; [intros _; exists d, t; split; [by apply Hd; left | by right]|].
    destruct (digit19 d) eqn:E1; [|done]. intros _. exists d, t. split; [apply Hd; by right | by right].
  - destruct (Ascii.eqb c "0") eqn:E0; [intros _; exists c, t; split; [by apply Hd; left | by left]|].
    destruct (digit19 c) eqn:E1; [|done]. intros _. exists c, t. split; [apply Hd; by right | by left].
Qed.

Lemma constant_or_number_app p q x r :
  constant_or_number p = Ok (x, r) → r ≠ [] → num_delim r = true →
  constant_or_number (p ++ q) = Ok (x, r ++ q).
Proof.
  intros H Hr Hd. unfold constant_or_number in H.
  destruct (chop (chars "null") p) as [l|] eqn:E1;
    [injection H as <- <-; apply chop_some in E1 as ->; rewrite <- app_assoc; reflexivity|].
  destruct (chop (chars "true") p) as [l|] eqn:E2;
    [injection H as <- <-; apply chop_some in E2 as ->; rewrite <- app_assoc; reflexivity|].
  destruct (chop (chars "false") p) as [l|] eqn:E3;
    [injection H as <- <-; apply chop_some in E3 as ->; rewrite <- app_assoc; reflexivity|].
  destruct (chop (chars "NaN") p); [done|].
  destruct (chop (chars "Infinity") p); [done|].
  destruct (chop (chars "-Infinity") p); [done|].
  destruct (number_ok_head _ _ _ H) as (d & t & Hdig & [-> | ->]); cbn [app].
  - rewrite constant_or_number_digit by done. exact (number_app (d :: t) q x r H Hr Hd).
  - rewrite constant_or_number_minus by done. exact (number_app _ q x r H Hr Hd).
Qed.

Lemma skip_ws_delim r c t : skip_ws r = c :: t → num_delim [c] = true → r ≠ [] ∧ num_delim r = true.
Proof.
  induction r as [|d r IH]; cbn [skip_ws]; [done|].
  destruct (is_ws d) eqn:Hd; [intros H Hc; split; [done | by apply ws_num_delim]|].
  by intros [= -> ->] Hc.
Qed.

Lemma value_nil f x r : value f [] ≠ Ok (x, r).
Proof. by destruct f. Qed.

Lemma elements_nil f acc x r : elements f [] acc ≠ Ok (x, r).
Proof. by destruct f as [|[|f]]. Qed.

Lemma members_nil f acc x r : members f [] acc ≠ Ok (x, r).
Proof. by destruct f. Qed.

(** An opened array or object, in [value]: the empty case or the loop
    [k], stable when [k] is. *)
Lemma open_app (close : ascii) (x0 : json) (k : list ascii → scan json) p' q x r :
  (∀ t x r, k t = Ok (x, r) → k (t ++ q) = Ok (x, r ++ q)) → (∀ x r, k [] ≠ Ok (x, r)) →
  match skip_ws p' with
  | c1 :: r0 => if Ascii.eqb c1 close then Ok (x0, r0) else k (skip_ws p')
  | [] => k (skip_ws p')
  end = Ok (x, r) →
  match skip_ws (p' ++ q) with
  | c1 :: r0 => if Ascii.eqb c1 close then Ok (x0, r0) else k (skip_ws (p' ++ q))
  | [] => k (skip_ws (p' ++ q))
  end = Ok (x, r ++ q).
Proof.
  intros Hk Hnil H. destruct (skip_ws p') as [|c1 r0] eqn:Ew; [by apply Hnil in H|].
  rewrite skip_ws_app, Ew by (by rewrite Ew). cbn [app].
  destruct (Ascii.eqb c1 close); [by injection H as <- <-|]. by apply (Hk (c1 :: r0)).
Qed.

Lemma bind_ok_inv {A B} (m : scan A) (k : A * list ascii → scan B) y :
  (x <- m ;; k x) = Ok y → ∃ p, m = Ok p ∧ k p = Ok y.
Proof. destruct m as [p|e]; [by exists p | done]. Qed.

(** Appending text after what a scan read: [value] needs a delimiter
    after a number, the loops end at their closing character. *)
Lemma scan_app f : ∀ p q,
  (∀ x r, value f p = Ok (x, r) → r ≠ [] → num_delim r = true →
          value f (p ++ q) = Ok (x, r ++ q)) ∧
  (∀ acc x r, elements f p acc = Ok (x, r) → elements f (p ++ q) acc = Ok (x, r ++ q)) ∧
  (∀ acc x r, members f p acc = Ok (x, r) → members f (p ++ q) acc = Ok (x, r ++ q)).
Proof.
  induction f as [|f IH]; intros p q; [split_and!; done|].
  split_and!.
  - intros x r H Hr Hd. destruct p as [|c p']; [done|]. cbn [value app] in *.
    destruct (Ascii.eqb c dquote).
    { apply bind_ok_inv in H as ([l r0] & E & H). injection H as <- <-.
      by rewrite (scan_string_app _ _ _ _ _ _ E). }
    destruct (Ascii.eqb c "{").
    { revert H. apply (open_app "}" (JObj []) (λ t, members f t [])); [|apply members_nil].
      intros t. apply (IH t q). }
    destruct (Ascii.eqb c "[").
    { revert H. apply (open_app "]" (JArr []) (λ t, elements f t [])); [|apply elements_nil].
      intros t. apply (IH t q). }
    exact (constant_or_number_app (c :: p') q x r H Hr Hd).
  - intros acc x r H. cbn [elements] in *.
    apply bind_ok_inv in H as ([v r1] & Ev & H). cbv zeta in H. cbn [fst snd] in H.
    destruct (skip_ws r1) as [|c r'] eqn:Ew; [done|].
    assert (Hv : ∀ c', num_delim [c'] = true → c = c' →
              value f (p ++ q) = Ok (v, r1 ++ q)).
    { intros c' Hc' <-. destruct (skip_ws_delim _ _ _ Ew Hc') as [Hr Hd].
      by apply (IH p q). }
    destruct (Ascii.eqb_spec c "]") as [->|Hc1].
    { injection H as <- <-. rewrite (Hv "]"%char) by done. cbn.
      by rewrite skip_ws_app, Ew by (by rewrite Ew). }
    destruct (Ascii.eqb_spec c ",") as [->|Hc2]; [|done].
    rewrite (Hv ","%char) by done. cbn. rewrite skip_ws_app, Ew by (by rewrite Ew). cbn.
    destruct (skip_ws r') as [|d r''] eqn:Ew'; [by apply elements_nil in H|].
    rewrite skip_ws_app, Ew' by (by rewrite Ew'). by apply (IH (d :: r'') q).
  - intros acc x r H. destruct p as [|q0 p']; [done|]. cbn [members app] in *.
    destruct (Ascii.eqb q0 dquote); [|done].
    apply bind_ok_inv in H as ([key r1] & Ek & H). cbv zeta in H. cbn [fst snd] in H.
    rewrite (scan_string_app _ _ _ _ _ _ Ek). cbn [mbind result_bind fst snd].
    destruct (skip_ws r1) as [|c r'] eqn:Ew; [done|].
    rewrite skip_ws_app, Ew by (by rewrite Ew). cbn [app].
    destruct (Ascii.eqb c ":"); [|done].
    apply bind_ok_inv in H as ([v r2] & Ev & H). cbn [fst snd] in H.
    destruct (skip_ws r') as [|c1 r''] eqn:Ew'; [by apply value_nil in Ev|].
    destruct (skip_ws r2) as [|d r3] eqn:Ew2; [done|].
    assert (Hv : ∀ d', num_delim [d'] = true → d = d' →
              value f (skip_ws (r' ++ q)) = Ok (v, r2 ++ q)).
    { intros d' Hd' <-. destruct (skip_ws_delim _ _ _ Ew2 Hd') as [Hr Hd].
      rewrite skip_ws_app, Ew' by (by rewrite Ew'). by apply (IH (c1 :: r'') q). }
    destruct (Ascii.eqb_spec d "}") as [->|Hd1].
    { injection H as <- <-. rewrite (Hv "}"%char) by done. cbn.
      by rewrite skip_ws_app, Ew2 by (by rewrite Ew2). }
    destruct (Ascii.eqb_spec d ",") as [->|Hd2]; [|done].
    rewrite (Hv ","%char) by done. cbn. rewrite skip_ws_app, Ew2 by (by rewrite Ew2). cbn.
    destruct (skip_ws r3) as [|e r4] eqn:Ew3; [by apply members_nil in H|].
    rewrite skip_ws_app, Ew3 by (by rewrite Ew3). by apply (IH (e :: r4) q).
Qed.

Lemma value_array_app f p' q x r :
  value f ("["%char :: p') = Ok (x, r) → value f ("["%char :: p' ++ q) = Ok (x, r ++ q).
Proof.
  destruct f as [|f]; [done|]. cbn [value].
  change (Ascii.eqb "[" dquote) with false. change (Ascii.eqb "[" "{") with false.
  change (Ascii.eqb "[" "[") with true. cbv iota.
  apply (open_app "]" (JArr []) (λ t, elements f t [])); [|apply elements_nil].
  intros t. apply (scan_app f t q).
Qed.

(** A strict prefix of the text of an array does not decode: [json.loads]
    raises on a listing cut short. *)
Lemma json_loads_truncated xs s1 s2 :
  json_wfb (JArr xs) = true → s1 +:+ s2 = json_dumps (JArr xs) → s2 ≠ EmptyString →
  ∃ e, json_loads s1 = Err e.
Proof.
  intros Hwf Hs Hne.
  assert (Hpq : chars s1 ++ chars s2 = dump (JArr xs)).
  { rewrite <- chars_app, Hs. apply String.list_ascii_of_string_of_list_ascii. }
  assert (Hq : chars s2 ≠ []) by (destruct s2; done).
  unfold json_loads, loads_with. cbv zeta.
  destruct (value _ (skip_ws (chars s1))) as [[x r]|e] eqn:Ev;
    [exfalso | destruct e; eauto].
  destruct (chars s1) as [|c p'] eqn:Ep; [by apply value_nil in Ev|].
  pose proof Hpq as Hpq'. cbn [dump app] in Hpq'. injection Hpq' as -> _.
  rewrite skip_ws_punct in Ev by done.
  pose proof (value_array_app _ _ (chars s2) _ _ Ev) as Eq.
  cbn [app] in Hpq. rewrite Hpq in Eq.
  set (F := S (2 * String.length s1)) in Eq.
  set (G := S (2 * length (dump (JArr xs) ++ []))).
  pose proof (value_dump_fuel (JArr xs) [] Hwf eq_refl) as Ed. fold G in Ed.
  rewrite app_nil_r in Ed.
  rewrite <- (value_mono F (max F G)) in Eq by (congruence || lia).
  rewrite <- (value_mono G (max F G)) in Ed by (congruence || lia).
  rewrite Eq in Ed. injection Ed as _ Hr. by apply app_eq_nil in Hr as [_ ?].
Qed.

End JsonLoads.
