(* ===== verification/FileSys.v ===== *)
(** * The operating system as the script sees it: paths and files

    [PassCli] reads the password store through [os.path.join],
    [os.path.exists], [os.remove] and [os.scandir]; [pass] writes it.
    The file system is a map from absolute paths (lists of segments
    from the root) to file contents, with the set of directories.  A
    path string is resolved against the working directory by splitting
    it on ['/'], dropping empty and ['.'] segments and letting ['..']
    drop the last segment (lexical resolution: the model has no
    symbolic links). *)

From S2P Require Import Prelude PyStr PyDict PyJson.

Abbreviation path := (list string).

Record FS : Type := mkFS {
  fs_files : gmap path string;
  fs_dirs : gset path
}.

(** [os.path.join(a, b)] (posixpath.join with two arguments). *)
Definition os_path_join (a b : string) : string :=
  if String.prefix "/" b then b
  else if String.eqb a EmptyString || py_endswith a "/" then a +:+ b
  else a +:+ "/" +:+ b.

Fixpoint resolve_segs (cur : path) (segs : list string) : path :=
  match segs with
  | [] => cur
  | s :: ss =>
      if String.eqb s EmptyString || String.eqb s "." then resolve_segs cur ss
      else if String.eqb s ".." then resolve_segs (removelast cur) ss
      else resolve_segs (cur ++ [s]) ss
  end.

(** The absolute path a path string names, from the working directory [cwd]. *)
Definition resolve (cwd : path) (p : string) : path :=
  resolve_segs (if String.prefix "/" p then [] else cwd) (py_split "/" p).

Definition is_dir (fs : FS) (p : path) : bool :=
  bool_decide (p = []) || bool_decide (p ∈ fs_dirs fs).

Definition is_file (fs : FS) (p : path) : bool :=
  bool_decide (is_Some (fs_files fs !! p)).

(** [os.path.exists(p)] *)
Definition os_path_exists (fs : FS) (p : path) : bool := is_file fs p || is_dir fs p.

(** [os.remove(s)]: removes a file; a directory or a missing path raises,
    and so does the empty path. *)
Definition os_remove (cwd : path) (s : string) (fs : FS) : res FS :=
  let p := resolve cwd s in
  if String.eqb s EmptyString then Err (OSError "FileNotFoundError" s)
  else if is_file fs p then Ok (mkFS (delete p (fs_files fs)) (fs_dirs fs))
  else if is_dir fs p then Err (OSError "IsADirectoryError" s)
  else Err (OSError "FileNotFoundError" s).

(** The names of the entries of directory [p]: files and directories
    whose parent is [p]. *)
Definition children (fs : FS) (p : path) : gset string :=
  set_map (λ q : path, default EmptyString (last q))
    (filter (λ q : path, q ≠ [] ∧ removelast q = p) (dom (fs_files fs) ∪ fs_dirs fs)).

(** [os.scandir(s)], read for the entries' names.  The order of the
    entries is the file system's; here it is [elements] of the set.  The
    empty path names no directory. *)
Definition os_scandir (cwd : path) (s : string) (fs : FS) : res (list string) :=
  let p := resolve cwd s in
  if String.eqb s EmptyString then Err (OSError "FileNotFoundError" s)
  else if is_dir fs p then Ok (elements (children fs p))
  else if is_file fs p then Err (OSError "NotADirectoryError" s)
  else Err (OSError "FileNotFoundError" s).

(** The proper ancestors of a path, the root excluded: its prefixes of
    length 1 to [length p - 1]. *)
Definition ancestors (p : path) : list path := map (λ n, take n p) (seq 1 (length p - 1)).

(** Writing a file the way [mkdir -p] followed by [gpg -o file] does:
    the missing ancestors become directories; nothing is written when an
    ancestor is a file or the target is a directory. *)
Definition fs_writable (fs : FS) (p : path) : bool :=
  negb (existsb (is_file fs) (ancestors p)) && negb (is_dir fs p).

Definition fs_write (p : path) (content : string) (fs : FS) : FS :=
  if fs_writable fs p
  then mkFS (<[p := content]> (fs_files fs)) (list_to_set (ancestors p) ∪ fs_dirs fs)
  else fs.

(** ** Resolution of paths *)

Lemma resolve_segs_app cur l1 l2 :
  resolve_segs cur (l1 ++ l2) = resolve_segs (resolve_segs cur l1) l2.
Proof.
  revert cur. induction l1 as [|s l1 IH]; intros cur; [done|]. cbn.
  destruct (String.eqb s EmptyString || String.eqb s "."); [done|].
  by destruct (String.eqb s "..").
Qed.

Lemma resolve_segs_empty cur l : resolve_segs cur (EmptyString :: l) = resolve_segs cur l.
Proof. reflexivity. Qed.

(** An ordinary segment is appended. *)
Definition plain_segment (s : string) : bool :=
  negb (String.eqb s EmptyString || String.eqb s "." || String.eqb s "..").

Lemma resolve_segs_plain cur s : plain_segment s = true → resolve_segs cur [s] = cur ++ [s].
Proof.
  unfold plain_segment. intros H. cbn.
  destruct (String.eqb s EmptyString || String.eqb s "."); [discriminate H|].
  destruct (String.eqb s ".."); [discriminate H | done].
Qed.

(** [a/b] and [a//b] name the same file. *)
Lemma resolve_double_slash cwd a b :
  resolve cwd (a +:+ "/" +:+ "/" +:+ b) = resolve cwd (a +:+ "/" +:+ b).
Proof.
  unfold resolve.
  replace (String.prefix "/" (a +:+ "/" +:+ "/" +:+ b))
    with (String.prefix "/" (a +:+ "/" +:+ b)).
  2:{ destruct a as [|c a]; rewrite ?str_app_nil_l, !str_app_cons; cbn;
        rewrite ?prefix_nil; reflexivity. }
  rewrite !str_app_cons, !str_app_nil_l, !py_split_app_sep.
  cbn [py_split]. rewrite bool_decide_eq_true_2 by done.
  by rewrite !resolve_segs_app, resolve_segs_empty.
Qed.

(** [os.path.join(a, b)] names [a/b] when [a] is not empty and [b] is
    relative. *)
Lemma resolve_join cwd a b :
  a ≠ EmptyString → String.prefix "/" b = false →
  resolve cwd (os_path_join a b) = resolve cwd (a +:+ "/" +:+ b).
Proof.
  intros Ha Hb. unfold os_path_join. rewrite Hb.
  destruct (String.eqb_spec a EmptyString) as [|_]; [done|]. cbn.
  destruct (py_endswith a "/") eqn:He; [|done].
  pose proof (py_endswith_removesuffix a "/" ltac:(done) He) as Ha'.
  rewrite <- Ha'. rewrite <- !str_app_assoc. symmetry. apply resolve_double_slash.
Qed.

Lemma resolve_app_plain cwd a s :
  a ≠ EmptyString →
  str_has "/" s = false → plain_segment s = true →
  resolve cwd (a +:+ "/" +:+ s) = resolve cwd a ++ [s].
Proof.
  intros Ha Hs Hp. unfold resolve.
  replace (String.prefix "/" (a +:+ "/" +:+ s)) with (String.prefix "/" a).
  2:{ destruct a as [|c a].
      - done.
      - rewrite str_app_cons. cbn. by rewrite !prefix_nil. }
  rewrite str_app_cons, str_app_nil_l, py_split_app_sep, (py_split_no_sep "/" s) by done.
  by rewrite resolve_segs_app, resolve_segs_plain.
Qed.

(** [os.path.join(a, b)] is [b] itself when [b] is absolute. *)
Lemma os_path_join_absolute a b : String.prefix "/" b = true → os_path_join a b = b.
Proof. unfold os_path_join. by intros ->. Qed.

Lemma fs_write_lookup_ne p q c fs : q ≠ p → fs_files (fs_write p c fs) !! q = fs_files fs !! q.
Proof.
  intros Hq. unfold fs_write. destruct (fs_writable fs p); [|done]. cbn.
  rewrite lookup_insert_ne; [done | congruence].
Qed.

(** ** Directory listings *)

Lemma elem_of_children fs p s :
  s ∈ children fs p ↔ p ++ [s] ∈ dom (fs_files fs) ∪ fs_dirs fs.
Proof.
  unfold children. rewrite elem_of_map. split.
  - intros (q & -> & Hq). apply elem_of_filter in Hq as ([Hne Hp] & Hq).
    destruct (exists_last Hne) as (l & x & ->).
    rewrite removelast_last in Hp. subst l. by rewrite last_snoc.
  - intros H. exists (p ++ [s]). rewrite last_snoc. split; [done|].
    apply elem_of_filter. split; [|done]. split.
    + by destruct p.
    + apply removelast_last.
Qed.
