(* ===== verification/Cli.v ===== *)
(** * The process runner: class [Cli] (lines 108-115), and the world

    The script's effects are the lines it prints, the files of the
    password store (through [PassCli] and [pass]) and the calls it makes
    to the source store's command-line tool [bw].  [World] holds the
    first two and the number of [bw unlock] calls made so far; [BwServer]
    is the behaviour of [bw]: the output of the [k]-th [bw unlock --raw],
    and the text [bw list items] prints for a session, which [main]
    decodes with [JsonLoads.json_loads].  A computation
    of the script is an [M]: it returns, raises a Python exception, or
    runs out of fuel ([Diverged]), always with the world it leaves.

    [Cli.run] and [Cli.run_pipe] print the command line when asked and
    hand the command to [subprocess.run].  What the program does is an
    [Exec], a handler of the command line and of the text on its
    standard input, given by the component that models the program:
    [BWCli.bw_exec] for [bw], [PassCli.pass_exec] for [pass]. *)

From S2P Require Import Prelude PyStr PyDict PyJson Utf8 FileSys.

(** The bytes [bw] prints: on its [k]-th [unlock --raw], and on
    [--session s list items]. *)
Record BwServer : Type := mkBw {
  bw_unlock_out : nat → Utf8.bytes;
  bw_list_out : string → Utf8.bytes
}.

Record World : Type := mkWorld {
  w_fs : FS;
  w_out : list string;
  w_unlock_calls : nat
}.

Abbreviation M := (ST World exn).

(** [print(line)] *)
Definition print (line : string) : M () :=
  st_modify (λ w, mkWorld (w_fs w) (w_out w ++ [line]) (w_unlock_calls w)).

Definition get_fs : M FS := λ w, (Done (w_fs w), w).

Definition put_fs (fs : FS) : M () :=
  st_modify (λ w, mkWorld fs (w_out w) (w_unlock_calls w)).

Module Cli.

(** The line [print('>', " ".join(command))] prints. *)
Definition command_line (command : list string) : string := ">" +:+ " " +:+ py_join " " command.

(** The logging half of [Cli.run] and [Cli.run_pipe] (lines 110 and 114). *)
Definition log_command (command : list string) (log_output : bool) : M () :=
  if log_output then print (command_line command) else mret ().

(** What [subprocess.run] returns, as far as the script reads it: the
    captured standard output, as bytes.  The exit status is never read. *)
Record CompletedProcess : Type := mkCompleted { stdout : Utf8.bytes }.

(** A program run by [subprocess.run]: its command line and, with
    [input=], the bytes on its standard input; it answers the bytes it
    prints. *)
Definition Exec : Type := list string → option Utf8.bytes → M Utf8.bytes.

(** [Cli.run] (lines 109-111) *)
Definition run (exec : Exec) (command : list string) (log_output : bool) : M CompletedProcess :=
  log_command command log_output ;;
  out <- exec command None ;;
  mret (mkCompleted out).

(** [Cli.run_pipe] (lines 113-115): the input goes to the program as
    [bytes(input, 'utf-8')]. *)
Definition run_pipe (exec : Exec) (command : list string) (input : string) (log_output : bool) :
    M CompletedProcess :=
  log_command command log_output ;;
  out <- exec command (Some (Utf8.encode input)) ;;
  mret (mkCompleted out).

End Cli.

(** ** Monad laws and running the primitives *)

Lemma st_bind_Done {S E A B} (f : A → ST S E B) (m : ST S E A) (s s' : S) a :
  m s = (Done a, s') → (x <- m ;; f x) s = f a s'.
Proof. intros H. unfold mbind, st_bind. by rewrite H. Qed.

Lemma st_bind_Raised {S E A B} (f : A → ST S E B) (m : ST S E A) (s s' : S) e :
  m s = (Raised e, s') → (x <- m ;; f x) s = (Raised e, s').
Proof. intros H. unfold mbind, st_bind. by rewrite H. Qed.

Lemma st_bind_Diverged {S E A B} (f : A → ST S E B) (m : ST S E A) (s s' : S) :
  m s = (Diverged, s') → (x <- m ;; f x) s = (Diverged, s').
Proof. intros H. unfold mbind, st_bind. by rewrite H. Qed.

Lemma st_bind_Done_inv {S E A B} (m : ST S E A) (f : A → ST S E B) s s'' b :
  (x <- m ;; f x) s = (Done b, s'') → ∃ a s', m s = (Done a, s') ∧ f a s' = (Done b, s'').
Proof.
  unfold mbind, st_bind. destruct (m s) as [[a| |] s']; intros H; [eauto | discriminate H..].
Qed.

Lemma st_bind_assoc {S E A B C} (m : ST S E A) (f : A → ST S E B) (g : B → ST S E C) s :
  (y <- (x <- m ;; f x) ;; g y) s = (x <- m ;; y <- f x ;; g y) s.
Proof.
  unfold mbind, st_bind. destruct (m s) as [[a| |] s']; reflexivity.
Qed.

Lemma print_run line w :
  print line w = (Done (), mkWorld (w_fs w) (w_out w ++ [line]) (w_unlock_calls w)).
Proof. reflexivity. Qed.

Lemma put_fs_run fs w : put_fs fs w = (Done (), mkWorld fs (w_out w) (w_unlock_calls w)).
Proof. reflexivity. Qed.

Lemma st_lift_Ok {A} (a : A) (w : World) : (st_lift (Ok a) : M A) w = (Done a, w).
Proof. reflexivity. Qed.

Lemma st_lift_Err {A} e (w : World) : (st_lift (Err e) : M A) w = (Raised e, w).
Proof. reflexivity. Qed.

(** ** Running a bind whose first step is known *)

Lemma bind_st_lift_Ok {A B} (a : A) (f : A → M B) w : (x <- st_lift (Ok a) ;; f x) w = f a w.
Proof. reflexivity. Qed.

Lemma bind_st_lift_Err {A B} e (f : A → M B) w : (x <- st_lift (Err e) ;; f x) w = (Raised e, w).
Proof. reflexivity. Qed.

Lemma bind_get_fs {B} (f : FS → M B) w : (x <- get_fs ;; f x) w = f (w_fs w) w.
Proof. reflexivity. Qed.

Lemma bind_put_fs {B} fs (f : () → M B) w :
  (x <- put_fs fs ;; f x) w = f () (mkWorld fs (w_out w) (w_unlock_calls w)).
Proof. reflexivity. Qed.

Lemma bind_print {B} line (f : () → M B) w :
  (x <- print line ;; f x) w = f () (mkWorld (w_fs w) (w_out w ++ [line]) (w_unlock_calls w)).
Proof. reflexivity. Qed.

Lemma bind_mret {A B} (a : A) (f : A → M B) w : (x <- mret a ;; f x) w = f a w.
Proof. reflexivity. Qed.

Lemma bind_if {A B} (b : bool) (m1 m2 : M A) (f : A → M B) w :
  (x <- (if b then m1 else m2) ;; f x) w = if b then (x <- m1 ;; f x) w else (x <- m2 ;; f x) w.
Proof. by destruct b. Qed.

Create Rewrite HintDb st_run.
#[export] Hint Rewrite @bind_st_lift_Ok @bind_st_lift_Err @bind_get_fs @bind_put_fs
  @bind_print @bind_mret @st_bind_assoc @print_run @put_fs_run @st_lift_Ok @st_lift_Err : st_run.

(** Run the known first steps of a computation in a hypothesis or goal. *)
Ltac st_simpl_in H := autorewrite with st_run in H; cbv beta in H.
Ltac st_simpl := autorewrite with st_run; cbv beta.

(** ** Computations that always return or raise *)

(** [m] never runs out of fuel. *)
Definition total {A} (m : M A) : Prop := ∀ w, fst (m w) ≠ Diverged.

Section total.
Context {A B : Type}.

Lemma total_bind (m : M A) (f : A → M B) :
  total m → (∀ a, total (f a)) → total (x <- m ;; f x).
Proof.
  intros Hm Hf w. unfold mbind, st_bind.
  destruct (m w) as [[a|e|] w'] eqn:E; [apply Hf | discriminate |].
  exfalso. apply (Hm w). by rewrite E.
Qed.

Lemma total_ret (a : A) : total (mret a : M A).
Proof. intros w. discriminate. Qed.

Lemma total_lift (r : res A) : total (st_lift r : M A).
Proof. intros w. by destruct r. Qed.

Lemma total_if (b : bool) (m1 m2 : M A) : total m1 → total m2 → total (if b then m1 else m2).
Proof. by destruct b. Qed.
End total.

Lemma total_print line : total (print line).
Proof. intros w. discriminate. Qed.

Lemma total_get_fs : total get_fs.
Proof. intros w. discriminate. Qed.

Lemma total_put_fs fs : total (put_fs fs).
Proof. intros w. discriminate. Qed.

Lemma total_log_command command log_output : total (Cli.log_command command log_output).
Proof. unfold Cli.log_command. destruct log_output; [apply total_print | apply total_ret]. Qed.

Create HintDb total discriminated.
#[export] Hint Resolve total_ret total_lift total_print total_get_fs total_put_fs
  total_log_command : total.

(** Prove [total m] for a straight-line [m] by following its binds. *)
Ltac total_tac :=
  repeat first [ apply total_bind; intros | apply total_if | solve [eauto with total]
               | progress cbv zeta | case_match ].

Lemma total_run exec command log_output :
  (∀ i, total (exec command i)) → total (Cli.run exec command log_output).
Proof. intros He. unfold Cli.run. total_tac. Qed.

Lemma total_run_pipe exec command input log_output :
  (∀ i, total (exec command i)) → total (Cli.run_pipe exec command input log_output).
Proof. intros He. unfold Cli.run_pipe. total_tac. Qed.

#[export] Hint Resolve total_run total_run_pipe : total.

(** ** Computations that keep a relation between worlds

    [stable R m]: every world [m] leaves is related by [R] to the world
    it started from, whatever the outcome.  For a preorder [R] this
    follows the binds of a computation. *)

Section stable.
Context (R : World → World → Prop) `{!PreOrder R}.

Definition stable {A} (m : M A) : Prop := ∀ w, R w (snd (m w)).

Lemma stable_bind {A B} (m : M A) (f : A → M B) :
  stable m → (∀ a, stable (f a)) → stable (x <- m ;; f x).
Proof.
  intros Hm Hf w. unfold mbind, st_bind. specialize (Hm w).
  destruct (m w) as [[a|e|] w'] eqn:E; cbn in *; [|done|done].
  by etrans; [|apply Hf].
Qed.

Lemma stable_ret {A} (a : A) : stable (mret a : M A).
Proof. intros w. cbn. reflexivity. Qed.

Lemma stable_lift {A} (r : res A) : stable (st_lift r : M A).
Proof. intros w. destruct r; cbn; reflexivity. Qed.

Lemma stable_if {A} (b : bool) (m1 m2 : M A) : stable m1 → stable m2 → stable (if b then m1 else m2).
Proof. by destruct b. Qed.

Lemma stable_get_fs : stable get_fs.
Proof. intros w. cbn. reflexivity. Qed.
End stable.

(** The printed lines only grow. *)
Definition out_prefix (w w' : World) : Prop := w_out w `prefix_of` w_out w'.

#[export] Instance out_prefix_preorder : PreOrder out_prefix.
Proof. split; [intros w; unfold out_prefix; done | intros w1 w2 w3; unfold out_prefix; apply transitivity]. Qed.

Lemma stable_print line : stable out_prefix (print line).
Proof. intros w. by exists [line]. Qed.

Lemma stable_put_fs fs : stable out_prefix (put_fs fs).
Proof. intros w. by exists []; rewrite app_nil_r. Qed.

Lemma stable_log_command command log_output : stable out_prefix (Cli.log_command command log_output).
Proof. unfold Cli.log_command. destruct log_output; [apply stable_print | apply stable_ret, _]. Qed.

Create HintDb stable discriminated.
#[export] Hint Resolve stable_ret stable_lift stable_get_fs stable_print stable_put_fs
  stable_log_command : stable.

(** Prove [stable R m] for a straight-line [m] by following its binds. *)
Ltac stable_tac :=
  repeat first [ apply stable_bind; [..|intros] | apply stable_if
               | solve [eauto with stable typeclass_instances]
               | progress cbv zeta | case_match ].
