(* ===== verification/PassCli.v ===== *)
(** * The destination store: class [PassCli] (lines 132-152) and [pass]

    [PassCli] finds the store directory ([__init__]), maps an entry name
    to its file ([get_file_path]), tests and deletes that file directly
    ([pass_exists], [remove_force]), lists the entries at the top of the
    store ([list_pass_names]) and inserts an entry by running
    [pass insert -m name] with the body on standard input ([insert]).

    [pass] is an external program.  What the script relies on is the
    interface [PassTool] with its laws [PassToolSpec]: an insert writes
    the body at [PREFIX/name.gpg], creating the directories, unless the
    name is one [pass] refuses as a sneaky path.  [pass_1_7] implements
    it after [pass] 1.7's [cmd_insert]; the orchestrator's theorems use
    only the laws. *)

From S2P Require Import Prelude PyStr PyDict PyJson Utf8 FileSys Cli.

(** The process environment the script runs in. *)
Record Env : Type := mkEnv {
  env_store_dir : option string;  (** [PASSWORD_STORE_DIR], [None] when unset *)
  env_home : string;              (** [Path.home()] and [$HOME] *)
  env_cwd : path                  (** the working directory *)
}.

(** ** The [pass] tool *)

Class PassTool : Type := pass_insert : Env → string → string → FS → FS.

(** [PREFIX="${PASSWORD_STORE_DIR:-$HOME/.password-store}"]: an empty
    variable counts as unset. *)
Definition pass_prefix (env : Env) : string :=
  match env_store_dir env with
  | Some d => if String.eqb d EmptyString then env_home env +:+ "/.password-store" else d
  | None => env_home env +:+ "/.password-store"
  end.

(** [check_sneaky_paths]: [/..$], [^../], [/../] or [^..$]. *)
Definition sneaky (name : string) : bool :=
  py_endswith name "/.." || String.prefix "../" name || str_contains "/../" name ||
  String.eqb name "..".

(** [${path%/}]: one trailing slash removed. *)
Definition strip_slash (s : string) : string :=
  if py_endswith s "/" then String.substring 0 (String.length s - 1) s else s.

(** [passfile="$PREFIX/${path%/}.gpg"] *)
Definition pass_entry_path (env : Env) (name : string) : path :=
  resolve (env_cwd env) (pass_prefix env +:+ "/" +:+ strip_slash name +:+ ".gpg").

Class PassToolSpec `{PassTool} : Prop := {
  pass_insert_writes env name content fs :
    sneaky name = false →
    pass_insert env name content fs = fs_write (pass_entry_path env name) content fs;
  pass_insert_refuses env name content fs :
    sneaky name = true → pass_insert env name content fs = fs
}.

(** [pass insert -m name] of pass 1.7: refuse sneaky paths, otherwise
    [mkdir -p] the entry's directory and encrypt standard input into the
    entry's file.  The confirmation asked for an existing entry is
    skipped because standard input is not a terminal.  The stored
    content stands for the encrypted body.  This is [pass] in an
    initialised store: the refusal of [set_gpg_recipients] when no
    [.gpg-id] is found, and failures of [gpg], are not modelled. *)
#[export] Instance pass_1_7 : PassTool := λ env name content fs,
  if sneaky name then fs else fs_write (pass_entry_path env name) content fs.

#[export] Instance pass_1_7_spec : PassToolSpec.
Proof.
  split; intros env name content fs Hs; unfold pass_insert, pass_1_7; by rewrite Hs.
Qed.

(** Whatever it does with a name, [pass insert] changes no file but
    the entry's. *)
Lemma pass_insert_other `{PassToolSpec} env name content fs q :
  q ≠ pass_entry_path env name → fs_files (pass_insert env name content fs) !! q = fs_files fs !! q.
Proof.
  intros Hq. destruct (sneaky name) eqn:Hs.
  - by rewrite pass_insert_refuses.
  - rewrite pass_insert_writes by done. by apply fs_write_lookup_ne.
Qed.

(** ** Class [PassCli] *)

Module PassCli.

(** [PassCli.__init__] (lines 134-135) *)
Definition pass_directory (env : Env) : string :=
  match env_store_dir env with
  | Some d => d
  | None => os_path_join (env_home env) ".password-store"
  end.

(** [PassCli.get_file_path] (lines 137-138) *)
Definition get_file_path (env : Env) (name : string) : string :=
  os_path_join (pass_directory env) (name +:+ ".gpg").

(** [pass] as the script runs it: [pass insert -m name] reads the body
    from its standard input and writes the entry.  The entry's file is
    modelled by the text whose UTF-8 bytes [pass] encrypts; the script
    only sends bytes it encoded, so the bytes always decode (bytes that
    do not, [pass] would store as they are, which the model has no text
    for: it writes nothing).  What [pass] prints is not modelled (no
    bytes): the script never reads it.  The script runs no other [pass]
    command. *)
Definition pass_exec `{PassTool} (env : Env) : Cli.Exec := λ command input,
  match command, input with
  | [p; i; m; name], Some body =>
      if bool_decide ([p; i; m] = ["pass"; "insert"; "-m"]) then
        match Utf8.decode body with
        | Ok content => fs <- get_fs ;; put_fs (pass_insert env name content fs) ;; mret []
        | Err _ => mret []
        end
      else mret []
  | _, _ => mret []
  end.

(** [PassCli.insert] (lines 140-142): [pass insert -m name] through
    [Cli.run_pipe], the body on standard input, not logged; the answer
    is [process.stdout.decode('utf-8')]. *)
Definition insert `{PassTool} (env : Env) (name content : string) : M string :=
  process <- Cli.run_pipe (pass_exec env) ["pass"; "insert"; "-m"; name] content false ;;
  st_lift (Utf8.decode (Cli.stdout process)).

(** [PassCli.remove_force] (lines 144-145) *)
Definition remove_force (env : Env) (name : string) (fs : FS) : res FS :=
  os_remove (env_cwd env) (get_file_path env name) fs.

(** [PassCli.pass_exists] (lines 147-148) *)
Definition pass_exists (env : Env) (name : string) (fs : FS) : bool :=
  os_path_exists fs (resolve (env_cwd env) (get_file_path env name)).

(** [PassCli.list_pass_names] (lines 150-152) *)
Definition list_pass_names (env : Env) (fs : FS) : res (list string) :=
  entries <- os_scandir (env_cwd env) (pass_directory env) fs ;;
  Ok (map (λ n, py_removesuffix n ".gpg") (List.filter (λ n, py_endswith n ".gpg") entries)).

End PassCli.

Lemma insert_run `{PassTool} env name content w :
  PassCli.insert env name content w =
  (Done EmptyString, mkWorld (pass_insert env name content (w_fs w)) (w_out w) (w_unlock_calls w)).
Proof.
  unfold PassCli.insert, Cli.run_pipe, Cli.log_command. st_simpl.
  unfold PassCli.pass_exec. rewrite bool_decide_eq_true_2 by done.
  rewrite Utf8.decode_encode. st_simpl. by destruct w.
Qed.

Lemma bind_insert `{PassTool} {B} env name content (f : string → M B) w :
  (x <- PassCli.insert env name content ;; f x) w =
  f EmptyString (mkWorld (pass_insert env name content (w_fs w)) (w_out w) (w_unlock_calls w)).
Proof. apply st_bind_Done, insert_run. Qed.

Lemma total_insert `{PassTool} env name content : total (PassCli.insert env name content).
Proof. intros w. by rewrite insert_run. Qed.

Lemma stable_insert `{PassTool} env name content : stable out_prefix (PassCli.insert env name content).
Proof. intros w. rewrite insert_run. unfold out_prefix. cbn. done. Qed.

#[export] Hint Rewrite @bind_insert : st_run.
#[export] Hint Resolve total_insert : total.
#[export] Hint Resolve stable_insert : stable.

(** ** Where entries live *)

(** The store directory as the script resolves it. *)
Definition store_path (env : Env) : path := resolve (env_cwd env) (PassCli.pass_directory env).

(** The environment the script and [pass] agree on: a store variable,
    when set, is not empty, and otherwise the home directory is known. *)
Definition env_ok (env : Env) : Prop :=
  match env_store_dir env with
  | Some d => d ≠ EmptyString
  | None => env_home env ≠ EmptyString
  end.

(** A name that is one file at the top of the store. *)
Definition flat_name (n : string) : Prop := str_has "/" n = false ∧ n ≠ "..".

#[export] Instance flat_name_dec n : Decision (flat_name n).
Proof. unfold flat_name. apply _. Defined.

Lemma gpg_not_absolute n : str_has "/" n = false → String.prefix "/" (n +:+ ".gpg") = false.
Proof.
  destruct n as [|c n]; intros H; [reflexivity|]. cbn in H.
  rewrite str_app_cons, prefix_cons. destruct (ascii_dec "/" c) as [<-|]; [|done].
  by rewrite bool_decide_eq_true_2 in H.
Qed.

Lemma gpg_plain n : plain_segment (n +:+ ".gpg") = true.
Proof.
  unfold plain_segment.
  destruct (String.eqb_spec (n +:+ ".gpg") EmptyString) as [E|_].
  { apply (f_equal String.length) in E. rewrite str_length_app in E. cbn in E. lia. }
  destruct (String.eqb_spec (n +:+ ".gpg") ".") as [E|_].
  { apply (f_equal String.length) in E. rewrite str_length_app in E. cbn in E. lia. }
  destruct (String.eqb_spec (n +:+ ".gpg") "..") as [E|_]; [|done].
  apply (f_equal String.length) in E. rewrite str_length_app in E. cbn in E. lia.
Qed.

Lemma gpg_no_slash n : str_has "/" n = false → str_has "/" (n +:+ ".gpg") = false.
Proof. intros H. by rewrite str_has_app, H. Qed.

Lemma pass_directory_nonempty env : env_ok env → PassCli.pass_directory env ≠ EmptyString.
Proof.
  unfold env_ok, PassCli.pass_directory, os_path_join.
  destruct (env_store_dir env) as [d|]; [done|]. intros Hh.
  cbn. destruct (String.eqb_spec (env_home env) EmptyString); [done|]. cbn.
  destruct (py_endswith (env_home env) "/").
  - intros E. apply (f_equal String.length) in E. rewrite str_length_app in E. cbn in E. lia.
  - intros E. apply (f_equal String.length) in E. rewrite !str_length_app in E. cbn in E. lia.
Qed.

Lemma pass_prefix_store env : env_ok env → resolve (env_cwd env) (pass_prefix env) = store_path env.
Proof.
  unfold env_ok, store_path, pass_prefix, PassCli.pass_directory.
  destruct (env_store_dir env) as [d|].
  - intros Hd. by destruct (String.eqb_spec d EmptyString).
  - intros Hh. rewrite resolve_join by done. reflexivity.
Qed.

(** The script's path of a flat entry. *)
Lemma get_file_path_flat env n :
  env_ok env → flat_name n →
  resolve (env_cwd env) (PassCli.get_file_path env n) = store_path env ++ [n +:+ ".gpg"].
Proof.
  intros He [Hn _]. unfold PassCli.get_file_path.
  rewrite resolve_join by (auto using pass_directory_nonempty, gpg_not_absolute).
  apply resolve_app_plain; auto using pass_directory_nonempty, gpg_no_slash, gpg_plain.
Qed.

Lemma get_file_path_nonempty env n : PassCli.get_file_path env n ≠ EmptyString.
Proof.
  unfold PassCli.get_file_path, os_path_join.
  destruct (String.prefix _ _); [|destruct (_ || _)]; intros E;
    apply (f_equal String.length) in E; rewrite ?str_length_app in E; cbn in E; lia.
Qed.

Lemma str_has_of_endswith c s suf : py_endswith s suf = true → str_has c suf = true → str_has c s = true.
Proof.
  unfold py_endswith. intros H Hc. apply andb_true_iff in H as [_ H].
  apply String.eqb_eq in H. rewrite <- H in Hc. by eapply str_has_substring.
Qed.

Lemma flat_not_sneaky n : flat_name n → sneaky n = false.
Proof.
  intros [Hn Hdd]. unfold sneaky.
  destruct (py_endswith n "/..") eqn:E1.
  { by rewrite (str_has_of_endswith "/" _ _ E1) in Hn. }
  destruct (String.prefix "../" n) eqn:E2.
  { apply String.prefix_correct in E2.
    assert (Hs : str_has "/" (String.substring 0 (String.length "../") n) = true)
      by (rewrite E2; reflexivity).
    apply str_has_substring in Hs. by rewrite Hs in Hn. }
  destruct (str_contains "/../" n) eqn:E3.
  { unfold str_contains in E3. destruct (String.index 0 "/../" n) as [m|] eqn:Ei; [|done].
    apply String.index_correct1 in Ei.
    assert (Hs : str_has "/" (String.substring m (String.length "/../") n) = true)
      by (rewrite Ei; reflexivity).
    apply str_has_substring in Hs. by rewrite Hs in Hn. }
  by destruct (String.eqb_spec n "..").
Qed.

Lemma strip_slash_flat n : str_has "/" n = false → strip_slash n = n.
Proof.
  unfold strip_slash. intros Hn.
  destruct (py_endswith n "/") eqn:E; [|done].
  by rewrite (str_has_of_endswith "/" _ _ E) in Hn.
Qed.

(** [pass] writes a flat entry where the script looks for it. *)
Lemma pass_entry_path_flat env n :
  env_ok env → flat_name n → pass_entry_path env n = store_path env ++ [n +:+ ".gpg"].
Proof.
  intros He [Hn Hdd]. unfold pass_entry_path. rewrite strip_slash_flat by done.
  rewrite resolve_app_plain; auto using gpg_no_slash, gpg_plain.
  - by rewrite pass_prefix_store.
  - unfold pass_prefix. destruct (env_store_dir env) as [d|] eqn:Ed.
    + destruct (String.eqb_spec d EmptyString); [|done].
      intros E. apply (f_equal String.length) in E. rewrite str_length_app in E. cbn in E. lia.
    + intros E. apply (f_equal String.length) in E. rewrite str_length_app in E. cbn in E. lia.
Qed.

(** ** What [list_pass_names] lists *)

(** [n] is listed exactly when the store holds an entry [n.gpg] (a file
    or a directory: only the name is tested). *)
Lemma elem_of_list_pass_names env fs ns n :
  PassCli.list_pass_names env fs = Ok ns →
  n ∈ ns ↔ store_path env ++ [n +:+ ".gpg"] ∈ dom (fs_files fs) ∪ fs_dirs fs.
Proof.
  unfold PassCli.list_pass_names, os_scandir, store_path. intros H.
  destruct (String.eqb _ _); [discriminate H|].
  destruct (is_dir fs _); [| destruct (is_file fs _); discriminate H].
  rewrite bind_Ok in H. injection H as <-.
  rewrite <- elem_of_children, list_elem_of_fmap. split.
  - intros (e & -> & He). apply list_elem_of_In, filter_In in He as [He Hend].
    apply list_elem_of_In, elem_of_elements in He.
    by rewrite py_endswith_removesuffix.
  - intros Hc. exists (n +:+ ".gpg"). rewrite py_removesuffix_app by done. split; [done|].
    apply list_elem_of_In, filter_In. split; [|apply py_endswith_app].
    by apply list_elem_of_In, elem_of_elements.
Qed.

(** ** What the script and [pass] agree on *)


(** C18: [list_pass_names] raises
    [FileNotFoundError] when the store directory does not exist. *)
Theorem list_pass_names_missing env fs :
  PassCli.pass_directory env ≠ EmptyString →
  is_dir fs (store_path env) = false → is_file fs (store_path env) = false →
  PassCli.list_pass_names env fs = Err (OSError "FileNotFoundError" (PassCli.pass_directory env)).
Proof.
  intros Hne Hd Hf. unfold PassCli.list_pass_names, os_scandir. unfold store_path in Hd, Hf.
  destruct (String.eqb_spec (PassCli.pass_directory env) EmptyString); [done|].
  by rewrite Hd, Hf.
Qed.
