(* ===== verification/BWCli.v ===== *)
(** * The source store: class [BWCli] (lines 117-130)

    [unlock] runs [bw unlock --raw] until the output is non-empty; the
    loop has no bound, so the model takes a fuel argument and ends in
    [Diverged] when the fuel runs out.  [sync] runs [bw sync]; its
    output is discarded.  [list_items] runs [bw list items]; [main]
    decodes the output later with [json.loads].  Each runs its command
    through [Cli.run], which prints the command line, session token
    included, before it runs; [bw_exec] is what [bw] does with it. *)

From S2P Require Import Prelude PyStr PyDict PyJson Utf8 FileSys Cli PassCli.

Module BWCli.
Section with_server.
Context (server : BwServer).

Definition unlock_line : string := "> bw unlock --raw".

(** One call of [bw unlock --raw]: the bytes it prints on the [k]-th
    call, [k] the calls made so far. *)
Definition bw_unlock_call : M Utf8.bytes :=
  λ w, (Done (bw_unlock_out server (w_unlock_calls w)),
        mkWorld (w_fs w) (w_out w) (S (w_unlock_calls w))).

(** [bw] as the script runs it (an external program, not under [src/]):
    [unlock --raw] and [--session s list items] print what [server]
    says; [--session s sync] prints nothing the script reads, and the
    script runs no other [bw] command. *)
Definition bw_exec : Cli.Exec := λ command _,
  match command with
  | [p; a; b] =>
      if bool_decide ([p; a; b] = ["bw"; "unlock"; "--raw"]) then bw_unlock_call
      else mret []
  | [p; o; s; a; b] =>
      if bool_decide ([p; o; a; b] = ["bw"; "--session"; "list"; "items"])
      then mret (bw_list_out server s) else mret []
  | _ => mret []
  end.

(** [process = Cli.run(['bw', 'unlock', '--raw'])] and
    [session = process.stdout.decode('utf-8')]: one turn of the
    [while True] loop of [BWCli.unlock] (lines 120-121). *)
Definition unlock_attempt : M string :=
  process <- Cli.run bw_exec ["bw"; "unlock"; "--raw"] true ;;
  st_lift (Utf8.decode (Cli.stdout process)).

(** [BWCli.unlock] (lines 118-123) with at most [fuel] turns. *)
Fixpoint unlock (fuel : nat) : M string :=
  match fuel with
  | 0 => (λ w, (Diverged, w)) : M string
  | S fuel' =>
      session <- unlock_attempt ;;
      if 0 <? String.length session then mret session else unlock fuel'
  end.

(** [BWCli.sync] (lines 125-126) *)
Definition sync (session : string) : M () :=
  _ <- Cli.run bw_exec ["bw"; "--session"; session; "sync"] true ;;
  mret ().

(** [BWCli.list_items] (lines 128-130): the text [bw] prints, decoded. *)
Definition list_items (session : string) : M string :=
  process <- Cli.run bw_exec ["bw"; "--session"; session; "list"; "items"] true ;;
  st_lift (Utf8.decode (Cli.stdout process)).

(** ** Running the loop *)

(** What the [k]-th call of [bw unlock --raw] prints, decoded. *)
Definition unlock_text (k : nat) : res string := Utf8.decode (bw_unlock_out server k).

(** The world after one turn of the loop. *)
Definition turn (w : World) : World :=
  mkWorld (w_fs w) (w_out w ++ [unlock_line]) (S (w_unlock_calls w)).

(** The outcome of a turn that ends the loop. *)
Definition answer (r : res string) : outcome exn string :=
  match r with Ok s => Done s | Err e => Raised e end.

Lemma unlock_attempt_run w :
  unlock_attempt w =
  (answer (unlock_text (w_unlock_calls w)), turn w).
Proof.
  change (unlock_attempt w) with ((st_lift (unlock_text (w_unlock_calls w)) : M string) (turn w)).
  unfold answer. by destruct (unlock_text _).
Qed.

Lemma unlock_S fuel w :
  unlock (S fuel) w =
  match unlock_text (w_unlock_calls w) with
  | Ok s => if 0 <? String.length s then (Done s, turn w) else unlock fuel (turn w)
  | Err e => (Raised e, turn w)
  end.
Proof.
  cbn [unlock]. unfold mbind at 1, st_bind. rewrite unlock_attempt_run.
  destruct (unlock_text _) as [s|e]; cbn [answer]; [by destruct (0 <? String.length s) | done].
Qed.

Lemma empty_or_not (r : res string) : r = Ok EmptyString ∨ r ≠ Ok EmptyString.
Proof. destruct r as [[|c s]|e]; [by left | right; congruence | right; congruence]. Qed.

Lemma length_pos_nonempty s : (0 <? String.length s) = negb (String.eqb s EmptyString).
Proof. by destruct s. Qed.

(** A turn whose answer is not the empty text ends the loop. *)
Lemma unlock_S_final fuel w :
  unlock_text (w_unlock_calls w) ≠ Ok EmptyString →
  unlock (S fuel) w = (answer (unlock_text (w_unlock_calls w)), turn w).
Proof.
  intros Hne. rewrite unlock_S. destruct (unlock_text _) as [s|e]; [|done].
  rewrite length_pos_nonempty. destruct (String.eqb_spec s EmptyString) as [->|]; [done|].
  reflexivity.
Qed.

Lemma unlock_S_empty fuel w :
  unlock_text (w_unlock_calls w) = Ok EmptyString → unlock (S fuel) w = unlock fuel (turn w).
Proof. intros He. by rewrite unlock_S, He. Qed.

(** A token [unlock] returns is not empty. *)
Lemma unlock_Done_nonempty fuel w s w' : unlock fuel w = (Done s, w') → s ≠ EmptyString.
Proof.
  revert w. induction fuel as [|fuel IH]; intros w H; [discriminate H|].
  destruct (empty_or_not (unlock_text (w_unlock_calls w))) as [E|E].
  - rewrite unlock_S_empty in H by done. by eapply IH.
  - rewrite unlock_S_final in H by done. unfold answer in H.
    destruct (unlock_text _) as [s'|]; [|done]. injection H as <- _. congruence.
Qed.

(** When some call of [bw unlock --raw] prints something other than
    the empty text, [unlock] ends with the first such answer, a token or
    the error decoding it, after one logged attempt per call, given
    fuel for that many attempts. *)
Lemma unlock_first_answer fuel k w :
  (∀ j, j < k → unlock_text (w_unlock_calls w + j) = Ok EmptyString) →
  unlock_text (w_unlock_calls w + k) ≠ Ok EmptyString →
  k < fuel →
  unlock fuel w =
  (answer (unlock_text (w_unlock_calls w + k)),
   mkWorld (w_fs w) (w_out w ++ replicate (S k) unlock_line) (w_unlock_calls w + S k)).
Proof.
  revert fuel w. induction k as [|k IH]; intros fuel w Hbefore Hk Hfuel;
    destruct fuel as [|fuel]; try lia.
  - rewrite Nat.add_0_r in Hk |- *. rewrite unlock_S_final by done.
    by rewrite Nat.add_1_r.
  - pose proof (Hbefore 0 ltac:(lia)) as E0. rewrite Nat.add_0_r in E0.
    rewrite unlock_S_empty by done. unfold turn.
    rewrite IH; cbn [w_fs w_out w_unlock_calls].
    + rewrite <- app_assoc.
      replace (S (w_unlock_calls w) + k) with (w_unlock_calls w + S k) by lia.
      by replace (S (w_unlock_calls w) + S k) with (w_unlock_calls w + S (S k)) by lia.
    + intros j Hj. replace (S (w_unlock_calls w) + j) with (w_unlock_calls w + S j) by lia.
      apply Hbefore. lia.
    + by replace (S (w_unlock_calls w) + k) with (w_unlock_calls w + S k) by lia.
    + lia.
Qed.

(** The case where turn [k] prints a token. *)
Lemma unlock_first_token fuel k s w :
  (∀ j, j < k → unlock_text (w_unlock_calls w + j) = Ok EmptyString) →
  unlock_text (w_unlock_calls w + k) = Ok s → s ≠ EmptyString → k < fuel →
  unlock fuel w =
  (Done s, mkWorld (w_fs w) (w_out w ++ replicate (S k) unlock_line) (w_unlock_calls w + S k)).
Proof.
  intros Hb Hk Hs Hf. rewrite (unlock_first_answer fuel k w Hb) by (done || congruence).
  by rewrite Hk.
Qed.

(** C7: When [bw unlock --raw] never prints anything,
    [unlock] never returns: every amount of fuel is used up, one logged
    attempt per unit. *)
Theorem unlock_diverges fuel w :
  (∀ j, bw_unlock_out server j = []) →
  unlock fuel w =
  (Diverged, mkWorld (w_fs w) (w_out w ++ replicate fuel unlock_line) (w_unlock_calls w + fuel)).
Proof.
  intros Hnone. revert w. induction fuel as [|fuel IH]; intros w.
  - destruct w. cbn. by rewrite app_nil_r, Nat.add_0_r.
  - rewrite unlock_S_empty by (unfold unlock_text; by rewrite Hnone).
    rewrite IH. unfold turn. cbn. rewrite <- app_assoc. do 2 f_equal. lia.
Qed.

(** C6: [unlock] only returns a non-empty token, the decoded output of
    the first call that printed one; every earlier call printed
    nothing. *)
Theorem unlock_sound fuel w s w' :
  unlock fuel w = (Done s, w') →
  s ≠ EmptyString ∧
  ∃ k, k < fuel ∧ unlock_text (w_unlock_calls w + k) = Ok s ∧
       ∀ j, j < k → unlock_text (w_unlock_calls w + j) = Ok EmptyString.
Proof.
  intros H. split; [by eapply unlock_Done_nonempty|]. revert w H.
  induction fuel as [|fuel IH]; intros w H; [discriminate H|].
  destruct (empty_or_not (unlock_text (w_unlock_calls w))) as [E|E].
  - rewrite unlock_S_empty in H by done.
    destruct (IH _ H) as (k & Hk & Hs & Hj). unfold turn in *. cbn in *.
    exists (S k). split_and!; [lia | by replace (w_unlock_calls w + S k) with (S (w_unlock_calls w) + k) by lia |].
    intros [|j] Hjk; [by rewrite Nat.add_0_r|].
    replace (w_unlock_calls w + S j) with (S (w_unlock_calls w) + j) by lia. apply Hj. lia.
  - rewrite unlock_S_final in H by done. unfold answer in H.
    exists 0. rewrite Nat.add_0_r. destruct (unlock_text _) as [s'|]; [|done].
    injection H as -> _. split_and!; [lia | done | intros; lia].
Qed.

(** C23: Bytes of [bw unlock --raw] that are not UTF-8 end the loop
    with the [UnicodeDecodeError] of [decode('utf-8')] (line 121): the
    loop does not retry, and the exception leaves [unlock] after one
    logged attempt per call. *)
Theorem unlock_rejects_undecodable fuel k w e :
  (∀ j, j < k → unlock_text (w_unlock_calls w + j) = Ok EmptyString) →
  unlock_text (w_unlock_calls w + k) = Err e → k < fuel →
  unlock fuel w =
  (Raised e, mkWorld (w_fs w) (w_out w ++ replicate (S k) unlock_line) (w_unlock_calls w + S k)).
Proof.
  intros Hbefore He Hk. rewrite (unlock_first_answer fuel k w Hbefore) by (done || by rewrite He).
  by rewrite He.
Qed.

(** C31: [unlock] with [fuel] turns calls [bw unlock --raw] at most
    [fuel] times, prints exactly one command line per call, and leaves
    the files alone, whether it returns, raises or runs out of fuel. *)
Theorem unlock_calls_bounded fuel w :
  let w' := snd (unlock fuel w) in
  w_fs w' = w_fs w ∧
  ∃ n, n ≤ fuel ∧ w_unlock_calls w' = w_unlock_calls w + n ∧
       w_out w' = w_out w ++ replicate n unlock_line.
Proof.
  revert w. induction fuel as [|fuel IH]; intros w; cbv zeta.
  - cbn. split; [done|]. exists 0. split_and!; [lia | lia | by rewrite app_nil_r].
  - destruct (empty_or_not (unlock_text (w_unlock_calls w))) as [E|E].
    + rewrite unlock_S_empty by done.
      destruct (IH (turn w)) as (Hfs & n & Hn & Hc & Ho).
      split; [done|]. exists (S n). unfold turn in *. cbn in *. split_and!; [lia | lia |].
      by rewrite Ho, <- app_assoc.
    + rewrite unlock_S_final by done.
      split; [done|]. exists 1. split_and!; cbn; [lia | lia | done].
Qed.

Lemma bind_sync {B} session (f : () → M B) w :
  (x <- sync session ;; f x) w =
  f () (mkWorld (w_fs w) (w_out w ++ [Cli.command_line ["bw"; "--session"; session; "sync"]])
          (w_unlock_calls w)).
Proof. reflexivity. Qed.

Lemma bind_list_items {B} session (f : string → M B) w :
  (x <- list_items session ;; f x) w =
  (x <- st_lift (Utf8.decode (bw_list_out server session)) ;; f x)
    (mkWorld (w_fs w) (w_out w ++ [Cli.command_line ["bw"; "--session"; session; "list"; "items"]])
       (w_unlock_calls w)).
Proof. reflexivity. Qed.

End with_server.
End BWCli.

#[export] Hint Rewrite @BWCli.bind_sync @BWCli.bind_list_items : st_run.
