(* ===== verification/BWItem.v ===== *)
(** * The item formatter: class [BWItem] (lines 9-106)

    [BWItem] wraps one decoded item of [bw list items].  [passname]
    derives the entry name, [item_type] dispatches on the type code,
    [format_card], [format_identity] and [format_login] collect the
    type-specific fields in a [dict], and [format] renders the whole
    entry body.  Every operation returns a [res]: [Ok] with the value,
    or [Err] with the Python exception the method raises. *)

From S2P Require Import Prelude PyStr PyDict PyJson.

Module BWItem.

(** [BWItem.item_type] (lines 21-27) *)
Definition item_type (it : json) : res string :=
  t <- py_getitem it (KStr "type") ;;
  if py_eq_int t 1 then Ok "login"
  else if py_eq_int t 2 then Ok "note"
  else if py_eq_int t 3 then Ok "card"
  else if py_eq_int t 4 then Ok "identity"
  else Err (Exception ("Unknown item type: " +:+ py_str t)).

(** [BWItem.passname] (lines 14-19).  The arguments of the final
    [format] are evaluated left to right, so [item_type] runs after
    both [re.sub] calls. *)
Definition passname (it : json) : res string :=
  idv <- py_getitem it (KStr "id") ;;
  parts <- py_split_method idv "-" ;;
  id_head <- list_first parts ;;
  namev <- py_getitem it (KStr "name") ;;
  name <- expect_str namev ;;
  let name := re_sub_sep name in
  let name := re_sub_spaces name in
  ty <- item_type it ;;
  Ok (py_lower name +:+ "-" +:+ ty +:+ "-" +:+ py_slice 0 4 id_head).

(** [d[label] = src[key]] for each [(label, key)], in order. *)
Fixpoint copy_fields (src : json) (fs : list (string * string))
    (d : dict string json) : res (dict string json) :=
  match fs with
  | [] => Ok d
  | (label, key) :: fs' =>
      v <- py_getitem src (KStr key) ;; copy_fields src fs' (dict_set label v d)
  end.

Definition card_head_fields : list (string * string) :=
  [("Card Holder Name", "cardholderName"); ("Card Brand", "brand");
   ("Card Number", "number")].

(** [BWItem.format_card] (lines 29-36) *)
Definition format_card (card : json) : res (dict string json) :=
  d <- copy_fields card card_head_fields [] ;;
  m <- py_getitem card (KStr "expMonth") ;;
  y <- py_getitem card (KStr "expYear") ;;
  let d := dict_set "Card Expire MM/YYYY" (JStr (py_str m +:+ "/" +:+ py_str y)) d in
  c <- py_getitem card (KStr "code") ;;
  Ok (dict_set "Card Security Code" c d).

Definition identity_fields : list (string * string) :=
  [("ID Title", "title"); ("ID FirstName", "firstName");
   ("ID MiddleName", "middleName"); ("ID LastName", "lastName");
   ("ID Address1", "address1"); ("ID Address2", "address2");
   ("ID Address3", "address3"); ("ID City", "city"); ("ID State", "state");
   ("ID PostalCode", "postalCode"); ("ID Country", "country");
   ("ID Company", "company"); ("ID Email", "email"); ("ID Phone", "phone");
   ("ID SSN", "ssn"); ("ID Username", "username");
   ("ID Passport Number", "passportNumber"); ("ID License Number", "licenseNumber")].

(** [BWItem.format_identity] (lines 38-58) *)
Definition format_identity (identity : json) : res (dict string json) :=
  copy_fields identity identity_fields [].

Definition login_fields : list (string * string) :=
  [("Username", "username"); ("Password", "password"); ("TOTP", "totp")].

Definition url_key (index : nat) : string := "URL " +:+ str_of_nat (index + 1).

(** One turn of [for index, uri in enumerate(login.get('uris', []))]. *)
Definition url_step (index : nat) (uri : json) (d : dict string json) : res (dict string json) :=
  u <- py_getitem uri (KStr "uri") ;; Ok (dict_set (url_key index) u d).

(** [BWItem.format_login] (lines 60-72) *)
Definition format_login (login : json) : res (dict string json) :=
  d <- copy_fields login login_fields [] ;;
  uris <- py_get login "uris" (JArr []) ;;
  n <- py_len uris ;;
  if n =? 1 then
    u0 <- py_getitem uris (KInt 0) ;;
    u <- py_getitem u0 (KStr "uri") ;;
    Ok (dict_set "URL" u d)
  else
    uris' <- py_get login "uris" (JArr []) ;;
    xs <- py_iter uris' ;;
    fold_enum url_step 0 xs d.

Definition custom_key (index : nat) (name : json) : string :=
  "[Custom Field " +:+ str_of_nat (index + 1) +:+ "] " +:+ py_str name.

(** One turn of [for index, field in enumerate(item.get('fields', []))]. *)
Definition custom_field_step (index : nat) (field : json) (d : dict string json) :
    res (dict string json) :=
  fname <- py_getitem field (KStr "name") ;;
  v <- py_getitem field (KStr "value") ;;
  Ok (dict_set (custom_key index fname) v d).

Definition attachment_key (index : nat) (what : string) : string :=
  "Attachment " +:+ str_of_nat index +:+ " " +:+ what.

(** One turn of [for index, attachment in enumerate(item.get('attachments', []))]. *)
Definition attachment_step (index : nat) (att : json) (d : dict string json) :
    res (dict string json) :=
  a <- py_getitem att (KStr "fileName") ;;
  let d := dict_set (attachment_key index "File Name") a d in
  b <- py_getitem att (KStr "sizeName") ;;
  let d := dict_set (attachment_key index "File Size") b d in
  c <- py_getitem att (KStr "url") ;;
  Ok (dict_set (attachment_key index "URL") c d).

(** ["{}: {}".format(k, v)] *)
Definition render_line (kv : string * json) : string := kv.1 +:+ ": " +:+ py_str kv.2.

(** Lines 105-106: the non-[None] pairs, one line each, and a final newline. *)
Definition render (d : dict string json) : string :=
  py_join nl (map render_line (filter (λ kv, negb (is_none kv.2)) d)) +:+ nl.

(** The type-specific fields (lines 82-90). *)
Definition type_fields (ty : string) (it : json) (d : dict string json) : res (dict string json) :=
  if String.eqb ty "login" then
    l <- py_getitem it (KStr "login") ;; e <- format_login l ;; Ok (dict_update d e)
  else if String.eqb ty "note" then Ok d
  else if String.eqb ty "card" then
    c <- py_getitem it (KStr "card") ;; e <- format_card c ;; Ok (dict_update d e)
  else if String.eqb ty "identity" then
    i <- py_getitem it (KStr "identity") ;; e <- format_identity i ;; Ok (dict_update d e)
  else Ok d.

(** [BWItem.format] (lines 74-106) *)
Definition format (it : json) : res string :=
  ty <- item_type it ;;
  namev <- py_getitem it (KStr "name") ;;
  let d := dict_set "Name" namev [] in
  d <- type_fields ty it d ;;
  fieldsv <- py_get it "fields" (JArr []) ;;
  fields <- py_iter fieldsv ;;
  d <- fold_enum custom_field_step 0 fields d ;;
  attsv <- py_get it "attachments" (JArr []) ;;
  atts <- py_iter attsv ;;
  d <- fold_enum attachment_step 0 atts d ;;
  notes <- py_getitem it (KStr "notes") ;;
  let d := dict_set "Notes" notes d in
  Ok (render d).

(** ** Reference: the body's entries as a plain list

    The same computation without a [dict]: each piece of the body is a
    list of [(label, value)] entries, and the pieces are concatenated in
    the order the code assigns them.  The errors are raised in the same
    order as in the code. *)

Fixpoint fields_list (src : json) (fs : list (string * string)) : res (dict string json) :=
  match fs with
  | [] => Ok []
  | (label, key) :: fs' =>
      v <- py_getitem src (KStr key) ;; rest <- fields_list src fs' ;; Ok ((label, v) :: rest)
  end.

Definition card_entries (card : json) : res (dict string json) :=
  base <- fields_list card card_head_fields ;;
  m <- py_getitem card (KStr "expMonth") ;;
  y <- py_getitem card (KStr "expYear") ;;
  c <- py_getitem card (KStr "code") ;;
  Ok (base ++ [("Card Expire MM/YYYY", JStr (py_str m +:+ "/" +:+ py_str y));
               ("Card Security Code", c)]).

Definition url_entry (index : nat) (uri : json) : res (dict string json) :=
  u <- py_getitem uri (KStr "uri") ;; Ok [(url_key index, u)].

Definition login_entries (login : json) : res (dict string json) :=
  base <- fields_list login login_fields ;;
  uris <- py_get login "uris" (JArr []) ;;
  n <- py_len uris ;;
  if n =? 1 then
    u0 <- py_getitem uris (KInt 0) ;;
    u <- py_getitem u0 (KStr "uri") ;;
    Ok (base ++ [("URL", u)])
  else
    xs <- py_iter uris ;;
    us <- map_enum url_entry 0 xs ;;
    Ok (base ++ concat us).

Definition type_entries (ty : string) (it : json) : res (dict string json) :=
  if String.eqb ty "login" then l <- py_getitem it (KStr "login") ;; login_entries l
  else if String.eqb ty "note" then Ok []
  else if String.eqb ty "card" then c <- py_getitem it (KStr "card") ;; card_entries c
  else if String.eqb ty "identity" then
    i <- py_getitem it (KStr "identity") ;; fields_list i identity_fields
  else Ok [].

Definition custom_entry (index : nat) (field : json) : res (dict string json) :=
  fname <- py_getitem field (KStr "name") ;;
  v <- py_getitem field (KStr "value") ;;
  Ok [(custom_key index fname, v)].

Definition attachment_entry (index : nat) (att : json) : res (dict string json) :=
  a <- py_getitem att (KStr "fileName") ;;
  b <- py_getitem att (KStr "sizeName") ;;
  c <- py_getitem att (KStr "url") ;;
  Ok [(attachment_key index "File Name", a); (attachment_key index "File Size", b);
      (attachment_key index "URL", c)].

Definition entries (it : json) : res (dict string json) :=
  ty <- item_type it ;;
  namev <- py_getitem it (KStr "name") ;;
  te <- type_entries ty it ;;
  fieldsv <- py_get it "fields" (JArr []) ;;
  fields <- py_iter fieldsv ;;
  ce <- map_enum custom_entry 0 fields ;;
  attsv <- py_get it "attachments" (JArr []) ;;
  atts <- py_iter attsv ;;
  ae <- map_enum attachment_entry 0 atts ;;
  notes <- py_getitem it (KStr "notes") ;;
  Ok ([("Name", namev)] ++ te ++ concat ce ++ concat ae ++ [("Notes", notes)]).

(** The four kinds of label: constants, [URL n], custom fields and
    attachments. *)
Definition key_class (k : string) : nat :=
  if String.prefix "[Custom Field " k then 2
  else if String.prefix "Attachment " k then 3
  else if String.prefix "URL " k then 1
  else 0.

(** ** The [dict] construction is an update by the reference entries *)

Lemma copy_fields_spec src fs d :
  copy_fields src fs d = (es <- fields_list src fs ;; Ok (dict_update d es)).
Proof.
  revert d. induction fs as [|[label key] fs IH]; intros d; [done|]. cbn.
  destruct (py_getitem src (KStr key)); cbn; [|done].
  rewrite IH. by destruct (fields_list src fs).
Qed.

Lemma fields_list_keys src fs es : fields_list src fs = Ok es → es.*1 = fs.*1.
Proof.
  revert es. induction fs as [|[label key] fs IH]; intros es H; cbn in H.
  - by res_inv.
  - destruct (py_getitem src (KStr key)); cbn in H; [|done].
    destruct (fields_list src fs) eqn:Hf; cbn in H; res_inv.
    cbn. f_equal. by apply IH.
Qed.

Lemma format_card_spec card :
  format_card card = (es <- card_entries card ;; Ok (dict_update [] es)).
Proof.
  unfold format_card, card_entries. rewrite copy_fields_spec.
  destruct (fields_list card card_head_fields); cbn; [|done].
  repeat case_res; cbn; try done.
  by rewrite !dict_update_app.
Qed.

Lemma url_step_spec i x d : url_step i x d = (e <- url_entry i x ;; Ok (dict_update d e)).
Proof. unfold url_step, url_entry. by case_res. Qed.

Lemma custom_field_step_spec i x d :
  custom_field_step i x d = (e <- custom_entry i x ;; Ok (dict_update d e)).
Proof. unfold custom_field_step, custom_entry. by repeat case_res. Qed.

Lemma attachment_step_spec i x d :
  attachment_step i x d = (e <- attachment_entry i x ;; Ok (dict_update d e)).
Proof. unfold attachment_step, attachment_entry. by repeat case_res. Qed.

Lemma format_login_spec login :
  format_login login = (es <- login_entries login ;; Ok (dict_update [] es)).
Proof.
  unfold format_login, login_entries. rewrite copy_fields_spec.
  destruct (fields_list login login_fields) as [base|]; cbn; [|done].
  destruct (py_get login "uris" (JArr [])) as [uris|]; cbn; [|done].
  destruct (py_len uris) as [n|]; cbn; [|done].
  destruct (n =? 1).
  - repeat case_res; cbn; try done. by rewrite dict_update_app.
  - destruct (py_iter uris) as [xs|]; cbn; [|done].
    rewrite (fold_enum_update _ _ url_step_spec).
    destruct (map_enum url_entry 0 xs); cbn; [|done]. by rewrite dict_update_app.
Qed.

(** ** Labels are pairwise distinct *)

Lemma prefix_app p s : String.prefix p (p +:+ s) = true.
Proof.
  induction p as [|c p IH]; [by destruct s|].
  rewrite str_app_cons. cbn. by destruct (ascii_dec c c).
Qed.

Lemma key_class_custom i n : key_class (custom_key i n) = 2.
Proof. unfold key_class, custom_key. by rewrite prefix_app. Qed.

Lemma key_class_attachment i w : key_class (attachment_key i w) = 3.
Proof. unfold key_class, attachment_key. rewrite !str_app_cons. cbn. by rewrite prefix_nil. Qed.

Lemma key_class_url i : key_class (url_key i) = 1.
Proof. unfold key_class, url_key. rewrite !str_app_cons. cbn. by rewrite prefix_nil. Qed.

Lemma custom_key_inj i j n m : custom_key i n = custom_key j m → i = j.
Proof.
  unfold custom_key. intros H. apply str_app_inv_l in H.
  rewrite !str_app_cons in H.
  destruct (str_of_nat_app_inj _ _ "]"%char "]"%char _ _ eq_refl eq_refl H) as (Hij & _). lia.
Qed.

Lemma attachment_key_inj i j w w' :
  attachment_key i w = attachment_key j w' → i = j ∧ w = w'.
Proof.
  unfold attachment_key. intros H. apply str_app_inv_l in H.
  rewrite !str_app_cons in H.
  destruct (str_of_nat_app_inj _ _ " "%char " "%char _ _ eq_refl eq_refl H) as (-> & _ & Hw).
  by rewrite !str_app_nil_l in Hw.
Qed.

Lemma url_key_inj i j : url_key i = url_key j → i = j.
Proof.
  unfold url_key. intros H. apply str_app_inv_l, str_of_nat_inj in H. lia.
Qed.

Lemma login_entries_keys login es :
  login_entries login = Ok es →
  ∃ cs us, es.*1 = cs ++ us ∧
    (cs = login_fields.*1 ++ ["URL"] ∨ cs = login_fields.*1) ∧
    NoDup us ∧ Forall (λ k, key_class k = 1) us.
Proof.
  unfold login_entries. intros H.
  destruct (fields_list login login_fields) as [base|] eqn:Hb; cbn in H; [|done].
  apply fields_list_keys in Hb.
  destruct (py_get login "uris" (JArr [])) as [uris|]; cbn in H; [|done].
  destruct (py_len uris) as [n|]; cbn in H; [|done].
  destruct (n =? 1).
  - repeat (case_res_in H; try done). res_inv.
    exists (login_fields.*1 ++ ["URL"]), []. rewrite fmap_app, Hb, app_nil_r.
    split_and!; [done | by left | constructor | constructor].
  - destruct (py_iter uris) as [xs|]; cbn in H; [|done].
    destruct (map_enum url_entry 0 xs) as [us|] eqn:Hus; cbn in H; res_inv.
    destruct (map_enum_concat_NoDup url_entry (λ k j, k = url_key j) 0 xs us)
      as [Hnd Hown]; [ | | done | ].
    + intros k j j' -> Hj. by apply url_key_inj.
    + intros j x es. unfold url_entry. intros H'. case_res_in H'; [|done]. res_inv.
      split; [apply NoDup_singleton | by constructor].
    + exists login_fields.*1, (concat us).*1. rewrite fmap_app, Hb.
      split_and!; [done | by right | done |].
      eapply Forall_impl; [exact Hown|]. intros k (j & _ & ->). apply key_class_url.
Qed.

(** The labels of the type-specific fields: constants, then [URL n] labels. *)
Lemma type_entries_keys ty it te :
  type_entries ty it = Ok te →
  ∃ cs us, te.*1 = cs ++ us ∧
    NoDup ("Name" :: cs ++ ["Notes"]) ∧ Forall (λ k, key_class k = 0) ("Name" :: cs ++ ["Notes"]) ∧
    NoDup us ∧ Forall (λ k, key_class k = 1) us.
Proof.
  unfold type_entries. intros H.
  destruct (String.eqb ty "login").
  { destruct (py_getitem it (KStr "login")) as [l|]; cbn in H; [|done].
    destruct (login_entries_keys _ _ H) as (cs & us & Hk & Hcs & Hnd & Hcl).
    exists cs, us. destruct Hcs as [-> | ->]; split_and!; try done; decide_by_eval. }
  destruct (String.eqb ty "note").
  { res_inv. exists [], []. split_and!; try done; first [decide_by_eval | constructor]. }
  destruct (String.eqb ty "card").
  { case_res_in H; [|done]. rename a into c.
    unfold card_entries in H.
    destruct (fields_list c card_head_fields) as [base|] eqn:Hb; cbn in H; [|done].
    apply fields_list_keys in Hb. repeat (case_res_in H; try done). res_inv.
    exists (card_head_fields.*1 ++ ["Card Expire MM/YYYY"; "Card Security Code"]), [].
    rewrite fmap_app, Hb, app_nil_r. split_and!; try done; first [decide_by_eval | constructor]. }
  destruct (String.eqb ty "identity").
  { case_res_in H; [|done]. rename a into i.
    apply fields_list_keys in H.
    exists identity_fields.*1, []. rewrite H, app_nil_r.
    split_and!; try done; first [decide_by_eval | constructor]. }
  res_inv. exists [], []. split_and!; try done; first [decide_by_eval | constructor].
Qed.

Lemma type_entries_NoDup ty it te : type_entries ty it = Ok te → NoDup te.*1.
Proof.
  intros H. destruct (type_entries_keys _ _ _ H) as (cs & us & -> & Hnd & Hc & Hus & Hcu).
  apply NoDup_cons in Hnd as [_ Hnd]. apply NoDup_app in Hnd as (Hcs & _ & _).
  apply Forall_cons in Hc as [_ Hc]. apply Forall_app in Hc as [Hc _].
  apply (NoDup_app_class key_class 0); try done.
  eapply Forall_impl; [exact Hcu|]. intros k ->. done.
Qed.

Lemma custom_entries_keys i fields ces :
  map_enum custom_entry i fields = Ok ces →
  NoDup (concat ces).*1 ∧ Forall (λ k, key_class k = 2) (concat ces).*1.
Proof.
  intros H.
  destruct (map_enum_concat_NoDup custom_entry (λ k j, ∃ n, k = custom_key j n) i fields ces)
    as [Hnd Hown]; [ | | done | ].
  - intros k j j' [n ->] [m Hm]. by eapply custom_key_inj.
  - intros j x es. unfold custom_entry. intros H'. repeat (case_res_in H'; try done). res_inv.
    split; [apply NoDup_singleton | constructor; [by eexists | constructor]].
  - split; [done|]. eapply Forall_impl; [exact Hown|].
    intros k (j & _ & n & ->). apply key_class_custom.
Qed.

Lemma attachment_keys_NoDup j :
  NoDup [attachment_key j "File Name"; attachment_key j "File Size"; attachment_key j "URL"].
Proof.
  assert (∀ w w', w ≠ w' → attachment_key j w ≠ attachment_key j w') as Hne
    by (intros w w' Hw Heq; by apply attachment_key_inj in Heq as [_ ?]).
  constructor; [rewrite !not_elem_of_cons; split_and!; [by apply Hne | by apply Hne | apply not_elem_of_nil]|].
  constructor; [rewrite !not_elem_of_cons; split_and!; [by apply Hne | apply not_elem_of_nil]|].
  constructor; [apply not_elem_of_nil | constructor].
Qed.

Lemma attachment_entries_keys i atts aes :
  map_enum attachment_entry i atts = Ok aes →
  NoDup (concat aes).*1 ∧ Forall (λ k, key_class k = 3) (concat aes).*1.
Proof.
  intros H.
  destruct (map_enum_concat_NoDup attachment_entry (λ k j, ∃ w, k = attachment_key j w) i atts aes)
    as [Hnd Hown]; [ | | done | ].
  - intros k j j' [w ->] [w' Hw]. by destruct (attachment_key_inj _ _ _ _ Hw).
  - intros j x es. unfold attachment_entry. intros H'. repeat (case_res_in H'; try done). res_inv.
    split; [apply attachment_keys_NoDup | repeat constructor; eexists; reflexivity].
  - split; [done|]. eapply Forall_impl; [exact Hown|].
    intros k (j & _ & w & ->). apply key_class_attachment.
Qed.

(** All labels of an item's body are pairwise distinct. *)
Lemma entries_NoDup it es : entries it = Ok es → NoDup es.*1.
Proof.
  unfold entries. intros H. repeat (case_res_in H; try done). res_inv.
  match goal with
  | Ht : type_entries _ _ = Ok _ |- _ =>
      destruct (type_entries_keys _ _ _ Ht) as (cs & us & Hte & Hnd0 & Hc0 & Hnd1 & Hc1)
  end.
  match goal with
  | Hc : map_enum custom_entry _ _ = Ok _ |- _ =>
      destruct (custom_entries_keys _ _ _ Hc) as [Hnd2 Hc2]
  end.
  match goal with
  | Ha : map_enum attachment_entry _ _ = Ok _ |- _ =>
      destruct (attachment_entries_keys _ _ _ Ha) as [Hnd3 Hc3]
  end.
  rewrite fmap_cons, !fmap_app, fmap_cons, fmap_nil, Hte.
  cbn [fst].
  match goal with
  | |- NoDup (?n :: (?c ++ ?u) ++ ?k ++ ?a ++ [?t]) =>
      assert (n :: (c ++ u) ++ k ++ a ++ [t] ≡ₚ (n :: c ++ [t]) ++ u ++ k ++ a) as ->
        by solve_Permutation
  end.
  apply (NoDup_app_class key_class 0); [exact Hnd0 | | exact Hc0 | ].
  - apply (NoDup_app_class key_class 1); try done.
    + apply (NoDup_app_class key_class 2); try done.
      eapply Forall_impl; [exact Hc3|]. intros k ->. done.
    + apply Forall_app. split; (eapply Forall_impl; [eassumption|]); intros k ->; done.
  - apply Forall_app. split; [|apply Forall_app; split];
      (eapply Forall_impl; [eassumption|]); intros k ->; done.
Qed.

Lemma type_fields_ops ty it d :
  type_fields ty it d = (te <- type_entries ty it ;; Ok (dict_update d (dict_update [] te))).
Proof.
  unfold type_fields, type_entries.
  destruct (String.eqb ty "login").
  { case_res; [|done]. rewrite format_login_spec. by case_res. }
  destruct (String.eqb ty "note"); [done|].
  destruct (String.eqb ty "card").
  { case_res; [|done]. rewrite format_card_spec. by case_res. }
  destruct (String.eqb ty "identity"); [|done].
  case_res; [|done]. unfold format_identity. rewrite copy_fields_spec. by case_res.
Qed.

Lemma format_ops it : format it = (es <- entries it ;; Ok (render (dict_update [] es))).
Proof.
  unfold format, entries.
  case_res; [|done]. case_res; [|done].
  rewrite type_fields_ops. case_res; [|done].
  rewrite (dict_update_fresh [] a1) by (cbn; by eapply type_entries_NoDup).
  case_res; [|done]. case_res; [|done].
  rewrite (fold_enum_update _ _ custom_field_step_spec). case_res; [|done].
  case_res; [|done]. case_res; [|done].
  rewrite (fold_enum_update _ _ attachment_step_spec). case_res; [|done].
  case_res; [|done].
  by rewrite !dict_update_app.
Qed.

Lemma concat_imap_singleton {A B} (f : nat → A → B) (l : list A) :
  concat (imap (λ i x, [f i x]) l) = imap f l.
Proof.
  revert f. induction l as [|x l IH]; intros f; [done|].
  rewrite !imap_cons. cbn [concat app]. f_equal. apply (IH (λ i y, f (S i) y)).
Qed.

(** ** Properties of the entry name *)

Lemma item_type_values it ty :
  item_type it = Ok ty → ty ∈ ["login"; "note"; "card"; "identity"].
Proof.
  unfold item_type. intros H. case_res_in H; [|done].
  repeat match type of H with
  | context [if ?b then _ else _] => destruct b
  end; res_inv; set_solver.
Qed.

Lemma passname_spec it i n ty :
  py_getitem it (KStr "id") = Ok (JStr i) →
  py_getitem it (KStr "name") = Ok (JStr n) →
  item_type it = Ok ty →
  passname it = Ok (py_lower (re_sub_spaces (re_sub_sep n)) +:+ "-" +:+ ty +:+ "-" +:+
                    py_slice 0 4 (take_until "-" i)).
Proof.
  intros Hi Hn Ht. unfold passname. rewrite Hi, bind_Ok. cbn.
  destruct (py_split_head "-" i) as [ws ->]. cbn.
  by rewrite Hn, bind_Ok, Ht.
Qed.

Lemma login_entries_NoDup login es : login_entries login = Ok es → NoDup es.*1.
Proof.
  intros H. destruct (login_entries_keys _ _ H) as (cs & us & -> & Hcs & Hnd & Hcl).
  apply (NoDup_app_class key_class 0); try done.
  - destruct Hcs as [-> | ->]; decide_by_eval.
  - destruct Hcs as [-> | ->]; decide_by_eval.
  - eapply Forall_impl; [exact Hcl|]. intros k ->. done.
Qed.

Lemma map_enum_url_entry k xs us :
  map_res (λ x, py_getitem x (KStr "uri")) xs = Ok us →
  ∃ ess, map_enum url_entry k xs = Ok ess ∧
         concat ess = imap (λ i u, (url_key (k + i), u)) us.
Proof.
  revert k us. induction xs as [|x xs IH]; intros k us H; cbn in H.
  - res_inv. by exists [].
  - case_res_in H; [|done]. case_res_in H; [|done]. res_inv.
    destruct (IH (S k) _ eq_refl) as (ess & Hess & Hcat).
    assert (Hx : url_entry k x = Ok [(url_key k, a)]) by (unfold url_entry; by rewrite Hr).
    exists ([(url_key k, a)] :: ess). rewrite map_enum_cons, Hx, bind_Ok, Hess, bind_Ok.
    split; [done|]. cbn. rewrite Nat.add_0_r, Hcat. f_equal.
    apply imap_ext. intros i u _. cbn. do 2 f_equal. lia.
Qed.

(** C9: Every name [passname] returns is
    [body-type-idhead]: [body] holds no space, underscore or bar, [type]
    is one of the four labels, and [idhead] is at most four characters
    of the identifier with no hyphen. *)
Theorem passname_shape it p :
  passname it = Ok p →
  ∃ body ty h, p = body +:+ "-" +:+ ty +:+ "-" +:+ h ∧
    ty ∈ ["login"; "note"; "card"; "identity"] ∧
    str_forall not_name_sep body = true ∧
    String.length h ≤ 4 ∧ str_has "-" h = false.
Proof.
  intros H. unfold passname in H.
  case_res_in H; [|done]. rename a into idv.
  destruct idv as [| | | i | |]; cbn [py_split_method] in H; rewrite ?bind_Err in H; try done.
  destruct (py_split_head "-" i) as [ws Hws]. rewrite Hws, bind_Ok in H.
  cbn [list_first] in H. rewrite bind_Ok in H.
  case_res_in H; [|done]. rename a into namev.
  destruct namev as [| | | n | |]; cbn [expect_str] in H; rewrite ?bind_Err in H; try done.
  rewrite bind_Ok in H. case_res_in H; [|done]. res_inv.
  eexists _, _, _. split; [reflexivity|]. split_and!.
  - by eapply item_type_values.
  - apply normalized_name_no_sep.
  - apply substring_length_le.
  - destruct (str_has "-" _) eqn:E; [|done].
    apply str_has_substring in E. by rewrite take_until_no_sep in E.
Qed.

(** [passname] depends only on
    the item's [id], [name] and [type]. *)
Theorem passname_depends_on_id_name_type it1 it2 :
  py_getitem it1 (KStr "id") = py_getitem it2 (KStr "id") →
  py_getitem it1 (KStr "name") = py_getitem it2 (KStr "name") →
  py_getitem it1 (KStr "type") = py_getitem it2 (KStr "type") →
  passname it1 = passname it2.
Proof. intros Hi Hn Ht. unfold passname, item_type. by rewrite Hi, Hn, Ht. Qed.

(** C8: [format] renders exactly the reference list of
    entries: building the body in a [dict] loses nothing and reorders
    nothing, and raises the same exception as the reference. *)
Theorem format_entries it : format it = (es <- entries it ;; Ok (render es)).
Proof.
  rewrite format_ops. destruct (entries it) as [es|] eqn:E; [|done].
  rewrite bind_Ok, bind_Ok. do 2 f_equal.
  apply dict_update_fresh. cbn. by eapply entries_NoDup.
Qed.

(** C16: A type code outside 1..4 makes [format]
    raise [Exception('Unknown item type: t')], and [passname] too once
    the identifier and name are strings. *)
Theorem unknown_type_fails it t :
  py_getitem it (KStr "type") = Ok t →
  Forall (λ n, py_eq_int t n = false) [1; 2; 3; 4]%Z →
  format it = Err (Exception ("Unknown item type: " +:+ py_str t)) ∧
  ∀ i n, py_getitem it (KStr "id") = Ok (JStr i) → py_getitem it (KStr "name") = Ok (JStr n) →
    passname it = Err (Exception ("Unknown item type: " +:+ py_str t)).
Proof.
  intros Ht Hn. repeat rewrite Forall_cons in Hn. destruct Hn as (H1 & H2 & H3 & H4 & _).
  assert (Hty : item_type it = Err (Exception ("Unknown item type: " +:+ py_str t))).
  { unfold item_type. by rewrite Ht, bind_Ok, H1, H2, H3, H4. }
  split.
  - unfold format. by rewrite Hty.
  - intros i n Hi Hnm. unfold passname. rewrite Hi, bind_Ok. cbn.
    destruct (py_split_head "-" i) as [ws ->]. cbn. by rewrite Hnm, bind_Ok, Hty.
Qed.

(** An entry whose value is [None] adds nothing
    to the body: no label, no line. *)
Theorem render_skips_none d1 d2 k :
  render (d1 ++ (k, JNull) :: d2) = render (d1 ++ d2).
Proof. unfold render. by rewrite !filter_app. Qed.

(** [format_login] in terms of the reference entries. *)
Lemma format_login_uris login base uris us :
  fields_list login login_fields = Ok base →
  py_get login "uris" (JArr []) = Ok (JArr uris) →
  map_res (λ x, py_getitem x (KStr "uri")) uris = Ok us →
  format_login login =
    Ok (base ++ match us with
                | [u] => [("URL", u)]
                | _ => imap (λ i u, (url_key i, u)) us
                end).
Proof.
  intros Hb Hu Hus.
  assert (Hle : login_entries login =
    Ok (base ++ match us with [u] => [("URL", u)] | _ => imap (λ i u, (url_key i, u)) us end)).
  { unfold login_entries. rewrite Hb, bind_Ok, Hu, bind_Ok. cbn [py_len]. rewrite bind_Ok.
    pose proof (map_res_Ok_length _ _ _ Hus) as Hlen.
    destruct uris as [|x [|y xs]]; cbn [length] in Hlen |- *.
    - cbn in Hus. res_inv. reflexivity.
    - destruct us as [|u [|]]; try discriminate Hlen.
      cbn in Hus. case_res_in Hus; [|done]. res_inv.
      assert (H0 : py_getitem (JArr [x]) (KInt 0) = Ok x) by reflexivity.
      cbn -[py_getitem]. by rewrite H0, bind_Ok, Hr, bind_Ok.
    - destruct (map_enum_url_entry 0 _ _ Hus) as (ess & Hess & Hcat).
      cbn [py_iter]. rewrite bind_Ok, Hess, bind_Ok, Hcat.
      destruct us as [|u [|u' us]]; try discriminate Hlen. done. }
  rewrite format_login_spec, Hle, bind_Ok, dict_update_fresh; [done|].
  cbn. by eapply login_entries_NoDup.
Qed.

(** C14: [format_login] lists username, password
    and TOTP under the labels [Username], [Password] and [TOTP], then the
    URIs: a single URI under the label [URL], any other number under
    [URL 1], ..., [URL n] in input order ([str(index+1)] of line 71). *)
Theorem format_login_urls login u p t uris us :
  py_getitem login (KStr "username") = Ok u →
  py_getitem login (KStr "password") = Ok p →
  py_getitem login (KStr "totp") = Ok t →
  py_get login "uris" (JArr []) = Ok (JArr uris) →
  map_res (λ x, py_getitem x (KStr "uri")) uris = Ok us →
  format_login login =
    Ok ([("Username", u); ("Password", p); ("TOTP", t)] ++
        match us with
        | [x] => [("URL", x)]
        | _ => imap (λ i x, ("URL " +:+ str_of_nat (S i), x)) us
        end).
Proof.
  intros Hu Hp Ht Huris Hus.
  rewrite (format_login_uris login [("Username", u); ("Password", p); ("TOTP", t)] uris us);
    [| by cbn; rewrite Hu, Hp, Ht | done | done].
  destruct us as [|x [|y us]]; [done | done |].
  rewrite (imap_ext _ (λ i x, ("URL " +:+ str_of_nat (S i), x))); [done|].
  intros i z _. unfold url_key. by rewrite Nat.add_1_r.
Qed.

(** C15: [format_card] fills, in this order, [Card Holder Name],
    [Card Brand], [Card Number], [Card Expire MM/YYYY] and
    [Card Security Code]; the expiry is the string ['{}/{}'] of month and
    year, a [str] even when both are [None] (it then reads [None/None]),
    so [render] never drops it. *)
Theorem format_card_fields card h b n m y c :
  py_getitem card (KStr "cardholderName") = Ok h → py_getitem card (KStr "brand") = Ok b →
  py_getitem card (KStr "number") = Ok n → py_getitem card (KStr "expMonth") = Ok m →
  py_getitem card (KStr "expYear") = Ok y → py_getitem card (KStr "code") = Ok c →
  format_card card =
    Ok [("Card Holder Name", h); ("Card Brand", b); ("Card Number", n);
        ("Card Expire MM/YYYY", JStr (py_str m +:+ "/" +:+ py_str y));
        ("Card Security Code", c)].
Proof.
  intros Hh Hb Hn Hm Hy Hc. unfold format_card. cbn [copy_fields card_head_fields].
  by rewrite Hh, !bind_Ok, Hb, !bind_Ok, Hn, !bind_Ok, Hm, !bind_Ok, Hy, !bind_Ok, Hc, !bind_Ok.
Qed.

(** C17: [enumerate] numbers from 0: custom fields are labelled from
    [[Custom Field 1]] because line 94 prints [index+1], while
    attachments are labelled from [Attachment 0] because lines 99-101
    print [index] itself. *)
Theorem enumerate_labels fields kvs atts abcs d :
  Forall2 (λ f kv, py_getitem f (KStr "name") = Ok kv.1 ∧ py_getitem f (KStr "value") = Ok kv.2)
    fields kvs →
  Forall2 (λ a x, py_getitem a (KStr "fileName") = Ok x.1.1 ∧
                  py_getitem a (KStr "sizeName") = Ok x.1.2 ∧ py_getitem a (KStr "url") = Ok x.2)
    atts abcs →
  fold_enum custom_field_step 0 fields d =
    Ok (dict_update d (imap (λ i kv, ("[Custom Field " +:+ str_of_nat (S i) +:+ "] " +:+
                                      py_str kv.1, kv.2)) kvs)) ∧
  fold_enum attachment_step 0 atts d =
    Ok (dict_update d (concat (imap (λ i x,
          [("Attachment " +:+ str_of_nat i +:+ " File Name", x.1.1);
           ("Attachment " +:+ str_of_nat i +:+ " File Size", x.1.2);
           ("Attachment " +:+ str_of_nat i +:+ " URL", x.2)]) abcs))).
Proof.
  intros Hf Ha. split.
  - rewrite (fold_enum_update _ _ custom_field_step_spec).
    rewrite (map_enum_Forall2 _ (λ i kv, [(custom_key i kv.1, kv.2)]) 0 fields kvs), bind_Ok.
    + rewrite concat_imap_singleton. do 2 f_equal. apply imap_ext. intros i kv _.
      unfold custom_key. cbn. by rewrite Nat.add_1_r.
    + eapply Forall2_impl; [exact Hf|]. intros f kv [H1 H2] k.
      unfold custom_entry. by rewrite H1, bind_Ok, H2.
  - rewrite (fold_enum_update _ _ attachment_step_spec).
    rewrite (map_enum_Forall2 _ (λ i x, [(attachment_key i "File Name", x.1.1);
               (attachment_key i "File Size", x.1.2); (attachment_key i "URL", x.2)])
               0 atts abcs), bind_Ok; [done|].
    eapply Forall2_impl; [exact Ha|]. intros a x (H1 & H2 & H3) k.
    unfold attachment_entry. by rewrite H1, bind_Ok, H2, bind_Ok, H3.
Qed.

(** C25: A login whose [uris] is present and [null]: [login.get('uris',
    [])] returns [None] (the default is only for a missing key), and
    [len(None)] raises [TypeError], so [format] raises for the whole
    item. *)
Theorem login_null_uris_type_error it name login u p t :
  item_type it = Ok "login" → py_getitem it (KStr "name") = Ok name →
  py_getitem it (KStr "login") = Ok login →
  py_getitem login (KStr "username") = Ok u → py_getitem login (KStr "password") = Ok p →
  py_getitem login (KStr "totp") = Ok t →
  py_get login "uris" (JArr []) = Ok JNull →
  format it = Err (TypeError "object of type 'NoneType' has no len()").
Proof.
  intros Hty Hn Hl Hu Hp Ht Huris. unfold format. rewrite Hty, bind_Ok, Hn, bind_Ok.
  unfold type_fields. cbn [String.eqb Ascii.eqb Bool.eqb]. rewrite Hl, bind_Ok.
  unfold format_login. cbn [copy_fields login_fields].
  by rewrite Hu, !bind_Ok, Hp, !bind_Ok, Ht, !bind_Ok, Huris, !bind_Ok.
Qed.

(** C27: The type code is compared with [==] to the integers 1 to 4,
    and [bool] is a subclass of [int]: an item whose [type] is [true]
    is a login, and one whose [type] is [false] raises
    [Exception('Unknown item type: False')] from both [format] and
    [passname]. *)
Theorem bool_type_codes it :
  (py_getitem it (KStr "type") = Ok (JBool true) → item_type it = Ok "login") ∧
  (py_getitem it (KStr "type") = Ok (JBool false) →
   format it = Err (Exception "Unknown item type: False") ∧
   ∀ i n, py_getitem it (KStr "id") = Ok (JStr i) → py_getitem it (KStr "name") = Ok (JStr n) →
     passname it = Err (Exception "Unknown item type: False")).
Proof.
  split; intros Ht.
  - unfold item_type. by rewrite Ht.
  - assert (Hty : item_type it = Err (Exception "Unknown item type: False")).
    { unfold item_type. by rewrite Ht. }
    split; [unfold format; by rewrite Hty|].
    intros i n Hi Hn. unfold passname. rewrite Hi, bind_Ok. cbn.
    destruct (py_split_head "-" i) as [ws ->]. cbn. by rewrite Hn, bind_Ok, Hty.
Qed.

(** C29: Every body [format] returns ends with a newline. *)
Theorem format_trailing_newline it b : format it = Ok b → py_endswith b nl = true.
Proof.
  rewrite format_ops. intros H. case_res_in H; [|done]. res_inv.
  apply py_endswith_app.
Qed.

(** ** Concrete items and witnesses *)

(** The two items of the end-to-end example of the specification. *)
Definition ex_bank : json :=
  JObj [("id", JStr "abc12345-6789-4def-8000-000000000001"); ("name", JStr "My Bank");
        ("type", JInt 1);
        ("login", JObj [("username", JStr "me"); ("password", JStr "s3cret");
                        ("totp", JNull);
                        ("uris", JArr [JObj [("uri", JStr "https://bank.example")]])]);
        ("notes", JNull)].

Definition ex_wifi : json :=
  JObj [("id", JStr "def67890-1111-4222-8333-444444444444"); ("name", JStr "Wifi");
        ("type", JInt 2); ("notes", JStr "WPA2")].

Lemma passname_shape_witness :
  passname ex_bank = Ok "my-bank-login-abc1" ∧
  ∃ body ty h, "my-bank-login-abc1" = body +:+ "-" +:+ ty +:+ "-" +:+ h ∧
    ty ∈ ["login"; "note"; "card"; "identity"] ∧
    str_forall not_name_sep body = true ∧ String.length h ≤ 4 ∧ str_has "-" h = false.
Proof. split; [reflexivity | apply (passname_shape ex_bank); reflexivity]. Defined.

Lemma unknown_type_fails_witness :
  let it := JObj [("id", JStr "0a1b"); ("name", JStr "x"); ("type", JInt 5); ("notes", JNull)] in
  format it = Err (Exception ("Unknown item type: " +:+ py_str (JInt 5))) ∧
  passname it = Err (Exception ("Unknown item type: " +:+ py_str (JInt 5))).
Proof.
  cbv zeta. destruct (unknown_type_fails
    (JObj [("id", JStr "0a1b"); ("name", JStr "x"); ("type", JInt 5); ("notes", JNull)])
    (JInt 5) eq_refl ltac:(repeat constructor)) as [Hf Hp].
  split; [exact Hf | exact (Hp "0a1b" "x" eq_refl eq_refl)].
Defined.

Lemma format_login_urls_witness :
  format_login (JObj [("username", JStr "u"); ("password", JNull); ("totp", JNull);
                      ("uris", JArr [JObj [("uri", JStr "a")]; JObj [("uri", JStr "b")]])]) =
  Ok ([("Username", JStr "u"); ("Password", JNull); ("TOTP", JNull)] ++
      imap (λ i x, ("URL " +:+ str_of_nat (S i), x)) [JStr "a"; JStr "b"]) ∧
  imap (λ i x, ("URL " +:+ str_of_nat (S i), x)) [JStr "a"; JStr "b"] =
    [("URL 1", JStr "a"); ("URL 2", JStr "b")].
Proof.
  split; [|reflexivity].
  exact (format_login_urls (JObj [("username", JStr "u"); ("password", JNull); ("totp", JNull);
                      ("uris", JArr [JObj [("uri", JStr "a")]; JObj [("uri", JStr "b")]])])
    (JStr "u") JNull JNull
    [JObj [("uri", JStr "a")]; JObj [("uri", JStr "b")]] [JStr "a"; JStr "b"]
    eq_refl eq_refl eq_refl eq_refl eq_refl).
Defined.

Lemma format_trailing_newline_witness :
  format ex_wifi = Ok ("Name: Wifi" +:+ nl +:+ "Notes: WPA2" +:+ nl) ∧
  py_endswith ("Name: Wifi" +:+ nl +:+ "Notes: WPA2" +:+ nl) nl = true.
Proof. split; [reflexivity | apply (format_trailing_newline ex_wifi); reflexivity]. Defined.

(** The specification's example: the bank login becomes
    [my-bank-login-abc1] and the note [wifi-note-def6]. *)
Example spec_example_names :
  passname ex_bank = Ok "my-bank-login-abc1" ∧ passname ex_wifi = Ok "wifi-note-def6".
Proof. split; reflexivity. Qed.

(** A card whose expiry month and year are null. *)
Definition null_card : json :=
  JObj [("cardholderName", JNull); ("brand", JNull); ("number", JNull);
        ("expMonth", JNull); ("expYear", JNull); ("code", JNull)].

Lemma format_card_fields_witness :
  format_card null_card =
    Ok [("Card Holder Name", JNull); ("Card Brand", JNull); ("Card Number", JNull);
        ("Card Expire MM/YYYY", JStr (py_str JNull +:+ "/" +:+ py_str JNull));
        ("Card Security Code", JNull)] ∧
  py_str JNull +:+ "/" +:+ py_str JNull = "None/None".
Proof.
  split; [|reflexivity].
  apply (format_card_fields null_card JNull JNull JNull JNull JNull JNull); reflexivity.
Defined.

Lemma enumerate_labels_witness :
  let fields := [JObj [("name", JStr "pin"); ("value", JStr "1")]] in
  let atts := [JObj [("fileName", JStr "f.txt"); ("sizeName", JStr "1 KB"); ("url", JStr "u")]] in
  fold_enum custom_field_step 0 fields [] = Ok [("[Custom Field 1] pin", JStr "1")] ∧
  fold_enum attachment_step 0 atts [] =
    Ok [("Attachment 0 File Name", JStr "f.txt"); ("Attachment 0 File Size", JStr "1 KB");
        ("Attachment 0 URL", JStr "u")].
Proof.
  cbv zeta.
  destruct (enumerate_labels [JObj [("name", JStr "pin"); ("value", JStr "1")]]
              [(JStr "pin", JStr "1")]
              [JObj [("fileName", JStr "f.txt"); ("sizeName", JStr "1 KB"); ("url", JStr "u")]]
              [(JStr "f.txt", JStr "1 KB", JStr "u")] [])
    as [H1 H2]; [repeat constructor | repeat constructor |].
  split; [rewrite H1 | rewrite H2]; reflexivity.
Defined.

(** A login whose [uris] is [null]. *)
Definition null_uris_item : json :=
  JObj [("id", JStr "a"); ("name", JStr "N"); ("type", JInt 1); ("notes", JNull);
        ("login", JObj [("username", JNull); ("password", JNull); ("totp", JNull);
                        ("uris", JNull)])].

Lemma login_null_uris_type_error_witness :
  format null_uris_item = Err (TypeError "object of type 'NoneType' has no len()").
Proof.
  apply (login_null_uris_type_error null_uris_item (JStr "N")
           (JObj [("username", JNull); ("password", JNull); ("totp", JNull); ("uris", JNull)])
           JNull JNull JNull); reflexivity.
Defined.

Lemma bool_type_codes_witness :
  item_type (JObj [("type", JBool true)]) = Ok "login" ∧
  format (JObj [("id", JStr "a-b"); ("name", JStr "N"); ("type", JBool false)]) =
    Err (Exception "Unknown item type: False").
Proof.
  split.
  - apply (proj1 (bool_type_codes (JObj [("type", JBool true)]))). reflexivity.
  - apply (proj2 (bool_type_codes (JObj [("id", JStr "a-b"); ("name", JStr "N");
                                         ("type", JBool false)]))). reflexivity.
Defined.

End BWItem.
