(* ===== verification/Main.v ===== *)
(** * The orchestrator: [main] (lines 154-193)

    [main] prints a banner, unlocks, syncs and lists the source store,
    snapshots the names of the destination store, decodes the item list,
    and for each item in order computes its name and body, deletes an
    existing entry of that name and inserts the new body.  It then
    prints the names that were in the store before the run and were not
    produced by it.  The section's context is the [pass] tool (through
    its interface), the environment and the behaviour of [bw]. *)

From S2P Require Import Prelude PyStr PyDict PyJson Utf8 JsonLoads FileSys Cli PassCli BWCli BWItem.

Module Main.
Section main.
Context `{Hpass : PassTool} (env : Env) (server : BwServer).

Definition stars : string := "************************************************************".

(** Lines 155-159 *)
Definition banner_lines : list string :=
  [stars; "Note: To ensure a full refresh, logout and login again with:";
   tab +:+ "bw logout"; tab +:+ "bw login"; stars].

Fixpoint print_all (ls : list string) : M () :=
  match ls with
  | [] => mret ()
  | l :: ls' => print l ;; print_all ls'
  end.

(** One turn of the loop of lines 174-184. *)
Definition sync_item (it : json) : M () :=
  name <- st_lift (BWItem.passname it) ;;
  content <- st_lift (BWItem.format it) ;;
  fs <- get_fs ;;
  (if PassCli.pass_exists env name fs then
     fs' <- st_lift (PassCli.remove_force env name fs) ;;
     put_fs fs' ;;
     print ("Removed existing pass entry " +:+ name)
   else mret ()) ;;
  insert_response <- PassCli.insert env name content ;;
  let content_bytes := Utf8.encode content in
  print ("Inserted " +:+ str_of_nat (length content_bytes) +:+ " bytes into " +:+ name).

(** [for bw_item in bw_items: ...] (lines 174-184) *)
Fixpoint sync_items (its : list json) : M () :=
  match its with
  | [] => mret ()
  | it :: its' => sync_item it ;; sync_items its'
  end.

Definition warning_line : string :=
  "WARNING: Ignored the following password entries. Possibly deleted from bitwarden?".

(** [[entry for entry in existing_pass_entries if not entry in synced_pass_entries]] *)
Definition ignored_entries (existing synced : list string) : list string :=
  List.filter (λ e, negb (bool_decide (e ∈ synced))) existing.

(** Lines 186-192 *)
Definition report (existing : list string) (its : list json) : M () :=
  synced <- st_lift (map_res BWItem.passname its) ;;
  let ignored := ignored_entries existing synced in
  if 0 <? length ignored then
    print warning_line ;; print_all (map (λ e, tab +:+ e) ignored)
  else mret ().

(** Lines 166-192 of [main], once [unlock] has returned [session]. *)
Definition main_session (session : string) : M () :=
  print "Syncing bitwarden passwords" ;;
  BWCli.sync server session ;;
  print "Listing bitwarden items" ;;
  items <- BWCli.list_items server session ;;
  fs <- get_fs ;;
  existing <- st_lift (PassCli.list_pass_names env fs) ;;
  parsed <- st_lift (JsonLoads.json_loads items) ;;
  bw_items <- st_lift (py_iter parsed) ;;
  sync_items bw_items ;;
  report existing bw_items.

(** [main] (lines 154-165), with [fuel] turns for the unlock loop. *)
Definition main (fuel : nat) : M () :=
  print_all banner_lines ;;
  print "Unlocking bitwarden" ;;
  session <- BWCli.unlock server fuel ;;
  main_session session.

(** ** The store the run leaves *)

Definition entry_path (n : string) : path := store_path env ++ [n +:+ ".gpg"].

(** The files after writing the bodies [es] (name, body), in order. *)
Definition apply_entries (m : gmap path string) (es : list (string * string)) :
    gmap path string :=
  foldl (λ m nc, <[entry_path nc.1 := nc.2]> m) m es.

Definition store_prefixes : list path :=
  map (λ k, take k (store_path env)) (seq 1 (length (store_path env))).

(** The store directory and its ancestors are not files, and no path is
    both a file and a directory. *)
Definition store_ok (fs : FS) : Prop :=
  Forall (λ q, is_file fs q = false) store_prefixes ∧
  ∀ p, is_file fs p = true → is_dir fs p = false.

(** [store_ok] by evaluation. *)
Definition store_ok_b (fs : FS) : bool :=
  forallb (λ q, negb (is_file fs q)) store_prefixes &&
  bool_decide (map_Forall (λ p _, is_dir fs p = false) (fs_files fs)).

Lemma store_ok_b_spec fs : store_ok_b fs = true → store_ok fs.
Proof.
  unfold store_ok_b. rewrite andb_true_iff, forallb_forall, bool_decide_eq_true.
  intros [Hpre Hdis]. split.
  - apply Forall_forall. intros q Hq%list_elem_of_In. apply negb_true_iff, Hpre, Hq.
  - intros p Hp. unfold is_file in Hp. apply bool_decide_eq_true in Hp as [c Hc].
    exact (Hdis p c Hc).
Qed.

Lemma ancestors_entry x : ancestors (store_path env ++ [x]) = store_prefixes.
Proof.
  unfold ancestors, store_prefixes. rewrite length_app. cbn [length].
  replace (length (store_path env) + 1 - 1) with (length (store_path env)) by lia.
  apply map_ext_in. intros k Hk. apply in_seq in Hk. apply take_app_le. lia.
Qed.

Lemma is_file_delete fs p q :
  is_file (mkFS (delete p (fs_files fs)) (fs_dirs fs)) q = true → is_file fs q = true.
Proof.
  unfold is_file. cbn. rewrite !bool_decide_eq_true. rewrite lookup_delete.
  by case_decide.
Qed.

Lemma store_ok_delete fs p : store_ok fs → store_ok (mkFS (delete p (fs_files fs)) (fs_dirs fs)).
Proof.
  intros [Hpre Hdis]. split.
  - eapply Forall_impl; [exact Hpre|]. intros q Hq. cbv beta in Hq |- *.
    apply not_true_iff_false. intros E. apply is_file_delete in E. congruence.
  - intros q Hq. apply is_file_delete in Hq. specialize (Hdis q Hq).
    unfold is_dir in *. done.
Qed.

Lemma store_prefixes_short q : q ∈ store_prefixes → length q ≤ length (store_path env).
Proof.
  unfold store_prefixes. intros Hq. apply list_elem_of_fmap in Hq as (k & -> & _).
  rewrite length_take. lia.
Qed.

Lemma entry_not_prefix x : store_path env ++ [x] ∉ store_prefixes.
Proof.
  intros Hin. apply store_prefixes_short in Hin. rewrite length_app in Hin. cbn in Hin. lia.
Qed.

Lemma store_ok_write fs x c :
  store_ok fs → store_ok (fs_write (store_path env ++ [x]) c fs).
Proof.
  intros [Hpre Hdis]. unfold fs_write.
  destruct (fs_writable fs (store_path env ++ [x])) eqn:Hw; [|by split].
  unfold fs_writable in Hw. apply andb_true_iff in Hw as [_ Hnd]. apply negb_true_iff in Hnd.
  rewrite ancestors_entry. pose proof (entry_not_prefix x) as Hnp.
  assert (Hfile : ∀ q, is_file (mkFS (<[store_path env ++ [x] := c]> (fs_files fs))
                          (list_to_set store_prefixes ∪ fs_dirs fs)) q = true →
                       q = store_path env ++ [x] ∨ is_file fs q = true).
  { intros q. unfold is_file. cbn. rewrite !bool_decide_eq_true, lookup_insert.
    case_decide; [by left | by right]. }
  split.
  - rewrite Forall_forall in Hpre |- *. intros q Hq.
    apply not_true_iff_false. intros E. apply Hfile in E as [->|E]; [done|].
    specialize (Hpre q Hq). cbv beta in Hpre. congruence.
  - intros q Hq. apply Hfile in Hq as [->|Hq].
    + unfold is_dir in *. cbn. rewrite orb_false_iff in Hnd |- *. destruct Hnd as [Hr Hd].
      split; [done|]. apply bool_decide_eq_false. apply bool_decide_eq_false in Hd.
      rewrite elem_of_union, elem_of_list_to_set. tauto.
    + pose proof (Hdis q Hq) as Hnd'. unfold is_dir in *. cbn.
      rewrite orb_false_iff in Hnd' |- *. destruct Hnd' as [Hr Hd]. split; [done|].
      apply bool_decide_eq_false. apply bool_decide_eq_false in Hd.
      rewrite elem_of_union, elem_of_list_to_set. intros [Hin|Hin]; [|done].
      rewrite Forall_forall in Hpre. specialize (Hpre q Hin). cbv beta in Hpre. congruence.
Qed.

(** ** The files a sequence of writes leaves *)

Lemma entry_path_inj n1 n2 : entry_path n1 = entry_path n2 → n1 = n2.
Proof.
  unfold entry_path. intros H. apply app_inj_tail in H as [_ H].
  by eapply str_app_inv_r.
Qed.

Lemma apply_entries_snoc m es nc :
  apply_entries m (es ++ [nc]) = <[entry_path nc.1 := nc.2]> (apply_entries m es).
Proof. unfold apply_entries. by rewrite foldl_app. Qed.

(** The file at [p] holds the last body written there, or what it held. *)
Lemma lookup_apply_entries m es p :
  apply_entries m es !! p =
  match last (filter (λ nc : string * string, entry_path nc.1 = p) es) with
  | Some nc => Some nc.2
  | None => m !! p
  end.
Proof.
  induction es as [|nc es IH] using rev_ind; [done|].
  rewrite apply_entries_snoc, filter_app. cbn [filter list_filter].
  destruct (decide (entry_path nc.1 = p)) as [<-|Hp].
  - by rewrite last_snoc, lookup_insert_eq.
  - by rewrite app_nil_r, lookup_insert_ne.
Qed.

Lemma filter_entries_nil p es :
  (∀ nc, nc ∈ es → entry_path nc.1 ≠ p) →
  filter (λ nc : string * string, entry_path nc.1 = p) es = [].
Proof.
  induction es as [|nc es IH]; intros Hp; [done|].
  rewrite filter_cons_False by (apply Hp; set_solver). apply IH. set_solver.
Qed.

(** With distinct names, an entry holds the body written for it. *)
Lemma apply_entries_last m es n c :
  NoDup es.*1 → (n, c) ∈ es → apply_entries m es !! entry_path n = Some c.
Proof.
  intros Hnd Hin. apply list_elem_of_split in Hin as (pre & post & ->).
  rewrite fmap_app, fmap_cons, NoDup_app, NoDup_cons in Hnd. destruct Hnd as (_ & _ & Hn & _).
  rewrite lookup_apply_entries, filter_app, filter_cons_True by done.
  rewrite (filter_entries_nil _ post), last_snoc; [done|].
  intros [n' c'] Hin E. apply entry_path_inj in E. cbn in E. subst n'.
  apply Hn, list_elem_of_fmap. by exists (n, c').
Qed.

(** A path that is no written entry keeps its content. *)
Lemma apply_entries_other m es p :
  p ∉ (λ nc : string * string, entry_path nc.1) <$> es → apply_entries m es !! p = m !! p.
Proof.
  intros Hp. rewrite lookup_apply_entries, filter_entries_nil; [done|].
  intros nc Hin E. apply Hp, list_elem_of_fmap. by exists nc.
Qed.

(** Writing the same entries again changes nothing. *)
Lemma apply_entries_idem m es : apply_entries (apply_entries m es) es = apply_entries m es.
Proof.
  apply map_eq. intros p. rewrite !lookup_apply_entries.
  by destruct (last _).
Qed.

Context `{Hspec : !PassToolSpec}.

Lemma writable_entry fs n :
  store_ok fs → is_dir fs (entry_path n) = false → fs_writable fs (entry_path n) = true.
Proof.
  intros [Hpre _] Hnd. unfold fs_writable. rewrite Hnd, andb_true_r. apply negb_true_iff.
  unfold entry_path. rewrite ancestors_entry.
  apply not_true_iff_false. intros E. apply existsb_exists in E as (q & Hq & Hf).
  apply list_elem_of_In in Hq. rewrite Forall_forall in Hpre. specialize (Hpre q Hq).
  cbv beta in Hpre. congruence.
Qed.

(** [pass insert] of a flat name writes the entry's file and creates
    the store directory and its ancestors. *)
Lemma insert_flat_fs fs n c :
  env_ok env → flat_name n → store_ok fs → is_dir fs (entry_path n) = false →
  pass_insert env n c fs =
  mkFS (<[entry_path n := c]> (fs_files fs)) (list_to_set store_prefixes ∪ fs_dirs fs).
Proof.
  intros He Hflat Hok Hnd.
  rewrite pass_insert_writes by (by apply flat_not_sneaky).
  rewrite pass_entry_path_flat by done. fold (entry_path n).
  unfold fs_write. rewrite writable_entry by done.
  unfold entry_path. by rewrite ancestors_entry.
Qed.

Lemma insert_flat fs n c :
  env_ok env → flat_name n → store_ok fs → is_dir fs (entry_path n) = false →
  fs_files (pass_insert env n c fs) = <[entry_path n := c]> (fs_files fs) ∧
  store_ok (pass_insert env n c fs).
Proof.
  intros He Hflat Hok Hnd. split; [by rewrite insert_flat_fs|].
  rewrite pass_insert_writes by (by apply flat_not_sneaky).
  rewrite pass_entry_path_flat by done. by apply store_ok_write.
Qed.

Lemma store_path_prefix : store_path env ≠ [] → store_path env ∈ store_prefixes.
Proof.
  intros Hne. unfold store_prefixes. apply list_elem_of_fmap.
  exists (length (store_path env)). rewrite take_ge by lia. split; [done|].
  apply list_elem_of_In, in_seq. destruct (store_path env); [done|]. cbn. lia.
Qed.

(** One turn of the loop, once the item's name and body are known. *)
Lemma sync_item_run it n c w :
  BWItem.passname it = Ok n → BWItem.format it = Ok c →
  sync_item it w =
  if PassCli.pass_exists env n (w_fs w) then
    match PassCli.remove_force env n (w_fs w) with
    | Ok fs' =>
        (Done (), mkWorld (pass_insert env n c fs')
                    (w_out w ++ ["Removed existing pass entry " +:+ n;
                                 "Inserted " +:+ str_of_nat (length (Utf8.encode c)) +:+
                                 " bytes into " +:+ n])
                    (w_unlock_calls w))
    | Err e => (Raised e, w)
    end
  else
    (Done (), mkWorld (pass_insert env n c (w_fs w))
                (w_out w ++ ["Inserted " +:+ str_of_nat (length (Utf8.encode c)) +:+
                             " bytes into " +:+ n])
                (w_unlock_calls w)).
Proof.
  intros Hn Hc. unfold sync_item. rewrite Hn, Hc. st_simpl. rewrite bind_if.
  destruct (PassCli.pass_exists env n (w_fs w)).
  - destruct (PassCli.remove_force env n (w_fs w)); st_simpl; [|by destruct w].
    cbn. by rewrite <- app_assoc.
  - st_simpl. by destruct w.
Qed.

Lemma sync_item_done it n c w w' :
  env_ok env → BWItem.passname it = Ok n → BWItem.format it = Ok c → flat_name n →
  store_ok (w_fs w) → sync_item it w = (Done (), w') →
  fs_files (w_fs w') = <[entry_path n := c]> (fs_files (w_fs w)) ∧ store_ok (w_fs w').
Proof.
  intros He Hn Hc Hflat Hok Hrun. unfold sync_item in Hrun. rewrite Hn, Hc in Hrun.
  unfold PassCli.pass_exists in Hrun.
  st_simpl_in Hrun. rewrite (get_file_path_flat env n He Hflat) in Hrun.
  fold (entry_path n) in Hrun. rewrite bind_if in Hrun.
  destruct (os_path_exists (w_fs w) (entry_path n)) eqn:Hex.
  - unfold PassCli.remove_force, os_remove in Hrun.
    destruct (String.eqb_spec (PassCli.get_file_path env n) EmptyString) as [E|_];
      [by apply get_file_path_nonempty in E|].
    rewrite (get_file_path_flat env n He Hflat) in Hrun. fold (entry_path n) in Hrun.
    destruct (is_file (w_fs w) (entry_path n)) eqn:Hf.
    + st_simpl_in Hrun. injection Hrun as <-. cbn [w_fs].
      destruct (insert_flat (mkFS (delete (entry_path n) (fs_files (w_fs w))) (fs_dirs (w_fs w)))
                  n c He Hflat (store_ok_delete _ _ Hok)) as [Hfiles Hok'].
      { destruct Hok as [_ Hdis]. specialize (Hdis _ Hf). by unfold is_dir in *. }
      split; [|done]. rewrite Hfiles. cbn. apply insert_delete_eq.
    + unfold os_path_exists in Hex. rewrite Hf in Hex. cbn in Hex. rewrite Hex in Hrun.
      st_simpl_in Hrun. discriminate Hrun.
  - st_simpl_in Hrun. injection Hrun as <-. cbn [w_fs].
    unfold os_path_exists in Hex. apply orb_false_iff in Hex as [_ Hnd].
    destruct (insert_flat (w_fs w) n c He Hflat Hok Hnd) as [Hfiles Hok'].
    by split.
Qed.

Lemma sync_items_done its names bodies w w' :
  env_ok env → map_res BWItem.passname its = Ok names → map_res BWItem.format its = Ok bodies →
  Forall flat_name names → store_ok (w_fs w) → sync_items its w = (Done (), w') →
  fs_files (w_fs w') = apply_entries (fs_files (w_fs w)) (zip names bodies) ∧ store_ok (w_fs w').
Proof.
  intros He. revert names bodies w.
  induction its as [|it its IH]; intros names bodies w Hn Hb Hflat Hok Hrun; cbn in Hn, Hb.
  - res_inv. cbn in Hrun. by injection Hrun as <-.
  - case_res_in Hn; [|done]. case_res_in Hn; [|done]. res_inv.
    case_res_in Hb; [|done]. case_res_in Hb; [|done]. res_inv.
    apply Forall_cons in Hflat as [Hf Hflat].
    cbn [sync_items] in Hrun. apply st_bind_Done_inv in Hrun as ([] & w1 & H1 & H2).
    destruct (sync_item_done _ _ _ _ _ He Hr Hr1 Hf Hok H1) as [Hf1 Hok1].
    destruct (IH _ _ _ eq_refl eq_refl Hflat Hok1 H2) as [Hf2 Hok2].
    split; [|done]. rewrite Hf2, Hf1. reflexivity.
Qed.

(** ** Decomposing a complete run *)

Lemma print_all_run ls w :
  print_all ls w = (Done (), mkWorld (w_fs w) (w_out w ++ ls) (w_unlock_calls w)).
Proof.
  revert w. induction ls as [|l ls IH]; intros w; cbn [print_all].
  - destruct w. cbn. by rewrite app_nil_r.
  - rewrite bind_print, IH. cbn. by rewrite <- app_assoc.
Qed.

Lemma unlock_keeps_fs fuel w r w' : BWCli.unlock server fuel w = (r, w') → w_fs w' = w_fs w.
Proof.
  revert w. induction fuel as [|fuel IH]; intros w Hu.
  - cbn in Hu. by injection Hu as _ <-.
  - rewrite BWCli.unlock_S in Hu. destruct (BWCli.unlock_text _ _) as [s|e].
    + destruct (0 <? _); [by injection Hu as _ <- | by apply IH in Hu].
    + by injection Hu as _ <-.
Qed.

Lemma sync_items_names its w w' :
  sync_items its w = (Done (), w') →
  ∃ names bodies, map_res BWItem.passname its = Ok names ∧ map_res BWItem.format its = Ok bodies.
Proof.
  revert w. induction its as [|it its IH]; intros w Hrun; [by exists [], []|].
  cbn [sync_items] in Hrun. apply st_bind_Done_inv in Hrun as ([] & w1 & H1 & H2).
  destruct (IH _ H2) as (names & bodies & Hn & Hb).
  unfold sync_item in H1.
  destruct (BWItem.passname it) as [n|e] eqn:En; [|st_simpl_in H1; discriminate H1].
  destruct (BWItem.format it) as [c|e] eqn:Ec; [|st_simpl_in H1; discriminate H1].
  exists (n :: names), (c :: bodies). cbn. by rewrite En, Hn, Ec, Hb.
Qed.

Lemma main_done_inv fuel w w' :
  main fuel w = (Done (), w') →
  ∃ session text parsed its existing w2 w3,
    session ≠ EmptyString ∧ Utf8.decode (bw_list_out server session) = Ok text ∧
    JsonLoads.json_loads text = Ok parsed ∧
    py_iter parsed = Ok its ∧ PassCli.list_pass_names env (w_fs w) = Ok existing ∧
    w_fs w2 = w_fs w ∧ sync_items its w2 = (Done (), w3) ∧ report existing its w3 = (Done (), w').
Proof.
  unfold main. intros Hrun.
  apply st_bind_Done_inv in Hrun as ([] & w0 & H0 & Hrun). rewrite print_all_run in H0.
  injection H0 as <-.
  st_simpl_in Hrun. apply st_bind_Done_inv in Hrun as (session & w1 & H1 & Hrun).
  pose proof (unlock_keeps_fs _ _ _ _ H1) as Hfs1. cbn in Hfs1.
  pose proof (BWCli.unlock_Done_nonempty server _ _ _ _ H1) as Hs.
  unfold main_session in Hrun. st_simpl_in Hrun.
  destruct (Utf8.decode (bw_list_out server session)) as [text|e] eqn:Ht;
    st_simpl_in Hrun; [|discriminate Hrun].
  destruct (PassCli.list_pass_names env _) as [existing|e] eqn:Hl; st_simpl_in Hrun;
    [|discriminate Hrun].
  destruct (JsonLoads.json_loads text) as [parsed|e] eqn:Hb;
    st_simpl_in Hrun; [|discriminate Hrun].
  destruct (py_iter parsed) as [its|e] eqn:Hi; st_simpl_in Hrun; [|discriminate Hrun].
  apply st_bind_Done_inv in Hrun as ([] & w3 & H3 & H4).
  cbn [w_fs] in Hl. rewrite Hfs1 in Hl.
  eexists session, text, parsed, its, existing, _, w3.
  split_and!; [done | done | done | done | done | | exact H3 | exact H4]. cbn. exact Hfs1.
Qed.

(** ** The report of lines 186-192 *)

(** The lines printed for the entries [ignored]. *)
Definition report_lines (ignored : list string) : list string :=
  if 0 <? length ignored then warning_line :: map (λ e, tab +:+ e) ignored else [].

Lemma report_run existing its w :
  report existing its w =
  match map_res BWItem.passname its with
  | Ok synced =>
      (Done (), mkWorld (w_fs w) (w_out w ++ report_lines (ignored_entries existing synced))
                  (w_unlock_calls w))
  | Err e => (Raised e, w)
  end.
Proof.
  unfold report. destruct (map_res BWItem.passname its) as [synced|e]; st_simpl; [|done].
  unfold report_lines. destruct (0 <? _).
  - rewrite bind_print, print_all_run. cbn. by rewrite <- app_assoc.
  - destruct w. cbn. by rewrite app_nil_r.
Qed.

Lemma elem_of_ignored_entries existing synced e :
  e ∈ ignored_entries existing synced ↔ e ∈ existing ∧ e ∉ synced.
Proof.
  unfold ignored_entries. rewrite list_elem_of_In, filter_In, <- list_elem_of_In.
  by rewrite negb_true_iff, bool_decide_eq_false.
Qed.

(** [its] is the list of items [bw list items] gives for a session
    token [unlock] can return. *)
Definition listed_items (its : list json) : Prop :=
  ∃ session text parsed, session ≠ EmptyString ∧
                         Utf8.decode (bw_list_out server session) = Ok text ∧
                         JsonLoads.json_loads text = Ok parsed ∧ py_iter parsed = Ok its.

(** When [bw list items] prints, for every session token, the
    UTF-8 bytes of the text [JSON.stringify] gives for a list of items
    (with blanks after it), the items [main] reads are exactly that
    list: decoding composed with the printer of [bw] is the identity on
    what [bw] lists. *)
Theorem listed_items_dumps its its' w :
  JsonLoads.json_wfb (JArr its) = true → str_forall JsonLoads.is_ws w = true →
  (∀ s, s ≠ EmptyString →
        bw_list_out server s = Utf8.encode (JsonLoads.json_dumps (JArr its) +:+ w)) →
  listed_items its' → its' = its.
Proof.
  intros Hwf Hw Hout (s & text & parsed & Hs & Ht & Hb & Hi).
  rewrite Hout, Utf8.decode_encode in Ht by done. injection Ht as <-.
  unfold JsonLoads.json_loads in Hb.
  rewrite JsonLoads.loads_with_dumps in Hb by (done || apply JsonLoads.dumps_fuel).
  injection Hb as <-. by injection Hi.
Qed.

(** A complete run writes the bodies of the listed items, in order. *)
Lemma main_done_store fuel w w' :
  env_ok env → store_ok (w_fs w) → main fuel w = (Done (), w') →
  ∃ its names bodies,
    listed_items its ∧
    map_res BWItem.passname its = Ok names ∧ map_res BWItem.format its = Ok bodies ∧
    (Forall flat_name names →
     fs_files (w_fs w') = apply_entries (fs_files (w_fs w)) (zip names bodies) ∧
     store_ok (w_fs w')).
Proof.
  intros He Hok Hrun.
  destruct (main_done_inv _ _ _ Hrun)
    as (session & text & parsed & its & existing & w2 & w3 & Hs & Ht & Hb & Hi & _ & Hfs2 & H3 & H4).
  destruct (sync_items_names _ _ _ H3) as (names & bodies & Hn & Hc).
  rewrite report_run, Hn in H4. injection H4 as <-. cbn [w_fs].
  exists its, names, bodies. split_and!; [by exists session, text, parsed | done | done |].
  intros Hflat. rewrite <- Hfs2 in Hok |- *.
  by eapply sync_items_done.
Qed.

Lemma fst_zip_names its names bodies :
  map_res BWItem.passname its = Ok names → map_res BWItem.format its = Ok bodies →
  (zip names bodies).*1 = names.
Proof.
  intros Hn Hc. apply fst_zip.
  apply map_res_Ok_length in Hn, Hc. lia.
Qed.

Lemma sync_items_app l1 l2 w :
  sync_items (l1 ++ l2) w = (sync_items l1 ;; sync_items l2) w.
Proof.
  revert w. induction l1 as [|it l1 IH]; intros w; [done|].
  cbn [app sync_items]. rewrite st_bind_assoc. unfold mbind at 1 2, st_bind.
  destruct (sync_item it w) as [[[]| |] w1]; [by rewrite IH | done..].
Qed.

(** ** Termination and early errors *)

Lemma print_all_total ls : total (print_all ls).
Proof. induction ls; cbn [print_all]; total_tac. Qed.

Lemma sync_items_total its : total (sync_items its).
Proof. induction its; cbn [sync_items]; total_tac. Qed.

#[local] Hint Resolve print_all_total sync_items_total : total.

Lemma main_session_total session : total (main_session session).
Proof. unfold main_session. total_tac. Qed.

Lemma print_all_stable ls : stable out_prefix (print_all ls).
Proof. induction ls; cbn [print_all]; stable_tac. Qed.

Lemma sync_items_stable its : stable out_prefix (sync_items its).
Proof. induction its; cbn [sync_items]; stable_tac. Qed.

#[local] Hint Resolve print_all_stable sync_items_stable : stable.

(** [main] up to the unlock loop. *)
Lemma main_unlock fuel w :
  main fuel w =
  (s <- BWCli.unlock server fuel ;; main_session s)
    (mkWorld (w_fs w) (w_out w ++ banner_lines ++ ["Unlocking bitwarden"]) (w_unlock_calls w)).
Proof.
  unfold main. rewrite (st_bind_Done _ _ _ _ _ (print_all_run _ _)), bind_print.
  cbn [w_fs w_out w_unlock_calls]. by rewrite <- app_assoc.
Qed.

(** The hypotheses on [bw unlock] under which [unlock] returns the
    token [s], the decoded output of its [k]-th call. *)
Definition token_at (fuel k : nat) (s : string) (w : World) : Prop :=
  (∀ j, j < k → BWCli.unlock_text server (w_unlock_calls w + j) = Ok EmptyString) ∧
  BWCli.unlock_text server (w_unlock_calls w + k) = Ok s ∧ s ≠ EmptyString ∧ k < fuel.

Lemma main_token fuel k s w :
  token_at fuel k s w →
  main fuel w =
  main_session s
    (mkWorld (w_fs w) (w_out w ++ banner_lines ++ ["Unlocking bitwarden"] ++
                       replicate (S k) BWCli.unlock_line)
             (w_unlock_calls w + S k)).
Proof.
  intros (Hb & Hk & Hs & Hf). rewrite main_unlock.
  erewrite st_bind_Done by (apply (BWCli.unlock_first_token server fuel k); cbn; done).
  cbn [w_fs w_out w_unlock_calls]. by rewrite <- !app_assoc.
Qed.

(** C5: Once some call of [bw unlock --raw] prints a
    token within the fuel, [main] returns or raises: every other loop of
    the script is bounded by its input. *)
Theorem main_terminates fuel k s w : token_at fuel k s w → fst (main fuel w) ≠ Diverged.
Proof. intros Ht. rewrite (main_token _ _ _ _ Ht). apply main_session_total. Qed.

(** C26: Every command line [Cli.run] runs for [bw] is printed first, the
    session token included: once [bw unlock] prints a token [s] at its
    [k]-th call, the output of [main], whether it returns or raises,
    starts with the banner, the [k + 1] unlock command lines, and the
    lines [> bw --session s sync] and [> bw --session s list items]. *)
Theorem main_logs_session fuel k s w :
  token_at fuel k s w →
  w_out w ++ banner_lines ++ ["Unlocking bitwarden"] ++ replicate (S k) BWCli.unlock_line ++
    ["Syncing bitwarden passwords"; Cli.command_line ["bw"; "--session"; s; "sync"];
     "Listing bitwarden items"; Cli.command_line ["bw"; "--session"; s; "list"; "items"]]
  `prefix_of` w_out (snd (main fuel w)).
Proof.
  intros Ht. rewrite (main_token _ _ _ _ Ht). unfold main_session. st_simpl.
  match goal with |- _ `prefix_of` w_out (snd (?m ?w1)) =>
    transitivity (w_out w1); [| assert (Hm : stable out_prefix m) by stable_tac; apply Hm] end.
  cbn [w_out]. rewrite <- !app_assoc. reflexivity.
Qed.

(** C11: When the store cannot be listed, [main] raises that error
    after unlocking, syncing and listing the source store (whose bytes
    [list_items] decodes first, line 130, raising its own error if they
    are not UTF-8) and before [json.loads]: nothing is written. *)
Theorem main_store_error_first fuel k s w e :
  token_at fuel k s w → PassCli.list_pass_names env (w_fs w) = Err e →
  fst (main fuel w) =
    Raised (match Utf8.decode (bw_list_out server s) with Ok _ => e | Err e' => e' end) ∧
  w_fs (snd (main fuel w)) = w_fs w.
Proof.
  intros Ht He. rewrite (main_token _ _ _ _ Ht).
  unfold main_session. st_simpl.
  destruct (Utf8.decode _); st_simpl; cbn [w_fs]; [rewrite He; st_simpl|]; by split.
Qed.

(** C12: When the bytes [bw list items] prints do not decode as UTF-8
    (line 130), or [json.loads] rejects their text (line 172), [main]
    raises that [UnicodeDecodeError] or [JSONDecodeError] (or stops at
    what the decoders leave out of the model), before any entry is
    written. *)
Theorem main_rejects_non_json fuel k s w existing e :
  token_at fuel k s w → PassCli.list_pass_names env (w_fs w) = Ok existing →
  (text <- Utf8.decode (bw_list_out server s) ;; JsonLoads.json_loads text) = Err e →
  fst (main fuel w) = Raised e ∧ w_fs (snd (main fuel w)) = w_fs w.
Proof.
  intros Ht He Hj. rewrite (main_token _ _ _ _ Ht).
  unfold main_session. st_simpl.
  destruct (Utf8.decode _) as [text|e'] eqn:Hd; cbn in Hj; st_simpl; cbn [w_fs].
  - rewrite He, Hj. st_simpl. by split.
  - injection Hj as ->. by split.
Qed.

(** C32: When the text [bw list items] prints is cut short, a strict
    prefix of the [JSON.stringify] text of a list of items, [json.loads]
    raises and [main] stops there: no entry is written, so a truncated
    listing never syncs part of the vault. *)
Theorem main_rejects_truncated fuel k s w existing its s1 s2 :
  token_at fuel k s w → PassCli.list_pass_names env (w_fs w) = Ok existing →
  JsonLoads.json_wfb (JArr its) = true →
  bw_list_out server s = Utf8.encode s1 → s1 +:+ s2 = JsonLoads.json_dumps (JArr its) →
  s2 ≠ EmptyString →
  (∃ e, fst (main fuel w) = Raised e) ∧ w_fs (snd (main fuel w)) = w_fs w.
Proof.
  intros Ht He Hwf Hb Hs Hne.
  destruct (JsonLoads.json_loads_truncated _ _ _ Hwf Hs Hne) as [e Hj].
  rewrite (main_token _ _ _ _ Ht).
  unfold main_session. st_simpl.
  rewrite Hb, Utf8.decode_encode. st_simpl. cbn [w_fs]. rewrite He, Hj. st_simpl.
  split; [by eexists | done].
Qed.

(** ** Inserting and listing *)


(** ** What a complete run does *)



(** C3: When [main] returns, its output ends
    with the report of the entries it ignored, and an entry is ignored
    exactly when the store held [e.gpg] at its top level before the run
    and no listed item has the name [e]. *)
Theorem main_reports_orphans fuel w w' :
  main fuel w = (Done (), w') →
  ∃ its existing names,
    listed_items its ∧ PassCli.list_pass_names env (w_fs w) = Ok existing ∧
    map_res BWItem.passname its = Ok names ∧
    (∃ pre, w_out w' = pre ++ report_lines (ignored_entries existing names)) ∧
    ∀ e, e ∈ ignored_entries existing names ↔
         store_path env ++ [e +:+ ".gpg"] ∈ dom (fs_files (w_fs w)) ∪ fs_dirs (w_fs w) ∧
         e ∉ names.
Proof.
  intros Hrun.
  destruct (main_done_inv _ _ _ Hrun)
    as (session & text & parsed & its & existing & w2 & w3 & Hs & Ht & Hb & Hi & Hl & _ & H3 & H4).
  destruct (sync_items_names _ _ _ H3) as (names & bodies & Hn & _).
  rewrite report_run, Hn in H4. injection H4 as <-.
  exists its, existing, names. split_and!; [by exists session, text, parsed | done | done | |].
  - by exists (w_out w3).
  - intros e. by rewrite elem_of_ignored_entries, (elem_of_list_pass_names _ _ _ _ Hl).
Qed.

(** [bw list items] gives the same items for every session token. *)
Definition list_stable : Prop :=
  ∀ s1 s2, s1 ≠ EmptyString → s2 ≠ EmptyString → bw_list_out server s1 = bw_list_out server s2.

Lemma listed_items_stable its its' :
  list_stable → listed_items its → listed_items its' → its = its'.
Proof.
  intros Hst (s & t & p & Hs & Ht & Hp & Hi) (s' & t' & p' & Hs' & Ht' & Hp' & Hi').
  rewrite (Hst s' s Hs' Hs), Ht in Ht'. injection Ht' as <-. congruence.
Qed.

(** Every listed item's name is flat. *)
Definition items_flat : Prop :=
  ∀ its names, listed_items its → map_res BWItem.passname its = Ok names → Forall flat_name names.

(** C4: Running the script a second time on the
    store the first run left, with the same items listed, leaves the
    same files. *)
Theorem main_idempotent fuel1 fuel2 w w1 w2 :
  env_ok env → store_ok (w_fs w) → list_stable → items_flat →
  main fuel1 w = (Done (), w1) → main fuel2 w1 = (Done (), w2) →
  fs_files (w_fs w2) = fs_files (w_fs w1).
Proof.
  intros He Hok Hst Hfl H1 H2.
  destruct (main_done_store _ _ _ He Hok H1) as (its & names & bodies & Hl & Hn & Hc & Hf).
  destruct (Hf (Hfl _ _ Hl Hn)) as [Hf1 Hok1].
  destruct (main_done_store _ _ _ He Hok1 H2) as (its' & names' & bodies' & Hl' & Hn' & Hc' & Hf').
  assert (its' = its) as ->.
  { by apply (listed_items_stable its' its). }
  assert (names' = names) as -> by congruence. assert (bodies' = bodies) as -> by congruence.
  destruct (Hf' (Hfl _ _ Hl Hn)) as [-> _]. rewrite Hf1. apply apply_entries_idem.
Qed.

(** C10: An item whose name or body cannot
    be computed stops the loop with its exception: the entries written
    for the items before it stay, and no later item is written. *)
Theorem sync_items_stops_at_error pre it rest e w w1 :
  sync_items pre w = (Done (), w1) →
  (BWItem.passname it = Err e ∨ ∃ n, BWItem.passname it = Ok n ∧ BWItem.format it = Err e) →
  sync_items (pre ++ it :: rest) w = (Raised e, w1).
Proof.
  intros Hpre Hit. rewrite sync_items_app. erewrite st_bind_Done by exact Hpre.
  cbn [sync_items]. apply st_bind_Raised. unfold sync_item.
  destruct Hit as [-> | (n & -> & ->)]; by st_simpl.
Qed.

(** ** Names and files the loop does not guard *)

(** C24: An entry whose file is a directory: [os.path.exists] holds,
    so the loop calls [os.remove], which raises [IsADirectoryError]; the
    loop stops there, with the entries of the items before it written,
    and prints nothing for the item. *)
Theorem directory_entry_aborts pre it rest n c w w1 :
  env_ok env → store_ok (w_fs w1) → flat_name n →
  BWItem.passname it = Ok n → BWItem.format it = Ok c →
  sync_items pre w = (Done (), w1) → is_dir (w_fs w1) (entry_path n) = true →
  sync_items (pre ++ it :: rest) w =
    (Raised (OSError "IsADirectoryError" (PassCli.get_file_path env n)), w1).
Proof.
  intros He Hok Hflat Hn Hc Hpre Hd.
  rewrite sync_items_app. erewrite st_bind_Done by exact Hpre.
  cbn [sync_items]. apply st_bind_Raised. rewrite (sync_item_run it n c w1 Hn Hc).
  unfold PassCli.pass_exists, PassCli.remove_force, os_remove.
  rewrite get_file_path_flat by done. fold (entry_path n).
  assert (Hf : is_file (w_fs w1) (entry_path n) = false).
  { destruct (is_file _ _) eqn:E; [|done]. destruct Hok as [_ Hdis]. by rewrite (Hdis _ E) in Hd. }
  unfold os_path_exists. rewrite Hf, Hd. cbn.
  destruct (String.eqb_spec (PassCli.get_file_path env n) EmptyString) as [E|_];
    [by apply get_file_path_nonempty in E | done].
Qed.

(** C20: An item whose name is absolute, such as [/tmp/x]:
    [os.path.join] drops the store directory in front of it (line 138),
    so the loop deletes the file [name.gpg] wherever it is, and [pass],
    which writes under the store, does not put it back. *)
Theorem absolute_name_deletes_outside_store it n c w w' :
  BWItem.passname it = Ok n → BWItem.format it = Ok c → String.prefix "/" n = true →
  is_file (w_fs w) (resolve (env_cwd env) (n +:+ ".gpg")) = true →
  resolve (env_cwd env) (n +:+ ".gpg") ≠ pass_entry_path env n →
  sync_item it w = (Done (), w') →
  PassCli.get_file_path env n = n +:+ ".gpg" ∧
  fs_files (w_fs w') !! resolve (env_cwd env) (n +:+ ".gpg") = None.
Proof.
  intros Hn Hc Habs Hf Hne Hrun.
  assert (Hg : PassCli.get_file_path env n = n +:+ ".gpg").
  { unfold PassCli.get_file_path. by apply os_path_join_absolute, prefix_app_l. }
  split; [done|].
  rewrite (sync_item_run it n c w Hn Hc) in Hrun.
  unfold PassCli.pass_exists, PassCli.remove_force, os_remove, os_path_exists in Hrun.
  rewrite Hg, Hf in Hrun. cbn in Hrun.
  destruct (String.eqb_spec (n +:+ ".gpg") EmptyString) as [E|_];
    [by rewrite <- Hg in E; apply get_file_path_nonempty in E|].
  injection Hrun as <-. cbn [w_fs]. rewrite pass_insert_other by done.
  cbn. apply lookup_delete_eq.
Qed.

(** C21: An item whose name [pass] refuses as a sneaky path, such
    as [../x-note-abcd]: [pass insert] writes nothing, the loop may
    still have deleted the file the script computes for the name, and
    it prints [Inserted N bytes] all the same, since the answer of
    [pass] is not inspected. *)
Theorem sneaky_name_reported_not_written it n c w w' :
  BWItem.passname it = Ok n → BWItem.format it = Ok c → sneaky n = true →
  sync_item it w = (Done (), w') →
  fs_files (w_fs w') ⊆ fs_files (w_fs w) ∧
  last (w_out w') =
    Some ("Inserted " +:+ str_of_nat (length (Utf8.encode c)) +:+ " bytes into " +:+ n).
Proof.
  intros Hn Hc Hs Hrun. rewrite (sync_item_run it n c w Hn Hc) in Hrun.
  destruct (PassCli.pass_exists env n (w_fs w)).
  - destruct (PassCli.remove_force env n (w_fs w)) as [fs'|e] eqn:Er; [|discriminate Hrun].
    injection Hrun as <-. cbn [w_fs w_out]. rewrite pass_insert_refuses by done.
    split; [|by rewrite last_app_cons, last_cons_cons, last_singleton].
    unfold PassCli.remove_force, os_remove in Er.
    destruct (String.eqb _ _); [discriminate Er|].
    destruct (is_file _ _); [|destruct (is_dir _ _); discriminate Er].
    injection Er as <-. apply delete_subseteq.
  - injection Hrun as <-. cbn [w_fs w_out]. rewrite pass_insert_refuses by done.
    split; [done | apply last_snoc].
Qed.

(** C22: [PASSWORD_STORE_DIR] set to the empty string: the script
    takes [''] as the store (line 135) and [os.scandir('')] raises
    [FileNotFoundError] once the listing of [bw] is decoded, before any
    entry is written, while [pass] would take the empty variable as
    unset and use [~/.password-store]. *)
Theorem empty_store_dir_raises fuel k s w :
  env_store_dir env = Some EmptyString → token_at fuel k s w →
  fst (main fuel w) =
    Raised (match Utf8.decode (bw_list_out server s) with
            | Ok _ => OSError "FileNotFoundError" EmptyString
            | Err e => e
            end) ∧
  w_fs (snd (main fuel w)) = w_fs w ∧
  pass_prefix env = env_home env +:+ "/.password-store".
Proof.
  intros Hd Ht.
  assert (He : ∀ fs, PassCli.list_pass_names env fs =
                     Err (OSError "FileNotFoundError" EmptyString)).
  { intros fs. unfold PassCli.list_pass_names, os_scandir, PassCli.pass_directory. by rewrite Hd. }
  assert (fst (main fuel w) =
            Raised (match Utf8.decode (bw_list_out server s) with
                    | Ok _ => OSError "FileNotFoundError" EmptyString
                    | Err e => e
                    end) ∧ w_fs (snd (main fuel w)) = w_fs w) as [H1 H2].
  { rewrite (main_token _ _ _ _ Ht). unfold main_session. st_simpl.
    destruct (Utf8.decode _); st_simpl; cbn [w_fs]; [rewrite He; st_simpl|]; by split. }
  split_and!; [done | done | unfold pass_prefix; by rewrite Hd].
Qed.

(** ** The loop's log and the listing it reads *)



End main.
End Main.
