(* ===== verification/Scenarios.v ===== *)
(** * Concrete runs of the script

    A home directory [/home/u] whose store [~/.password-store] holds the
    key file, a stale copy of one entry, an entry no longer in the
    source store and an entry in a subdirectory; a [bw] whose first two
    unlock calls print nothing and whose list, the UTF-8 bytes of the
    text [bw] prints, holds a login and a note.
    The runs are evaluated by [vm_compute]; they instantiate the
    theorems of [BWCli] and [Main] and show the behaviours recorded as
    findings: an item name that escapes the store, a name [pass]
    refuses, an empty [PASSWORD_STORE_DIR], and bytes that are not
    UTF-8. *)

From S2P Require Import Prelude PyStr PyDict PyJson Utf8 JsonLoads FileSys Cli PassCli BWCli BWItem Main.

Module Scenarios.

Definition store : path := ["home"; "u"; ".password-store"].

Definition env0 : Env := mkEnv None "/home/u" ["home"; "u"].

Definition fs0 : FS :=
  mkFS {[ store ++ [".gpg-id"] := "KEY";
          store ++ ["my-bank-login-abc1.gpg"] := "stale";
          store ++ ["old-site-login-0000.gpg"] := "x";
          store ++ ["sub"; "nested.gpg"] := "y" ]}
       {[ ["home"]; ["home"; "u"]; store; store ++ ["sub"] ]}.

Definition items0 : json := JArr [BWItem.ex_bank; BWItem.ex_wifi].

Definition srv0 : BwServer :=
  mkBw (λ k, if k <? 2 then [] else Utf8.encode "TOKEN")
       (λ _, Utf8.encode (JsonLoads.json_dumps items0)).

Definition w0 : World := mkWorld fs0 [] 0.

(** The world after one run, and after a second run on its store. *)
Definition w1 : World := snd (Main.main env0 srv0 5 w0).
Definition w2 : World := snd (Main.main env0 srv0 5 w1).

Definition bank_body : string :=
  "Name: My Bank" +:+ nl +:+ "Username: me" +:+ nl +:+ "Password: s3cret" +:+ nl +:+
  "URL: https://bank.example" +:+ nl.

Definition wifi_body : string := "Name: Wifi" +:+ nl +:+ "Notes: WPA2" +:+ nl.

(** The whole run: its output, the session token included, and the store
    it leaves. *)
Example run0_output :
  Main.main env0 srv0 5 w0 =
  (Done (),
   mkWorld
     (mkFS {[ store ++ [".gpg-id"] := "KEY";
              store ++ ["my-bank-login-abc1.gpg"] := bank_body;
              store ++ ["wifi-note-def6.gpg"] := wifi_body;
              store ++ ["old-site-login-0000.gpg"] := "x";
              store ++ ["sub"; "nested.gpg"] := "y" ]}
           {[ ["home"]; ["home"; "u"]; store; store ++ ["sub"] ]})
     (Main.banner_lines ++
      ["Unlocking bitwarden"; "> bw unlock --raw"; "> bw unlock --raw"; "> bw unlock --raw";
       "Syncing bitwarden passwords"; "> bw --session TOKEN sync";
       "Listing bitwarden items"; "> bw --session TOKEN list items";
       "Removed existing pass entry my-bank-login-abc1";
       "Inserted 70 bytes into my-bank-login-abc1";
       "Inserted 23 bytes into wifi-note-def6";
       Main.warning_line; tab +:+ "old-site-login-0000"])
     3).
Proof. vm_compute. reflexivity. Qed.

(** The entry in the subdirectory [sub] is not listed. *)
Example nested_entry_not_listed :
  PassCli.list_pass_names env0 fs0 = Ok ["old-site-login-0000"; "my-bank-login-abc1"].
Proof. vm_compute. reflexivity. Qed.

Lemma env0_ok : env_ok env0.
Proof. discriminate. Qed.

Lemma fs0_ok : Main.store_ok env0 fs0.
Proof. apply Main.store_ok_b_spec. vm_compute. reflexivity. Qed.

Lemma run0 : Main.main env0 srv0 5 w0 = (Done (), w1).
Proof. vm_compute. reflexivity. Qed.

Lemma run1 : Main.main env0 srv0 5 w1 = (Done (), w2).
Proof. vm_compute. reflexivity. Qed.

Lemma fs1_ok : Main.store_ok env0 (w_fs w1).
Proof. apply Main.store_ok_b_spec. vm_compute. reflexivity. Qed.

Lemma listed0 its : Main.listed_items srv0 its → its = [BWItem.ex_bank; BWItem.ex_wifi].
Proof.
  intros (s & t & parsed & _ & Ht & Hb & Hi). vm_compute in Ht. injection Ht as <-.
  vm_compute in Hb. injection Hb as <-. by injection Hi.
Qed.

(** ** The theorems at these inputs *)

Definition srv_mute : BwServer := mkBw (λ _, []) (λ _, []).

(** The unlock outputs of the runs below: nothing twice, then [TOKEN]. *)
Lemma token_third (srv : BwServer) w :
  (∀ k, bw_unlock_out srv k = if k <? 2 then [] else Utf8.encode "TOKEN") →
  w_unlock_calls w = 0 → Main.token_at srv 5 2 "TOKEN" w.
Proof.
  intros Hsrv Hw. unfold Main.token_at, BWCli.unlock_text. rewrite Hw.
  split_and!; [intros [|[|j]] Hj; rewrite ?Hsrv; [done | done | lia] | by rewrite Hsrv | discriminate | lia].
Qed.

Lemma token0 w : w_unlock_calls w = 0 → Main.token_at srv0 5 2 "TOKEN" w.
Proof. by apply token_third. Qed.

Lemma main_terminates_witness : fst (Main.main env0 srv0 5 w0) ≠ Diverged.
Proof. apply (Main.main_terminates env0 srv0 5 2 "TOKEN" w0). by apply token0. Defined.

Lemma main_logs_session_witness :
  Main.token_at srv0 5 2 "TOKEN" w0 ∧
  w_out w0 ++ Main.banner_lines ++ ["Unlocking bitwarden"] ++ replicate 3 BWCli.unlock_line ++
    ["Syncing bitwarden passwords"; Cli.command_line ["bw"; "--session"; "TOKEN"; "sync"];
     "Listing bitwarden items"; Cli.command_line ["bw"; "--session"; "TOKEN"; "list"; "items"]]
  `prefix_of` w_out (snd (Main.main env0 srv0 5 w0)).
Proof. split; [by apply token0 | apply (Main.main_logs_session env0 srv0 5 2 "TOKEN" w0); by apply token0]. Defined.

(** No store directory yet. *)
Definition fs_nostore : FS := mkFS {[ ["home"; "u"; "notes.txt"] := "a" ]} {[ ["home"]; ["home"; "u"] ]}.

Lemma main_store_error_first_witness :
  fst (Main.main env0 srv0 5 (mkWorld fs_nostore [] 0)) =
    Raised (OSError "FileNotFoundError" "/home/u/.password-store") ∧
  w_fs (snd (Main.main env0 srv0 5 (mkWorld fs_nostore [] 0))) = fs_nostore.
Proof.
  destruct (Main.main_store_error_first env0 srv0 5 2 "TOKEN" (mkWorld fs_nostore [] 0)
              (OSError "FileNotFoundError" "/home/u/.password-store"))
    as [Hr Hfs]; [by apply token0 | vm_compute; reflexivity |].
  split; [rewrite Hr; vm_compute; reflexivity | exact Hfs].
Defined.

Lemma list_pass_names_missing_witness :
  PassCli.list_pass_names env0 fs_nostore =
  Err (OSError "FileNotFoundError" (PassCli.pass_directory env0)).
Proof. apply list_pass_names_missing; vm_compute; [discriminate | reflexivity | reflexivity]. Defined.


(** [bw] prints a message instead of the items. *)
Definition srv_garbled : BwServer :=
  mkBw (λ k, if k <? 2 then [] else Utf8.encode "TOKEN")
       (λ _, Utf8.encode "You are not logged in.").

Lemma main_rejects_non_json_witness :
  fst (Main.main env0 srv_garbled 5 w0) = Raised (JSONDecodeError "Expecting value" 0) ∧
  w_fs (snd (Main.main env0 srv_garbled 5 w0)) = fs0.
Proof.
  apply (Main.main_rejects_non_json env0 srv_garbled 5 2 "TOKEN" w0
           ["old-site-login-0000"; "my-bank-login-abc1"]).
  - by apply token_third.
  - vm_compute. reflexivity.
  - vm_compute. reflexivity.
Defined.

(** [bw] stops after the first 40 characters of the listing. *)
Definition listing_rest : string :=
  String.substring 40 (String.length (JsonLoads.json_dumps items0) - 40) (JsonLoads.json_dumps items0).

Definition srv_cut : BwServer :=
  mkBw (λ k, if k <? 2 then [] else Utf8.encode "TOKEN")
       (λ _, Utf8.encode (String.substring 0 40 (JsonLoads.json_dumps items0))).

Lemma main_rejects_truncated_witness :
  (∃ e, fst (Main.main env0 srv_cut 5 w0) = Raised e) ∧
  w_fs (snd (Main.main env0 srv_cut 5 w0)) = fs0.
Proof.
  apply (Main.main_rejects_truncated env0 srv_cut 5 2 "TOKEN" w0
           ["old-site-login-0000"; "my-bank-login-abc1"] [BWItem.ex_bank; BWItem.ex_wifi]
           (String.substring 0 40 (JsonLoads.json_dumps items0)) listing_rest).
  - by apply token_third.
  - vm_compute. reflexivity.
  - vm_compute. reflexivity.
  - reflexivity.
  - vm_compute. reflexivity.
  - vm_compute. discriminate.
Defined.

Lemma unlock_diverges_witness :
  BWCli.unlock srv_mute 3 w0 = (Diverged, mkWorld fs0 (replicate 3 BWCli.unlock_line) 3).
Proof. rewrite (BWCli.unlock_diverges srv_mute 3 w0); [reflexivity | done]. Defined.

Lemma unlock_sound_witness :
  "TOKEN" ≠ EmptyString ∧
  ∃ k, k < 5 ∧ BWCli.unlock_text srv0 (w_unlock_calls w0 + k) = Ok "TOKEN" ∧
       ∀ j, j < k → BWCli.unlock_text srv0 (w_unlock_calls w0 + j) = Ok EmptyString.
Proof.
  apply (BWCli.unlock_sound srv0 5 w0 "TOKEN" (snd (BWCli.unlock srv0 5 w0))).
  vm_compute. reflexivity.
Defined.

(** [bw unlock] prints nothing, then a byte that starts no UTF-8
    sequence. *)
Definition srv_bad_unlock : BwServer :=
  mkBw (λ k, if k <? 1 then [] else [255%Z]) (λ _, []).

Lemma unlock_rejects_undecodable_witness :
  BWCli.unlock srv_bad_unlock 5 w0 =
  (Raised (UnicodeDecodeError 0 1 "invalid start byte"),
   mkWorld fs0 (replicate 2 BWCli.unlock_line) 2).
Proof.
  apply (BWCli.unlock_rejects_undecodable srv_bad_unlock 5 1 w0).
  - intros [|j] Hj; [reflexivity | lia].
  - vm_compute. reflexivity.
  - lia.
Defined.

(** [bw] lists an item whose name was written in Latin-1: the byte
    [0xE9] of [é] is followed by the closing quote, so
    [decode('utf-8')] raises before [json.loads] runs and before any
    entry is written. *)
Definition latin1_listing : list Z :=
  let q := String.String dquote EmptyString in
  Utf8.encode ("[{" +:+ q +:+ "name" +:+ q +:+ ":" +:+ q +:+ "caf") ++ [233%Z] ++
  Utf8.encode (q +:+ "}]").

Example latin1_listing_raises :
  let srv := mkBw (λ k, if k <? 2 then [] else Utf8.encode "TOKEN") (λ _, latin1_listing) in
  fst (Main.main env0 srv 5 w0) = Raised (UnicodeDecodeError 13 14 "invalid continuation byte") ∧
  w_fs (snd (Main.main env0 srv 5 w0)) = fs0.
Proof. vm_compute. split; reflexivity. Qed.

Lemma items0_flat : Main.items_flat srv0.
Proof.
  intros its names Hl Hn. apply listed0 in Hl as ->. vm_compute in Hn.
  injection Hn as <-. decide_by_eval.
Qed.



(** The output ends with the report of the one orphan. *)
Lemma main_reports_orphans_witness :
  ∃ pre, w_out w1 = pre ++ [Main.warning_line; tab +:+ "old-site-login-0000"].
Proof.
  destruct (Main.main_reports_orphans env0 srv0 5 w0 w1 run0)
    as (its & existing & names & Hl & He & Hn & [pre Hout] & _).
  apply listed0 in Hl as ->. vm_compute in He, Hn. injection He as <-. injection Hn as <-.
  exists pre. rewrite Hout. reflexivity.
Defined.

Lemma main_idempotent_witness : fs_files (w_fs w2) = fs_files (w_fs w1).
Proof.
  apply (Main.main_idempotent env0 srv0 5 5 w0 w1 w2 env0_ok fs0_ok); [| exact items0_flat | exact run0 | exact run1].
  intros s1 s2 _ _. reflexivity.
Defined.

Definition bad_item : json :=
  JObj [("id", JStr "0a1b"); ("name", JStr "x"); ("type", JInt 5); ("notes", JNull)].

Lemma sync_items_stops_at_error_witness :
  Main.sync_items env0 ([BWItem.ex_bank] ++ bad_item :: [BWItem.ex_wifi]) w0 =
  (Raised (Exception ("Unknown item type: " +:+ py_str (JInt 5))),
   snd (Main.sync_items env0 [BWItem.ex_bank] w0)).
Proof.
  apply Main.sync_items_stops_at_error; [vm_compute; reflexivity | left; reflexivity].
Defined.

(** The store of the specification's example: only its key file. *)
Definition fs_empty : FS :=
  mkFS {[ store ++ [".gpg-id"] := "KEY" ]} {[ ["home"]; ["home"; "u"]; store ]}.


(** The specification's end-to-end example: from the store with no
    entry, the run creates exactly the two entries [my-bank-login-abc1]
    and [wifi-note-def6], each body ending with a newline, and reports
    no ignored entry. *)
Example spec_end_to_end :
  let r := Main.main env0 srv0 5 (mkWorld fs_empty [] 0) in
  fst r = Done () ∧
  fs_files (w_fs (snd r)) =
    {[ store ++ [".gpg-id"] := "KEY";
       store ++ ["my-bank-login-abc1.gpg"] := bank_body;
       store ++ ["wifi-note-def6.gpg"] := wifi_body ]} ∧
  last (w_out (snd r)) = Some "Inserted 23 bytes into wifi-note-def6".
Proof. cbv zeta. split_and!; [vm_compute; reflexivity | decide_by_eval | vm_compute; reflexivity]. Qed.



(** ** Names that leave the store *)

(** An item named [/tmp/x], and a file [/tmp/x-note-abcd.gpg] outside
    the store. *)
Definition abs_item : json :=
  JObj [("id", JStr "abcd-1"); ("name", JStr "/tmp/x"); ("type", JInt 2); ("notes", JStr "n")].

Definition fs_abs : FS :=
  mkFS {[ store ++ [".gpg-id"] := "KEY"; ["tmp"; "x-note-abcd.gpg"] := "precious" ]}
       {[ ["home"]; ["home"; "u"]; store; ["tmp"] ]}.

Definition abs_body : string := "Name: /tmp/x" +:+ nl +:+ "Notes: n" +:+ nl.

Lemma absolute_name_deletes_outside_store_witness :
  PassCli.get_file_path env0 "/tmp/x-note-abcd" = "/tmp/x-note-abcd" +:+ ".gpg" ∧
  fs_files (w_fs (snd (Main.sync_item env0 abs_item (mkWorld fs_abs [] 0))))
    !! resolve (env_cwd env0) ("/tmp/x-note-abcd" +:+ ".gpg") = None.
Proof.
  apply (Main.absolute_name_deletes_outside_store env0 abs_item "/tmp/x-note-abcd" abs_body
           (mkWorld fs_abs [] 0)).
  - vm_compute. reflexivity.
  - vm_compute. reflexivity.
  - reflexivity.
  - vm_compute. reflexivity.
  - decide_by_eval.
  - vm_compute. reflexivity.
Defined.

(** The whole run on that item: the file outside the store is gone and
    the entry is written under [~/.password-store/tmp]. *)
Example absolute_name_run :
  let r := Main.main env0 (mkBw (λ _, Utf8.encode "T")
                                (λ _, Utf8.encode (JsonLoads.json_dumps (JArr [abs_item])))) 1
             (mkWorld fs_abs [] 0) in
  fst r = Done () ∧
  fs_files (w_fs (snd r)) !! ["tmp"; "x-note-abcd.gpg"] = None ∧
  fs_files (w_fs (snd r)) !! (store ++ ["tmp"; "x-note-abcd.gpg"]) = Some abs_body.
Proof. vm_compute. split_and!; reflexivity. Qed.

(** An item named [../x]: its name [../x-note-abcd] is one [pass]
    refuses, but the script first deletes [~/x-note-abcd.gpg]. *)
Definition dotdot_item : json :=
  JObj [("id", JStr "abcd-1"); ("name", JStr "../x"); ("type", JInt 2); ("notes", JStr "n")].

Definition fs_dotdot : FS :=
  mkFS {[ store ++ [".gpg-id"] := "KEY"; ["home"; "u"; "x-note-abcd.gpg"] := "mine" ]}
       {[ ["home"]; ["home"; "u"]; store ]}.

Lemma sneaky_name_reported_not_written_witness :
  fs_files (w_fs (snd (Main.sync_item env0 dotdot_item (mkWorld fs_dotdot [] 0))))
    ⊆ fs_files fs_dotdot ∧
  last (w_out (snd (Main.sync_item env0 dotdot_item (mkWorld fs_dotdot [] 0)))) =
    Some ("Inserted " +:+ str_of_nat (length (Utf8.encode ("Name: ../x" +:+ nl +:+ "Notes: n" +:+ nl))) +:+
          " bytes into " +:+ "../x-note-abcd").
Proof.
  apply (Main.sneaky_name_reported_not_written env0 dotdot_item "../x-note-abcd"
           ("Name: ../x" +:+ nl +:+ "Notes: n" +:+ nl) (mkWorld fs_dotdot [] 0)).
  - vm_compute. reflexivity.
  - vm_compute. reflexivity.
  - vm_compute. reflexivity.
  - vm_compute. reflexivity.
Defined.

(** The whole run: the file [~/x-note-abcd.gpg] is deleted, nothing is
    written, and the insert is reported. *)
Example dotdot_name_run :
  let r := Main.main env0 (mkBw (λ _, Utf8.encode "T")
                                (λ _, Utf8.encode (JsonLoads.json_dumps (JArr [dotdot_item])))) 1
             (mkWorld fs_dotdot [] 0) in
  fst r = Done () ∧
  fs_files (w_fs (snd r)) = {[ store ++ [".gpg-id"] := "KEY" ]} ∧
  last (w_out (snd r)) = Some "Inserted 20 bytes into ../x-note-abcd".
Proof. cbv zeta. split_and!; [vm_compute; reflexivity | decide_by_eval | vm_compute; reflexivity]. Qed.

(** [PASSWORD_STORE_DIR] set and empty. *)
Definition env_empty : Env := mkEnv (Some EmptyString) "/home/u" ["home"; "u"].

Lemma empty_store_dir_raises_witness :
  fst (Main.main env_empty srv0 5 w0) = Raised (OSError "FileNotFoundError" EmptyString) ∧
  w_fs (snd (Main.main env_empty srv0 5 w0)) = fs0 ∧
  pass_prefix env_empty = "/home/u" +:+ "/.password-store".
Proof.
  destruct (Main.empty_store_dir_raises env_empty srv0 5 2 "TOKEN" w0) as (H1 & H2 & H3);
    [reflexivity | by apply token0 |].
  split_and!; [rewrite H1; vm_compute; reflexivity | exact H2 | exact H3].
Defined.

(** ** Inputs outside the data model *)

(** A directory in the place of the note's entry file. *)
Definition fs_dir_entry : FS :=
  mkFS {[ store ++ [".gpg-id"] := "KEY" ]}
       {[ ["home"]; ["home"; "u"]; store; store ++ ["wifi-note-def6.gpg"] ]}.

Definition w_dir : World := mkWorld fs_dir_entry [] 0.

Lemma directory_entry_aborts_witness :
  Main.sync_items env0 ([BWItem.ex_bank] ++ BWItem.ex_wifi :: []) w_dir =
  (Raised (OSError "IsADirectoryError" (PassCli.get_file_path env0 "wifi-note-def6")),
   snd (Main.sync_items env0 [BWItem.ex_bank] w_dir)).
Proof.
  apply (Main.directory_entry_aborts env0 [BWItem.ex_bank] BWItem.ex_wifi [] "wifi-note-def6"
           wifi_body w_dir).
  - exact env0_ok.
  - apply Main.store_ok_b_spec. vm_compute. reflexivity.
  - decide_by_eval.
  - reflexivity.
  - vm_compute. reflexivity.
  - vm_compute. reflexivity.
  - vm_compute. reflexivity.
Defined.

End Scenarios.
